(** * ptcg-placeholder: the cache tiers and the page layout engine

    A shallow embedding of [src/utils/cache_manager.py], of
    [CacheEntry] in [src/models.py], of [handle_errors]/[log_error] in
    [src/utils/error_handler.py], of [src/pdf/page_layout.py] and of the
    page assembly of [src/pdf/pdf_generator.py], with the properties the
    specification states about them and further properties of the code.

    Conventions of the embedding.
    - Python [int] is [Z]. Python [float] has two embeddings. [PageLayout64]
      takes it as it is, a binary64 number with every operation rounded
      (Rocq's primitive floats); it carries what is stated about the values
      the layout engine computes: the grid formula and the card positions.
      [PageLayout] idealises it as an exact rational [Q]; it carries what
      is stated about counts, order and structure: validation, the variants
      of the layout and the page assembly.
    - [datetime] is a [Z] count of microseconds; a call of a cache operation
      takes all its readings of [datetime.now()] at one instant [now].
    - A Python [dict] is an association list in insertion order, one
      binding per key; the cache directory is a finite map from file names
      to files.
    - A function that can raise returns a [result]; code that reads and
      writes files runs in a state-and-exception monad over the directory
      and the error log. A file may refuse to be opened for reading or for
      writing and may hold text that is not JSON; [exists], [stat] and
      [unlink] do not fail on a file that is there, except that
      [FileCache_get_stat] and [FileCache_delete_stat] also cover a
      directory on which [stat] is refused. A device that fails while a
      file is being written is not modelled.
    - What the code takes from [pydantic], [hashlib], [datetime] and [json]
      is gathered in the class [Runtime]; nothing is assumed about it
      unless a statement says so.

    The file first gives the embedding ([PageLayout], [PageLayout64],
    [Cache], with a sample runtime [Sample], then [CacheRest],
    [PageLayoutRest] and [PdfGenerator]), then the facts: those the
    specification states ([PageLayoutFacts], [PageLayout64Facts],
    [MemoryFacts], [DiskFacts], [ManagerFacts]) and further ones
    ([MemoryMore], [DiskMore], [ManagerMore], [LayoutMore], [PdfFacts]).
    The image tier of the cache is not embedded. *)

From Stdlib Require Import ZArith QArith Qround Lqa Lia List.
From Stdlib Require Floats.PrimFloat Floats.SpecFloat Floats.FloatOps.
From stdpp Require Import gmap strings list fin_maps pretty sorting.

Set Default Proof Using "Type".
Set Warnings "-register-all".
Set Warnings "-inexact-float".
Local Open Scope list_scope.

(** ** Exceptions and results *)

Inductive exn : Type :=
| ZeroDivisionError
| OSError
| JSONDecodeError
| KeyError (k : string)
| TypeError
| ValueError
| PydanticValidationError
| CacheError (operation key : string) (reason : exn)
| UnexpectedError (func : string) (cause : exn).

Inductive result (A : Type) : Type :=
| Ok (a : A)
| Raise (e : exn).
Arguments Ok {A} a.
Arguments Raise {A} e.

(** ** The page layout engine ([src/pdf/page_layout.py]) *)

(** The engine with floats idealised as exact rationals: what it computes
    when no operation rounds. [PageLayout64] below is the engine in
    binary64. *)

Module PageLayout.
Local Open Scope Q_scope.

(** The attributes [PageLayoutManager.__init__] reads from the settings. *)
Record PageLayoutManager : Type := {
  a4_width_mm : Q;
  a4_height_mm : Q;
  card_width_mm : Q;
  card_height_mm : Q;
  margin_mm : Q;
  card_spacing_mm : Q
}.

(** The dictionary [calculate_optimal_layout] returns, one field per key. *)
Record LayoutResult : Type := {
  rows : Z;
  cols : Z;
  cards_per_page : Z;
  total_pages : Z;
  usable_width_mm : Q;
  usable_height_mm : Q;
  margin : Q;
  spacing : Q;
  layout_card_width_mm : Q;
  layout_card_height_mm : Q;
  horizontal_spacing_mm : Q;
  vertical_spacing_mm : Q
}.

(** [reportlab.lib.units.mm]: 72 points per inch, 25.4 mm per inch. *)
Definition mm : Q := 360 # 127.

(** The defaults of [config/settings.py] and [config/constants.py]. *)
Definition default_manager : PageLayoutManager := {|
  a4_width_mm := 210;
  a4_height_mm := 297;
  card_width_mm := 63;
  card_height_mm := 88;
  margin_mm := 5;
  card_spacing_mm := 2
|}.

(** Python's [a // b], then [int(...)], on exact operands: the floor of
    their quotient. *)
Definition floordiv (a b : Q) : result Z :=
  if Qeq_bool b 0 then Raise ZeroDivisionError else Ok (Qfloor (a / b)).

(** Python's [min(a, b)]: [b] only when it is strictly smaller. *)
Definition py_min (a b : Q) : Q :=
  if Qlt_le_dec b a then b else a.

Definition _calculate_cards_per_row (self : PageLayoutManager) (usable_width : Q)
  : result Z :=
  let card_plus_spacing := card_width_mm self + card_spacing_mm self in
  match floordiv (usable_width + card_spacing_mm self) card_plus_spacing with
  | Raise e => Raise e
  | Ok max_cards => Ok (Z.max 1 max_cards)
  end.

Definition _calculate_cards_per_column (self : PageLayoutManager) (usable_height : Q)
  : result Z :=
  let card_plus_spacing := card_height_mm self + card_spacing_mm self in
  match floordiv (usable_height + card_spacing_mm self) card_plus_spacing with
  | Raise e => Raise e
  | Ok max_cards => Ok (Z.max 1 max_cards)
  end.

Definition _calculate_actual_horizontal_spacing
  (self : PageLayoutManager) (usable_width : Q) (cols : Z) : Q :=
  if (cols <=? 1)%Z then 0
  else
    let total_card_width := inject_Z cols * card_width_mm self in
    let remaining_space := usable_width - total_card_width in
    let spacing_gaps := (cols - 1)%Z in
    if (0 <? spacing_gaps)%Z then remaining_space / inject_Z spacing_gaps else 0.

Definition _calculate_actual_vertical_spacing
  (self : PageLayoutManager) (usable_height : Q) (rows : Z) : Q :=
  if (rows <=? 1)%Z then 0
  else
    let total_card_height := inject_Z rows * card_height_mm self in
    let remaining_space := usable_height - total_card_height in
    let spacing_gaps := (rows - 1)%Z in
    if (0 <? spacing_gaps)%Z then remaining_space / inject_Z spacing_gaps else 0.

Definition calculate_optimal_layout (self : PageLayoutManager) (total_cards : Z)
  : result LayoutResult :=
  let usable_width := a4_width_mm self - 2 * margin_mm self in
  let usable_height := a4_height_mm self - 2 * margin_mm self in
  match _calculate_cards_per_row self usable_width with
  | Raise e => Raise e
  | Ok cols =>
    match _calculate_cards_per_column self usable_height with
    | Raise e => Raise e
    | Ok rows =>
      let cards_per_page := (rows * cols)%Z in
      let total_pages := ((total_cards + cards_per_page - 1) / cards_per_page)%Z in
      let actual_h_spacing :=
        _calculate_actual_horizontal_spacing self usable_width cols in
      let actual_v_spacing :=
        _calculate_actual_vertical_spacing self usable_height rows in
      Ok {| rows := rows;
            cols := cols;
            cards_per_page := cards_per_page;
            total_pages := total_pages;
            usable_width_mm := usable_width;
            usable_height_mm := usable_height;
            margin := margin_mm self * mm;
            spacing := py_min actual_h_spacing actual_v_spacing * mm;
            layout_card_width_mm := card_width_mm self;
            layout_card_height_mm := card_height_mm self;
            horizontal_spacing_mm := actual_h_spacing;
            vertical_spacing_mm := actual_v_spacing |}
    end
  end.

(** [range(n)] as the integers [0 .. n-1]; empty for [n <= 0]. *)
Definition range (n : Z) : list Z := seqZ 0 n.

(** The bare [except:] turns every exception into [False]. *)
Definition validate_layout (self : PageLayoutManager) (total_cards : Z) : bool :=
  match calculate_optimal_layout self total_cards with
  | Ok layout => (0 <? cards_per_page layout)%Z && (0 <? total_pages layout)%Z
  | Raise _ => false
  end.

(** *** Notions used to state the engine's properties *)

(** The configured sizes are positive; margin and spacing are not negative. *)
Definition positive_dimensions (self : PageLayoutManager) : Prop :=
  0 < a4_width_mm self /\ 0 < a4_height_mm self /\
  0 < card_width_mm self /\ 0 < card_height_mm self /\
  0 <= margin_mm self /\ 0 <= card_spacing_mm self.


End PageLayout.

(** ** The page layout engine in binary64 ([src/pdf/page_layout.py]) *)

(** The same functions with Python's floats as they are: binary64 numbers,
    every sum, product and quotient rounded to the nearest one. This is the
    embedding for what depends on the values computed: the grid formula and
    the card positions. *)

Module PageLayout64.
Import PrimFloat SpecFloat FloatOps.

(** *** Floats *)

(** Neither an infinity nor a NaN. *)
Definition finite (x : float) : bool :=
  match Prim2SF x with
  | S754_zero _ | S754_finite _ _ _ => true
  | S754_infinity _ | S754_nan => false
  end.

(** The exact value of a finite float, in lowest terms; 0 for the others. *)
Definition F2Q (x : float) : Q :=
  match Prim2SF x with
  | S754_finite s m e =>
      Qred (inject_Z (if s then Z.neg m else Z.pos m) * Qpower 2 e)
  | _ => 0
  end.

(** [float(n)], the conversion Python applies to an [int] that meets a
    float in a product or a quotient: the nearest binary64 number, [n]
    itself up to [2^53]. (From [2^1024] on Python raises [OverflowError]
    where this gives an infinity; the counts of a layout are below
    [2^50].) *)
Definition Z2F (n : Z) : float :=
  SF2Prim (binary_normalize prec emax n 0 false).

(** [int(a // b)]. Floor division raises on a zero divisor, whatever the
    dividend. On finite operands it computes the remainder exactly and
    snaps the quotient it derives from it to the nearest integer, which is
    the floor of the exact quotient of [a] and [b] as long as the rounding
    of that quotient stays below one half: the embedding answers up to
    [2^50] and gives no answer ([None]) for a larger quotient. A finite
    number floor-divided by an infinity is 0 or -1; every other case is a
    NaN, which [int] refuses. *)
Definition int_floordiv (a b : float) : option (result Z) :=
  match Prim2SF b with
  | S754_zero _ => Some (Raise ZeroDivisionError)
  | S754_nan => Some (Raise ValueError)
  | S754_infinity sb =>
      match Prim2SF a with
      | S754_zero _ => Some (Ok 0%Z)
      | S754_finite sa _ _ => Some (Ok (if Bool.eqb sa sb then 0 else -1)%Z)
      | S754_infinity _ | S754_nan => Some (Raise ValueError)
      end
  | S754_finite _ _ _ =>
      if finite a then
        let q := Qfloor (F2Q a / F2Q b) in
        if (Z.abs q <? 2 ^ 50)%Z then Some (Ok q) else None
      else Some (Raise ValueError)
  end.

(** Python's [min(a, b)]: [b] only when it is strictly smaller. *)
Definition py_min (a b : float) : float :=
  if (b <? a)%float then b else a.

(** *** [PageLayoutManager] *)

(** The attributes [PageLayoutManager.__init__] reads from the settings.
    The page size is an [int] there; it meets floats in every expression
    it occurs in and is converted at once. *)
Record PageLayoutManager : Type := {
  a4_width_mm : float;
  a4_height_mm : float;
  card_width_mm : float;
  card_height_mm : float;
  margin_mm : float;
  card_spacing_mm : float
}.

(** The dictionary [calculate_optimal_layout] returns, one field per key. *)
Record LayoutResult : Type := {
  rows : Z;
  cols : Z;
  cards_per_page : Z;
  total_pages : Z;
  usable_width_mm : float;
  usable_height_mm : float;
  margin : float;
  spacing : float;
  layout_card_width_mm : float;
  layout_card_height_mm : float;
  horizontal_spacing_mm : float;
  vertical_spacing_mm : float
}.

(** [reportlab.lib.units.mm]: [inch = 72.0], [cm = inch / 2.54],
    [mm = cm * 0.1]. *)
Definition mm : float := (72 / 2.54 * 0.1)%float.

(** The defaults of [config/settings.py] and [config/constants.py]. *)
Definition default_manager : PageLayoutManager := {|
  a4_width_mm := 210;
  a4_height_mm := 297;
  card_width_mm := 63;
  card_height_mm := 88;
  margin_mm := 5;
  card_spacing_mm := 2
|}.

Definition _calculate_cards_per_row (self : PageLayoutManager)
  (usable_width : float) : option (result Z) :=
  let card_plus_spacing := (card_width_mm self + card_spacing_mm self)%float in
  match int_floordiv (usable_width + card_spacing_mm self)%float
          card_plus_spacing with
  | Some (Ok max_cards) => Some (Ok (Z.max 1 max_cards))
  | other => other
  end.

Definition _calculate_cards_per_column (self : PageLayoutManager)
  (usable_height : float) : option (result Z) :=
  let card_plus_spacing := (card_height_mm self + card_spacing_mm self)%float in
  match int_floordiv (usable_height + card_spacing_mm self)%float
          card_plus_spacing with
  | Some (Ok max_cards) => Some (Ok (Z.max 1 max_cards))
  | other => other
  end.

Definition _calculate_actual_horizontal_spacing
  (self : PageLayoutManager) (usable_width : float) (cols : Z) : float :=
  if (cols <=? 1)%Z then 0%float
  else
    let total_card_width := (Z2F cols * card_width_mm self)%float in
    let remaining_space := (usable_width - total_card_width)%float in
    let spacing_gaps := (cols - 1)%Z in
    if (0 <? spacing_gaps)%Z then (remaining_space / Z2F spacing_gaps)%float
    else 0%float.

Definition _calculate_actual_vertical_spacing
  (self : PageLayoutManager) (usable_height : float) (rows : Z) : float :=
  if (rows <=? 1)%Z then 0%float
  else
    let total_card_height := (Z2F rows * card_height_mm self)%float in
    let remaining_space := (usable_height - total_card_height)%float in
    let spacing_gaps := (rows - 1)%Z in
    if (0 <? spacing_gaps)%Z then (remaining_space / Z2F spacing_gaps)%float
    else 0%float.

Definition calculate_optimal_layout (self : PageLayoutManager) (total_cards : Z)
  : option (result LayoutResult) :=
  let usable_width := (a4_width_mm self - 2 * margin_mm self)%float in
  let usable_height := (a4_height_mm self - 2 * margin_mm self)%float in
  match _calculate_cards_per_row self usable_width with
  | None => None
  | Some (Raise e) => Some (Raise e)
  | Some (Ok cols) =>
    match _calculate_cards_per_column self usable_height with
    | None => None
    | Some (Raise e) => Some (Raise e)
    | Some (Ok rows) =>
      let cards_per_page := (rows * cols)%Z in
      let total_pages := ((total_cards + cards_per_page - 1) / cards_per_page)%Z in
      let actual_h_spacing :=
        _calculate_actual_horizontal_spacing self usable_width cols in
      let actual_v_spacing :=
        _calculate_actual_vertical_spacing self usable_height rows in
      Some (Ok {| rows := rows;
                  cols := cols;
                  cards_per_page := cards_per_page;
                  total_pages := total_pages;
                  usable_width_mm := usable_width;
                  usable_height_mm := usable_height;
                  margin := (margin_mm self * mm)%float;
                  spacing := (py_min actual_h_spacing actual_v_spacing * mm)%float;
                  layout_card_width_mm := card_width_mm self;
                  layout_card_height_mm := card_height_mm self;
                  horizontal_spacing_mm := actual_h_spacing;
                  vertical_spacing_mm := actual_v_spacing |})
    end
  end.


(** *** Notions used to state the engine's properties *)

(** The configured sizes are finite and positive; margin and spacing are
    finite and not negative. *)
Definition positive_dimensions (self : PageLayoutManager) : Prop :=
  ((finite (a4_width_mm self) = true /\ 0 < F2Q (a4_width_mm self)) /\
  (finite (a4_height_mm self) = true /\ 0 < F2Q (a4_height_mm self)) /\
  (finite (card_width_mm self) = true /\ 0 < F2Q (card_width_mm self)) /\
  (finite (card_height_mm self) = true /\ 0 < F2Q (card_height_mm self)) /\
  (finite (margin_mm self) = true /\ 0 <= F2Q (margin_mm self)) /\
  (finite (card_spacing_mm self) = true /\ 0 <= F2Q (card_spacing_mm self)))%Q.




(** The default page and card with a margin of 7.3 mm and a spacing of
    3.2 mm: three cards and two gaps fill the usable width exactly. *)
Definition exact_fit_manager : PageLayoutManager := {|
  a4_width_mm := 210;
  a4_height_mm := 297;
  card_width_mm := 63;
  card_height_mm := 88;
  margin_mm := 7.3;
  card_spacing_mm := 3.2
|}.


End PageLayout64.

(** ** The cache tiers ([src/utils/cache_manager.py], [src/models.py]) *)

Module Cache.

(** *** Python values *)

(** The payloads a tier stores and returns. [PNone] is also the "absent"
    answer of every [get]. A float is a finite one; the keys of a
    dictionary are strings. [PObj] stands for any object that [json] cannot
    encode by itself (a URL object, a [datetime], ...), carried with the
    text [str] gives for it. *)
Inductive pyval : Type :=
| PNone
| PBool (b : bool)
| PInt (n : Z)
| PFloat (q : Q)
| PStr (s : string)
| PList (l : list pyval)
| PDict (d : list (string * pyval))
| PObj (str : string)
| PTuple (l : list pyval).

(** Python truthiness, as [if v:] and [a or b] test it. *)
Definition truthy (v : pyval) : bool :=
  match v with
  | PNone => false
  | PBool b => b
  | PInt n => negb (n =? 0)%Z
  | PFloat q => negb (Qeq_bool q 0)
  | PStr s => negb (String.eqb s "")
  | PList l => match l with [] => false | _ => true end
  | PDict d => match d with [] => false | _ => true end
  | PObj _ => true
  | PTuple l => match l with [] => false | _ => true end
  end.

Definition is_none (v : pyval) : bool :=
  match v with PNone => true | _ => false end.

(** *** Python dictionaries: insertion-ordered, one binding per key *)

Section pydict.
Context {V : Type}.

Fixpoint dict_get (k : string) (d : list (string * V)) : option V :=
  match d with
  | [] => None
  | (k', v) :: d' => if String.eqb k k' then Some v else dict_get k d'
  end.

(** [d[k] = v]: an existing key keeps its place, a new one goes last. *)
Fixpoint dict_set (k : string) (v : V) (d : list (string * V)) : list (string * V) :=
  match d with
  | [] => [(k, v)]
  | (k', v') :: d' =>
      if String.eqb k k' then (k, v) :: d' else (k', v') :: dict_set k v d'
  end.

(** [del d[k]]. *)
Fixpoint dict_del (k : string) (d : list (string * V)) : list (string * V) :=
  match d with
  | [] => []
  | (k', v') :: d' =>
      if String.eqb k k' then dict_del k d' else (k', v') :: dict_del k d'
  end.

Definition dict_keys (d : list (string * V)) : list string := List.map fst d.

(** The invariant of a Python dictionary: no key is bound twice. *)
Definition dict_wf (d : list (string * V)) : Prop := List.NoDup (dict_keys d).

End pydict.

(** *** What the embedding takes from the libraries the code calls *)

Class Runtime : Type := {
  (** pydantic's validation of the field [CacheEntry.data]; [None] when it
      raises. *)
  validate_data : pyval -> option pyval;
  (** [hashlib.md5(key.encode()).hexdigest()] *)
  md5_hexdigest : string -> string;
  (** [datetime.isoformat] and [datetime.fromisoformat] *)
  isoformat : Z -> string;
  fromisoformat : string -> option Z;
  (** the number of bytes [json.dump(..., indent=2)] writes *)
  json_size : pyval -> Z
}.

(** *** [CacheEntry] ([src/models.py]) *)

Record CacheEntry : Type := {
  key : string;
  data : pyval;
  created_at : Z;
  expires_at : option Z;
  access_count : Z;
  last_accessed : option Z
}.

Definition timedelta_hours (hours : Z) : Z := hours * 3600000000.

Definition is_expired (now : Z) (self : CacheEntry) : bool :=
  match expires_at self with
  | None => false
  | Some t => (t <? now)%Z
  end.

Definition mark_accessed (now : Z) (self : CacheEntry) : CacheEntry :=
  {| key := key self;
     data := data self;
     created_at := created_at self;
     expires_at := expires_at self;
     access_count := access_count self + 1;
     last_accessed := Some now |}.

(** *** [MemoryCache] *)

Record MemoryCache : Type := {
  _cache : list (string * CacheEntry);
  max_size : Z;
  default_ttl_hours : Z
}.

Definition with_cache (self : MemoryCache) (c : list (string * CacheEntry))
  : MemoryCache :=
  {| _cache := c; max_size := max_size self;
     default_ttl_hours := default_ttl_hours self |}.

(** [MemoryCache(max_size, default_ttl_hours)] *)
Definition MemoryCache_init (max_size default_ttl_hours : Z) : MemoryCache :=
  {| _cache := []; max_size := max_size; default_ttl_hours := default_ttl_hours |}.

(** [entry.last_accessed or entry.created_at]: a [datetime] is always truthy. *)
Definition lru_stamp (entry : CacheEntry) : Z :=
  match last_accessed entry with
  | Some t => t
  | None => created_at entry
  end.

(** Python's [min(iterable, key=...)]: the first item whose key is smallest.
    The keys are walked in dictionary order, each with its entry. *)
Fixpoint min_from (best : string * CacheEntry) (rest : list (string * CacheEntry))
  : string * CacheEntry :=
  match rest with
  | [] => best
  | item :: rest' =>
      if (lru_stamp (snd item) <? lru_stamp (snd best))%Z
      then min_from item rest'
      else min_from best rest'
  end.

Definition lru_key (c : list (string * CacheEntry)) : option string :=
  match c with
  | [] => None
  | item :: rest => Some (fst (min_from item rest))
  end.

Definition _evict_lru (self : MemoryCache) : MemoryCache :=
  match lru_key (_cache self) with
  | None => self
  | Some k => with_cache self (dict_del k (_cache self))
  end.

Definition MemoryCache_get (now : Z) (key : string) (self : MemoryCache)
  : pyval * MemoryCache :=
  match dict_get key (_cache self) with
  | None => (PNone, self)
  | Some entry =>
      if is_expired now entry
      then (PNone, with_cache self (dict_del key (_cache self)))
      else (data entry,
            with_cache self (dict_set key (mark_accessed now entry) (_cache self)))
  end.

(** [ttl_hours or self.default_ttl_hours] *)
Definition ttl_or_default (ttl_hours : option Z) (default : Z) : Z :=
  match ttl_hours with
  | Some t => if (t =? 0)%Z then default else t
  | None => default
  end.

Section memory_set.
Context {rt : Runtime}.

(** [CacheEntry(key=..., data=..., expires_at=...)]; [created_at] defaults
    to [datetime.now()]. *)
Definition CacheEntry_new (now : Z) (key : string) (data : pyval)
  (expires_at : option Z) : result CacheEntry :=
  match validate_data data with
  | None => Raise PydanticValidationError
  | Some data' =>
      Ok {| key := key; data := data'; created_at := now;
            expires_at := expires_at; access_count := 0;
            last_accessed := None |}
  end.

Definition MemoryCache_set (now : Z) (key : string) (data : pyval)
  (ttl_hours : option Z) (self : MemoryCache) : result unit * MemoryCache :=
  let self1 :=
    if (max_size self <=? Z.of_nat (length (_cache self)))%Z
    then _evict_lru self else self in
  let ttl := ttl_or_default ttl_hours (default_ttl_hours self) in
  let expires_at := (now + timedelta_hours ttl)%Z in
  match CacheEntry_new now key data (Some expires_at) with
  | Raise e => (Raise e, self1)
  | Ok entry => (Ok tt, with_cache self1 (dict_set key entry (_cache self1)))
  end.

End memory_set.

Definition MemoryCache_delete (key : string) (self : MemoryCache)
  : bool * MemoryCache :=
  match dict_get key (_cache self) with
  | Some _ => (true, with_cache self (dict_del key (_cache self)))
  | None => (false, self)
  end.

Definition MemoryCache_clear (self : MemoryCache) : MemoryCache :=
  with_cache self [].

(** *** Notions used to state the Memory Tier's properties *)

(** The entry [set] builds from validated data. *)
Definition new_entry (now : Z) (key : string) (data' : pyval)
  (ttl_hours : option Z) (self : MemoryCache) : CacheEntry :=
  {| key := key; data := data'; created_at := now;
     expires_at :=
       Some (now + timedelta_hours
                     (ttl_or_default ttl_hours (default_ttl_hours self)))%Z;
     access_count := 0; last_accessed := None |}.

(** The cache [set] inserts into: the old one, less the least recently used
    entry when the size test fires. *)
Definition after_eviction (self : MemoryCache) : MemoryCache :=
  if (max_size self <=? Z.of_nat (length (_cache self)))%Z
  then _evict_lru self else self.

(** A [ttl_hours] that Python takes for false: [None] or [0]. *)
Definition falsy_ttl (ttl_hours : option Z) : Prop :=
  ttl_hours = None \/ ttl_hours = Some 0%Z.

(** The operations of the tier, to speak of sequences of calls. *)
Inductive memory_op : Type :=
| OpGet (now : Z) (key : string)
| OpSet (now : Z) (key : string) (data : pyval) (ttl_hours : option Z)
| OpDelete (key : string)
| OpClear.

Section memory_run.
Context {rt : Runtime}.

Definition run_op (o : memory_op) (self : MemoryCache) : MemoryCache :=
  match o with
  | OpGet now key => snd (MemoryCache_get now key self)
  | OpSet now key data ttl_hours => snd (MemoryCache_set now key data ttl_hours self)
  | OpDelete key => snd (MemoryCache_delete key self)
  | OpClear => MemoryCache_clear self
  end.

Definition run_ops (ops : list memory_op) (self : MemoryCache) : MemoryCache :=
  fold_left (fun m o => run_op o m) ops self.

End memory_run.

Definition within_bound (self : MemoryCache) : Prop :=
  (Z.of_nat (length (_cache self)) <= max_size self)%Z.

(** A call has evicted when a key stored before it is stored no more. *)
Definition evicted (before after : MemoryCache) : Prop :=
  exists k, dict_get k (_cache before) <> None /\
            dict_get k (_cache after) = None.

(** *** What [json] does to a payload *)

(** [json.dump] alone encodes exactly the values without a [PObj]; a
    tuple it writes as an array. *)
Fixpoint json_native (v : pyval) : bool :=
  match v with
  | PObj _ => false
  | PList l | PTuple l => forallb json_native l
  | PDict d => forallb (fun kv => json_native (snd kv)) d
  | _ => true
  end.

(** The values [json] writes and reads back as they are: no object it
    cannot encode and no tuple. *)
Fixpoint json_plain (v : pyval) : bool :=
  match v with
  | PObj _ | PTuple _ => false
  | PList l => forallb json_plain l
  | PDict d => forallb (fun kv => json_plain (snd kv)) d
  | _ => true
  end.

(** What [json.load] reads back after [json.dump(v, default=str)]: every
    object [json] cannot encode has been replaced by its [str] text, and
    every tuple has become a list. *)
Fixpoint json_default_str (v : pyval) : pyval :=
  match v with
  | PObj s => PStr s
  | PList l | PTuple l => PList (List.map json_default_str l)
  | PDict d => PDict (List.map (fun kv => (fst kv, json_default_str (snd kv))) d)
  | _ => v
  end.

(** *** The directory of the Disk Tier and the error log *)

(** What reading a file gives: [open] raises, or [json.load] rejects the
    text, or [json.load] returns a document (which then holds no tuple and
    no object of [PObj]). *)
Inductive text : Type :=
| Unreadable
| Malformed
| Doc (v : pyval).

(** A file of the cache directory: its text, whether [open(..., 'w')]
    succeeds on it, and the [st_size] and [st_mtime] of its [stat()]. *)
Record file : Type := {
  f_text : text;
  f_writable : bool;
  f_size : Z;
  f_mtime : Z
}.

(** [files]: the [*.json] files of [api_cache_dir], by file name.
    [log]: what [log_error] has been given, oldest first. *)
Record world : Type := {
  files : gmap string file;
  log : list exn
}.

Definition with_files (w : world) (fs : gmap string file) : world :=
  {| files := fs; log := log w |}.

(** Computations that read and change the world and may raise. *)
Definition M (A : Type) : Type := world -> result A * world.

#[export] Instance M_ret : MRet M := fun A a w => (Ok a, w).
#[export] Instance M_bind : MBind M := fun A B k m w =>
  match m w with
  | (Ok a, w') => k a w'
  | (Raise e, w') => (Raise e, w')
  end.

Definition raise {A} (e : exn) : M A := fun w => (Raise e, w).

(** [try: body  except Exception as e: handler(e)] *)
Definition try_except {A} (body : M A) (handler : exn -> M A) : M A := fun w =>
  match body w with
  | (Ok a, w') => (Ok a, w')
  | (Raise e, w') => handler e w'
  end.

Fixpoint for_each {A} (l : list A) (body : A -> M unit) : M unit :=
  match l with
  | [] => mret tt
  | x :: l' => body x ;; for_each l' body
  end.

(** [log_error] of [src/utils/error_handler.py] *)
Definition log_error (error : exn) : M unit := fun w =>
  (Ok tt, {| files := files w; log := log w ++ [error] |}).

(** Is [e] an instance of [PokemonCardGeneratorError]? *)
Definition is_generator_error (e : exn) : bool :=
  match e with
  | CacheError _ _ _ | UnexpectedError _ _ => true
  | _ => false
  end.

(** The decorator [@handle_errors(reraise=True)] around [func]. *)
Definition handle_errors_reraise {A} (func_name : string) (func : M A) : M A :=
  try_except func (fun e =>
    if is_generator_error e then log_error e ;; raise e
    else
      let error := UnexpectedError func_name e in
      log_error error ;; raise error).

(** [file_path.exists()] on a directory where [stat] answers;
    [CacheRest.path_exists_stat] adds the directory where it is refused. *)
Definition path_exists (file_path : string) : M bool := fun w =>
  (Ok (match files w !! file_path with Some _ => true | None => false end), w).

(** [with open(file_path, 'r') as f: json.load(f)] *)
Definition read_json (file_path : string) : M pyval := fun w =>
  match files w !! file_path with
  | None => (Raise OSError, w)
  | Some f =>
      match f_text f with
      | Doc v => (Ok v, w)
      | Malformed => (Raise JSONDecodeError, w)
      | Unreadable => (Raise OSError, w)
      end
  end.

(** [file_path.unlink()] *)
Definition unlink (file_path : string) : M unit := fun w =>
  match files w !! file_path with
  | None => (Raise OSError, w)
  | Some _ => (Ok tt, with_files w (delete file_path (files w)))
  end.

(** [list(api_cache_dir.glob("*.json"))], each path with its [stat()] *)
Definition glob : M (list (string * file)) := fun w =>
  (Ok (map_to_list (files w)), w).

Section disk.
Context {rt : Runtime}.

(** [with open(file_path, 'w') as f: json.dump(v, f, ...)], with or without
    [default=str]. [open] raises on a file that cannot be written and
    creates a missing one. Opening truncates the file; when [json.dump] then
    raises (a value it cannot encode and no [default]) the file is left
    without a document. With [default=str] every value of [pyval] is
    encoded. *)
Definition write_json (now : Z) (file_path : string) (v : pyval)
  (default_str : bool) : M unit := fun w =>
  let writable := from_option f_writable true (files w !! file_path) in
  if negb writable then (Raise OSError, w)
  else if default_str || json_native v then
    let doc := if default_str then json_default_str v else v in
    (Ok tt, with_files w (<[file_path :=
       {| f_text := Doc doc; f_writable := true;
          f_size := json_size doc; f_mtime := now |}]>
       (files w)))
  else
    (Raise TypeError, with_files w (<[file_path :=
       {| f_text := Malformed; f_writable := true;
          f_size := 0; f_mtime := now |}]>
       (files w))).

(** *** [FileCache] *)

Record FileCache : Type := {
  max_size_mb : Z
}.

(** [hashlib.md5(key.encode()).hexdigest()] and the file of that name. A
    key is a string [encode] accepts. *)
Definition _get_cache_file_path (key : string) : string :=
  let safe_key := md5_hexdigest key in
  safe_key +:+ ".json".

(** [sorted(..., key=lambda f: f.stat().st_mtime)]: stable, oldest first. *)
Fixpoint insert_by_mtime (x : string * file) (l : list (string * file))
  : list (string * file) :=
  match l with
  | [] => [x]
  | y :: l' =>
      if (f_mtime (snd x) <=? f_mtime (snd y))%Z then x :: y :: l'
      else y :: insert_by_mtime x l'
  end.

Definition sorted_by_mtime (l : list (string * file)) : list (string * file) :=
  foldr insert_by_mtime [] l.

Definition total_size (l : list (string * file)) : Z :=
  foldr (fun x acc => f_size (snd x) + acc)%Z 0%Z l.

Definition _cleanup_if_needed (self : FileCache) : M unit :=
  try_except
    (listing ← glob;
     let total_size := total_size listing in
     let max_size_bytes := (max_size_mb self * 1024 * 1024)%Z in
     if (max_size_bytes <? total_size)%Z then
       listing' ← glob;
       let files := sorted_by_mtime listing' in
       for_each (take (length files / 4) files) (fun f => unlink (fst f))
     else mret tt)
    (fun e => log_error (CacheError "cleanup" "size_limit" e)).

(** [data.get('access_count', 0) + 1] *)
Definition add_one (v : pyval) : M pyval :=
  match v with
  | PInt n => mret (PInt (n + 1))
  | PBool b => mret (PInt (Z.b2z b + 1))
  | PFloat q => mret (PFloat (q + 1))
  | _ => raise TypeError
  end.

(** The test of [get] on the document [d] it loaded:
    ['expires_at' in data and data['expires_at']], then [fromisoformat] and
    [datetime.now() > expires_at]. *)
Definition document_expired (now : Z) (d : list (string * pyval)) : M bool :=
  match dict_get "expires_at" d with
  | None => mret false
  | Some x =>
      if truthy x then
        match x with
        | PStr s =>
            match fromisoformat s with
            | Some expires_at => mret (expires_at <? now)%Z
            | None => raise ValueError
            end
        | _ => raise TypeError
        end
      else mret false
  end.

Definition FileCache_get (self : FileCache) (now : Z) (key : string) : M pyval :=
  handle_errors_reraise "get"
    (let file_path := _get_cache_file_path key in
     present ← path_exists file_path;
     if negb present then mret PNone
     else
       try_except
         (data ← read_json file_path;
          match data with
          | PDict d =>
              expired ← document_expired now d;
              if (expired : bool) then unlink file_path ;; mret PNone
              else
                let d1 := dict_set "last_accessed" (PStr (isoformat now)) d in
                count ← add_one (default (PInt 0) (dict_get "access_count" d1));
                let d2 := dict_set "access_count" count d1 in
                write_json now file_path (PDict d2) false ;;
                match dict_get "data" d2 with
                | Some v => mret v
                | None => raise (KeyError "data")
                end
          | _ => raise TypeError
          end)
         (fun e => log_error (CacheError "get" key e) ;; mret PNone)).

Definition FileCache_set (self : FileCache) (now : Z) (key : string)
  (data : pyval) (ttl_hours : option Z) : M unit :=
  handle_errors_reraise "set"
    (_cleanup_if_needed self ;;
     let file_path := _get_cache_file_path key in
     let expires_at :=
       match ttl_hours with
       | Some t =>
           if (t =? 0)%Z then PNone
           else PStr (isoformat (now + timedelta_hours t))
       | None => PNone
       end in
     let cache_data := PDict [
       ("key", PStr key);
       ("data", data);
       ("created_at", PStr (isoformat now));
       ("expires_at", expires_at);
       ("access_count", PInt 0);
       ("last_accessed", PNone)
     ] in
     try_except (write_json now file_path cache_data true)
       (fun e => raise (CacheError "set" key e))).

(** *** Notions used to state the Disk Tier's properties *)

Definition le_mtime (x y : string * file) : Prop :=
  (f_mtime (snd x) <= f_mtime (snd y))%Z.

(** Deleting the named files, one after the other. *)
Definition remove_all (names : list string) (fs : gmap string file)
  : gmap string file :=
  fold_left (fun fs p => delete p fs) names fs.

(** The files the clean-up of [set] deletes when it runs, and the files
    it leaves. *)
Definition victims_of (fs : gmap string file) : list (string * file) :=
  let sorted := sorted_by_mtime (map_to_list fs) in
  take (length sorted / 4) sorted.

Definition cleanup_files (self : FileCache) (fs : gmap string file)
  : gmap string file :=
  if (max_size_mb self * 1024 * 1024 <? total_size (map_to_list fs))%Z
  then remove_all ((victims_of fs).*1) fs
  else fs.

(** The document [set] serialises, as [json.load] reads it back. *)
Definition cache_document (now : Z) (key : string) (data : pyval)
  (ttl_hours : option Z) : pyval :=
  PDict [
    ("key", PStr key);
    ("data", json_default_str data);
    ("created_at", PStr (isoformat now));
    ("expires_at",
       match ttl_hours with
       | Some t =>
           if (t =? 0)%Z then PNone
           else PStr (isoformat (now + timedelta_hours t))
       | None => PNone
       end);
    ("access_count", PInt 0);
    ("last_accessed", PNone)
  ].

(** The file a successful write leaves. *)
Definition written_file (now : Z) (doc : pyval) : file :=
  {| f_text := Doc doc; f_writable := true;
     f_size := json_size doc; f_mtime := now |}.

(** *** [CacheManager] *)

(** The manager holds one tier of each kind; the image tier takes no part
    in the keyed read and write paths and is left out. *)
Record CacheManager : Type := {
  memory_cache : MemoryCache;
  file_cache : FileCache
}.

Definition with_memory (self : CacheManager) (m : MemoryCache) : CacheManager :=
  {| memory_cache := m; file_cache := file_cache self |}.

(** [CACHE_KEYS[name].format(id=...)] of [config/constants.py] *)
Definition pokemon_key (id : Z) : string := "pokemon_" +:+ pretty id.
Definition species_key (id : Z) : string := "species_" +:+ pretty id.
Definition generation_key (id : Z) : string := "generation_" +:+ pretty id.

Definition get_pokemon_data (self : CacheManager) (now : Z) (pokemon_id : Z)
  (w : world) : result pyval * CacheManager * world :=
  let key := pokemon_key pokemon_id in
  let '(data, m1) := MemoryCache_get now key (memory_cache self) in
  if negb (is_none data) then (Ok data, with_memory self m1, w)
  else
    match FileCache_get (file_cache self) now key w with
    | (Raise e, w') => (Raise e, with_memory self m1, w')
    | (Ok data, w') =>
        if negb (is_none data) then
          match MemoryCache_set now key data None m1 with
          | (Raise e, m2) => (Raise e, with_memory self m2, w')
          | (Ok _, m2) => (Ok data, with_memory self m2, w')
          end
        else (Ok PNone, with_memory self m1, w')
    end.

(** [return self.memory_cache.get(key) or self.file_cache.get(key)] *)
Definition memory_or_file (self : CacheManager) (now : Z) (key : string)
  (w : world) : result pyval * CacheManager * world :=
  let '(data, m1) := MemoryCache_get now key (memory_cache self) in
  if truthy data then (Ok data, with_memory self m1, w)
  else
    let '(r, w') := FileCache_get (file_cache self) now key w in
    (r, with_memory self m1, w').

Definition get_species_data (self : CacheManager) (now : Z) (pokemon_id : Z)
  (w : world) : result pyval * CacheManager * world :=
  let key := species_key pokemon_id in
  memory_or_file self now key w.

Definition get_generation_data (self : CacheManager) (now : Z) (generation : Z)
  (w : world) : result pyval * CacheManager * world :=
  let key := generation_key generation in
  memory_or_file self now key w.

End disk.

End Cache.

(** ** A runtime to evaluate the embedding on concrete inputs *)

Module Sample.
Import Cache.

Fixpoint parse_digits (s : string) (acc : Z) : option Z :=
  match s with
  | EmptyString => Some acc
  | String c s' =>
      let n := Z.of_nat (Ascii.nat_of_ascii c) in
      if ((48 <=? n) && (n <=? 57))%Z
      then parse_digits s' (10 * acc + (n - 48))%Z
      else None
  end.

Definition parse_Z (s : string) : option Z :=
  match s with
  | EmptyString => None
  | String c s' =>
      if (Z.of_nat (Ascii.nat_of_ascii c) =? 45)%Z
      then option_map Z.opp (parse_digits s' 0)
      else parse_digits s 0
  end.

(** Instants are written as decimal microsecond counts, the file of a key
    is named by the key itself, every document takes 256 bytes, and the
    [data] field accepts a dict, a list, a str, an int or a float as it is,
    a tuple as a list and a bool as an int. *)
#[export] Instance runtime : Runtime := {|
  validate_data v :=
    match v with
    | PNone | PObj _ => None
    | PBool b => Some (PInt (Z.b2z b))
    | PTuple l => Some (PList l)
    | _ => Some v
    end;
  md5_hexdigest key := key;
  isoformat t := pretty t;
  fromisoformat s := parse_Z s;
  json_size _ := 256%Z
|}.

Definition empty_world : world := {| files := ∅; log := [] |}.

(** A cache of capacity two holding ["A"] (written at 1) and ["B"] (at 2). *)
Definition two_entries : MemoryCache :=
  run_ops (rt := runtime)
    [OpSet 1 "A" (PInt 1) None; OpSet 2 "B" (PInt 2) None]
    (MemoryCache_init 2 1).

Definition sample_cache : FileCache := {| max_size_mb := 100 |}.

(** A record as the fetch layer caches it: [model_dump()] leaves a URL
    object in it. *)
Definition bulbasaur : pyval :=
  PDict [("name", PStr "bulbasaur");
         ("sprite", PObj "https://img.example/1.png")].

Definition bulbasaur_read_back : pyval :=
  PDict [("name", PStr "bulbasaur");
         ("sprite", PStr "https://img.example/1.png")].

(** The disk one hour and more after a write with a one hour TTL. *)
Definition stale_disk : world :=
  snd (FileCache_set (rt := runtime) sample_cache 100 "pokemon_1"
         bulbasaur (Some 1%Z) empty_world).

(** Section 8 of the specification, scripted: with a cap that any file
    exceeds, the fifth write finds four files and removes the oldest one. *)
Definition after_writes (keys : list (Z * string)) : world :=
  fold_left (fun w tk =>
    snd (FileCache_set (rt := runtime) {| max_size_mb := 0 |}
           (fst tk) (snd tk) (PInt (fst tk)) None w))
    keys empty_world.

Definition species : pyval := PDict [("name", PStr "bulbasaur")].

Definition manager : CacheManager :=
  {| memory_cache := MemoryCache_init 1000 1;
     file_cache := {| max_size_mb := 100 |} |}.

(** The disk after [FileCache.set(key, species, 24)] at time 100. *)
Definition disk_with (key : string) : world :=
  snd (FileCache_set (rt := runtime) (file_cache manager) 100 key
         species (Some 24%Z) empty_world).

End Sample.

(** ** The rest of the cache tiers *)

Module CacheRest.
Import Cache.

(** *** [MemoryCache.get_stats] *)

(** The dictionary [MemoryCache.get_stats] returns, one field per key. *)
Record MemoryStats : Type := {
  total_entries : Z;
  expired_entries : Z;
  active_entries : Z;
  stats_max_size : Z;
  memory_usage_mb : Q
}.

(** [sum(1 for entry in self._cache.values() if entry.is_expired())] *)
Definition count_expired (now : Z) (c : list (string * CacheEntry)) : Z :=
  Z.of_nat (length (List.filter (fun kv => is_expired now (snd kv)) c)).

(** [_estimate_memory_usage], given what [sys.getsizeof] answers for an
    entry. *)
Definition _estimate_memory_usage (getsizeof : CacheEntry -> Z)
  (self : MemoryCache) : Q :=
  let total_size :=
    foldr (fun kv acc => getsizeof (snd kv) + acc)%Z 0%Z (_cache self) in
  (inject_Z total_size / inject_Z (1024 * 1024))%Q.

Definition MemoryCache_get_stats (getsizeof : CacheEntry -> Z) (now : Z)
  (self : MemoryCache) : MemoryStats :=
  let total_entries := Z.of_nat (length (_cache self)) in
  let expired_entries := count_expired now (_cache self) in
  {| total_entries := total_entries;
     expired_entries := expired_entries;
     active_entries := total_entries - expired_entries;
     stats_max_size := max_size self;
     memory_usage_mb := _estimate_memory_usage getsizeof self |}.

(** *** [FileCache.delete], [clear] and [get_stats] *)

(** [delete] carries no decorator: a failure is logged and answered
    [False]. *)
Definition FileCache_delete {rt : Runtime} (self : FileCache) (key : string)
  : M bool :=
  let file_path := _get_cache_file_path key in
  try_except
    (present ← path_exists file_path;
     if (present : bool) then unlink file_path ;; mret true
     else mret false)
    (fun e => log_error (CacheError "delete" key e) ;; mret false).

(** *** [FileCache.get] and [delete] when [stat] is refused *)

(** [file_path.exists()] asks [stat]. It answers [False] for the errors
    that say the path is not there and lets every other [OSError] of [stat]
    through: no search permission on the cache directory, an I/O error.
    [stat_refused] tells that [stat] is refused in this way;
    [Cache.path_exists] is the test when [stat] answers. *)
Definition path_exists_stat (stat_refused : bool) (file_path : string)
  : M bool :=
  if stat_refused then raise OSError else path_exists file_path.

(** [FileCache.get] over that test. In the source [_get_cache_file_path]
    and the existence test stand before the [try], under the decorator
    alone; everything after them is inside the [try]. *)
Definition FileCache_get_stat {rt : Runtime} (stat_refused : bool)
  (self : FileCache) (now : Z) (key : string) : M pyval :=
  handle_errors_reraise "get"
    (let file_path := _get_cache_file_path key in
     present ← path_exists_stat stat_refused file_path;
     if negb present then mret PNone
     else
       try_except
         (data ← read_json file_path;
          match data with
          | PDict d =>
              expired ← document_expired now d;
              if (expired : bool) then unlink file_path ;; mret PNone
              else
                let d1 := dict_set "last_accessed" (PStr (isoformat now)) d in
                count ← add_one (default (PInt 0) (dict_get "access_count" d1));
                let d2 := dict_set "access_count" count d1 in
                write_json now file_path (PDict d2) false ;;
                match dict_get "data" d2 with
                | Some v => mret v
                | None => raise (KeyError "data")
                end
          | _ => raise TypeError
          end)
         (fun e => log_error (CacheError "get" key e) ;; mret PNone)).

(** [FileCache.delete] over the same test, which it makes inside its
    [try]. *)
Definition FileCache_delete_stat {rt : Runtime} (stat_refused : bool)
  (self : FileCache) (key : string) : M bool :=
  let file_path := _get_cache_file_path key in
  try_except
    (present ← path_exists_stat stat_refused file_path;
     if (present : bool) then unlink file_path ;; mret true
     else mret false)
    (fun e => log_error (CacheError "delete" key e) ;; mret false).

Definition FileCache_clear (self : FileCache) : M unit :=
  try_except
    (listing ← glob;
     for_each listing (fun f => unlink (fst f)))
    (fun e => log_error (CacheError "clear" "all" e)).

(** What [FileCache.get_stats] returns: the four figures, or the dictionary
    [{'error': ...}]. *)
Inductive FileStats : Type :=
| Stats (total_files : Z) (total_size_mb : Q) (max_size_mb : Z)
    (usage_percentage : Q)
| StatsError (error : string).

(** Python's [a / b] on integers. *)
Definition truediv (a b : Z) : M Q :=
  if (b =? 0)%Z then raise ZeroDivisionError
  else mret (inject_Z a / inject_Z b)%Q.

Definition FileCache_get_stats (self : FileCache) : M FileStats :=
  try_except
    (files ← glob;
     let total_size := total_size files in
     total_size_mb ← truediv total_size (1024 * 1024);
     usage ← truediv total_size (max_size_mb self * 1024 * 1024);
     mret (Stats (Z.of_nat (length files)) total_size_mb (max_size_mb self)
             (usage * 100)%Q))
    (fun _ => mret (StatsError "Could not get file cache stats")).

(** *** The write paths of [CacheManager] *)

Section manager.
Context {rt : Runtime}.

(** *** Notions used to state the Disk Tier's further properties *)

(** The document of a key after [count] reads, the last of which left
    [last] in [last_accessed]. *)
Definition bookkept_document (now : Z) (key : string) (data : pyval)
  (ttl_hours : option Z) (count : Z) (last : pyval) : pyval :=
  PDict [
    ("key", PStr key);
    ("data", json_default_str data);
    ("created_at", PStr (isoformat now));
    ("expires_at",
       match ttl_hours with
       | Some t =>
           if (t =? 0)%Z then PNone
           else PStr (isoformat (now + timedelta_hours t))
       | None => PNone
       end);
    ("access_count", PInt count);
    ("last_accessed", last)
  ].

(** An entry written at [now] with [ttl_hours] has not expired at [now']
    (and its expiry is read back as it was written). *)
Definition still_valid (now now' : Z) (ttl_hours : option Z) : Prop :=
  forall t, ttl_hours = Some t -> t <> 0%Z ->
    fromisoformat (isoformat (now + timedelta_hours t))
      = Some (now + timedelta_hours t)%Z /\
    (now' <= now + timedelta_hours t)%Z.

(** Successive calls of [FileCache.get] for one key, at the given times:
    the answers and the directory they leave. *)
Fixpoint read_each (self : FileCache) (key : string) (times : list Z)
  (w : world) : list (result pyval) * world :=
  match times with
  | [] => ([], w)
  | t :: times' =>
      let '(r, w') := FileCache_get self t key w in
      let '(rs, w'') := read_each self key times' w' in
      (r :: rs, w'')
  end.

(** [memory_cache.set(key, data, ttl_hours)] then
    [file_cache.set(key, data, ttl_hours)]; an exception of the first
    leaves the second undone. *)
Definition set_both (self : CacheManager) (now : Z) (key : string)
  (data : pyval) (ttl_hours : Z) (w : world)
  : result unit * CacheManager * world :=
  match MemoryCache_set now key data (Some ttl_hours) (memory_cache self) with
  | (Raise e, m1) => (Raise e, with_memory self m1, w)
  | (Ok _, m1) =>
      let '(r, w') :=
        FileCache_set (file_cache self) now key data (Some ttl_hours) w in
      (r, with_memory self m1, w')
  end.

(** [ttl_hours] defaults to 24. *)
Definition set_pokemon_data (self : CacheManager) (now : Z) (pokemon_id : Z)
  (data : pyval) (ttl_hours : Z) (w : world)
  : result unit * CacheManager * world :=
  let key := pokemon_key pokemon_id in
  set_both self now key data ttl_hours w.

(** [ttl_hours] defaults to 24. *)
Definition set_species_data (self : CacheManager) (now : Z) (pokemon_id : Z)
  (data : pyval) (ttl_hours : Z) (w : world)
  : result unit * CacheManager * world :=
  let key := species_key pokemon_id in
  set_both self now key data ttl_hours w.

(** [ttl_hours] defaults to 48. *)
Definition set_generation_data (self : CacheManager) (now : Z) (generation : Z)
  (data : pyval) (ttl_hours : Z) (w : world)
  : result unit * CacheManager * world :=
  let key := generation_key generation in
  set_both self now key data ttl_hours w.

(** *** [CacheManager.clear_expired] *)

(** Does [sub] occur in [s]? *)
Fixpoint occurs_in (sub s : string) : bool :=
  String.prefix sub s ||
  match s with
  | EmptyString => false
  | String _ s' => occurs_in sub s'
  end.

(** ['expires_at' in data]: a key of a dictionary, an element of a list or
    of a tuple, a substring of a string; anything else is not iterable. *)
Definition contains_expires_at (data : pyval) : M bool :=
  match data with
  | PDict d => mret (match dict_get "expires_at" d with
                     | Some _ => true | None => false end)
  | PList l | PTuple l =>
      mret (existsb (fun x => match x with
                              | PStr s => String.eqb s "expires_at"
                              | _ => false
                              end) l)
  | PStr s => mret (occurs_in "expires_at" s)
  | _ => raise TypeError
  end.

(** [data['expires_at']] *)
Definition get_expires_at (data : pyval) : M pyval :=
  match data with
  | PDict d =>
      match dict_get "expires_at" d with
      | Some x => mret x
      | None => raise (KeyError "expires_at")
      end
  | _ => raise TypeError
  end.

(** The body of the loop of [clear_expired] for one file: [true] when the
    file was removed. Whatever the inner [try] raises, the [except] removes
    the file. The file is opened without [encoding='utf-8'] here; its text
    is taken to decode in the encoding of the locale as it does in UTF-8,
    which is so when the locale is UTF-8 or the text is ASCII. *)
Definition clear_expired_file (now : Z) (file_path : string) : M bool :=
  try_except
    (data ← read_json file_path;
     present ← contains_expires_at data;
     if (present : bool) then
       x ← get_expires_at data;
       if truthy x then
         match x with
         | PStr s =>
             match fromisoformat s with
             | Some expires_at =>
                 if (expires_at <? now)%Z
                 then unlink file_path ;; mret true
                 else mret false
             | None => raise ValueError
             end
         | _ => raise TypeError
         end
       else mret false
     else mret false)
    (fun _ => unlink file_path ;; mret true).

(** The loop over the listing; [files_cleared] is the counter in [stats],
    which keeps its value when the loop is left by an exception. *)
Fixpoint clear_expired_loop (now : Z) (paths : list string) (files_cleared : Z)
  (w : world) : result unit * Z * world :=
  match paths with
  | [] => (Ok tt, files_cleared, w)
  | file_path :: paths' =>
      match clear_expired_file now file_path w with
      | (Ok true, w') => clear_expired_loop now paths' (files_cleared + 1) w'
      | (Ok false, w') => clear_expired_loop now paths' files_cleared w'
      | (Raise e, w') => (Raise e, files_cleared, w')
      end
  end.

(** The dictionary [clear_expired] returns. *)
Record ClearStats : Type := {
  memory_cleared : Z;
  files_cleared : Z
}.

Definition clear_expired (self : CacheManager) (now : Z) (w : world)
  : ClearStats * world :=
  match clear_expired_loop now (map_to_list (files w)).*1 0 w with
  | (Ok _, n, w') => ({| memory_cleared := 0; files_cleared := n |}, w')
  | (Raise e, n, w') =>
      ({| memory_cleared := 0; files_cleared := n |},
       snd (log_error (CacheError "clear_expired" "files" e) w'))
  end.

(** *** Notions used to state the properties of [clear_expired] *)

(** Does the sweep of [clear_expired] at [now] remove the file [f]? A file
    that cannot be read or parsed, a document on which the test itself
    fails, and a dictionary whose [expires_at] lies before [now]. *)
Definition swept (now : Z) (f : file) : bool :=
  match f_text f with
  | Unreadable | Malformed => true
  | Doc (PDict d) =>
      match dict_get "expires_at" d with
      | None => false
      | Some x =>
          truthy x &&
          match x with
          | PStr s =>
              match fromisoformat s with
              | Some expires_at => (expires_at <? now)%Z
              | None => true
              end
          | _ => true
          end
      end
  | Doc (PList l) | Doc (PTuple l) =>
      existsb (fun x => match x with
                        | PStr s => String.eqb s "expires_at"
                        | _ => false
                        end) l
  | Doc (PStr s) => occurs_in "expires_at" s
  | Doc _ => true
  end.

Definition swept_path (now : Z) (fs : gmap string file) (p : string) : bool :=
  match fs !! p with
  | Some f => swept now f
  | None => false
  end.

(** Has an entry written at [now] with [ttl_hours] expired at [now']? *)
Definition expired_at (now now' : Z) (ttl_hours : option Z) : bool :=
  match ttl_hours with
  | Some t => negb (t =? 0)%Z && (now + timedelta_hours t <? now')%Z
  | None => false
  end.

(** [isoformat] and [fromisoformat] round-trip on the expiry [set] writes
    for [ttl_hours], and the text is not empty. *)
Definition expiry_round_trips (now : Z) (ttl_hours : option Z) : Prop :=
  forall t, ttl_hours = Some t -> t <> 0%Z ->
    fromisoformat (isoformat (now + timedelta_hours t))
      = Some (now + timedelta_hours t)%Z /\
    isoformat (now + timedelta_hours t) <> ""%string.

End manager.

End CacheRest.

(** ** The rest of the page layout engine *)

Module PageLayoutRest.
Import PageLayout.
Local Open Scope Q_scope.

(** Python's [int(x)] on a float: truncation toward zero. *)
Definition py_int (x : Q) : Z :=
  if Qlt_le_dec x 0 then Qceiling x else Qfloor x.

(** [_estimate_print_time]. [pages * 0.5] is a binary64 product. While
    [pages] converts to a float without rounding, which it does up to
    [2^53], the product is exact and so are the floor division [a // b] and
    the remainder [a % b] that follow; the embedding computes them in [Q]
    there. Beyond [2^53] the conversion rounds, and from [2^1024] on it
    raises [OverflowError]: the embedding does not answer there. *)
Definition _estimate_print_time (pages : Z) : option string :=
  if (Z.abs pages <=? 2 ^ 53)%Z then
    let estimated_minutes := inject_Z pages * (1 # 2) in
    if Qlt_le_dec estimated_minutes 1 then Some "< 1 minute"%string
    else if Qlt_le_dec estimated_minutes 60 then
      Some (pretty (py_int estimated_minutes) +:+ " minutes")
    else
      let hours := py_int (inject_Z (Qfloor (estimated_minutes / 60))) in
      let minutes :=
        py_int (estimated_minutes
                - 60 * inject_Z (Qfloor (estimated_minutes / 60))) in
      Some (pretty hours +:+ "h " +:+ pretty minutes +:+ "m")
  else None.

(** Assignments to the attributes of the manager. *)
Definition with_page (self : PageLayoutManager) (width height : Q)
  : PageLayoutManager :=
  {| a4_width_mm := width;
     a4_height_mm := height;
     card_width_mm := card_width_mm self;
     card_height_mm := card_height_mm self;
     margin_mm := margin_mm self;
     card_spacing_mm := card_spacing_mm self |}.

Definition with_margin (self : PageLayoutManager) (margin : Q)
  : PageLayoutManager :=
  {| a4_width_mm := a4_width_mm self;
     a4_height_mm := a4_height_mm self;
     card_width_mm := card_width_mm self;
     card_height_mm := card_height_mm self;
     margin_mm := margin;
     card_spacing_mm := card_spacing_mm self |}.

Definition with_spacing (self : PageLayoutManager) (spacing : Q)
  : PageLayoutManager :=
  {| a4_width_mm := a4_width_mm self;
     a4_height_mm := a4_height_mm self;
     card_width_mm := card_width_mm self;
     card_height_mm := card_height_mm self;
     margin_mm := margin_mm self;
     card_spacing_mm := spacing |}.

(** The methods below change the manager for the time of one calculation
    and restore it afterwards; an exception of the calculation skips the
    restoring lines. They return the manager they leave. *)
Definition optimize_for_paper_size (self : PageLayoutManager)
  (total_cards : Z) (paper_size : string)
  : result LayoutResult * PageLayoutManager :=
  if String.eqb paper_size "Letter" then
    let original_width := a4_width_mm self in
    let original_height := a4_height_mm self in
    let self1 := with_page self (2159 # 10) (2794 # 10) in
    match calculate_optimal_layout self1 total_cards with
    | Raise e => (Raise e, self1)
    | Ok layout =>
        (Ok layout, with_page self1 original_width original_height)
    end
  else (calculate_optimal_layout self total_cards, self).

(** One entry of the list [suggest_alternative_layouts] returns. *)
Record Alternative : Type := {
  alt_name : string;
  alt_layout : LayoutResult;
  alt_description : string
}.

Definition suggest_alternative_layouts (self : PageLayoutManager)
  (total_cards : Z) : result (list Alternative) * PageLayoutManager :=
  match calculate_optimal_layout self total_cards with
  | Raise e => (Raise e, self)
  | Ok current =>
    let alternatives :=
      [ {| alt_name := "Optimal (Portrait)";
           alt_layout := current;
           alt_description := "Best fit for A4 portrait" |} ] in
    let original_width := a4_width_mm self in
    let original_height := a4_height_mm self in
    let self1 := with_page self original_height original_width in
    match calculate_optimal_layout self1 total_cards with
    | Raise e => (Raise e, self1)
    | Ok landscape =>
      let alternatives :=
        alternatives ++
        [ {| alt_name := "Landscape";
             alt_layout := landscape;
             alt_description := "A4 landscape orientation" |} ] in
      let self2 := with_page self1 original_width original_height in
      let original_margin := margin_mm self2 in
      let self3 := with_margin self2 5 in
      match calculate_optimal_layout self3 total_cards with
      | Raise e => (Raise e, self3)
      | Ok compact =>
        let alternatives :=
          alternatives ++
          [ {| alt_name := "Compact";
               alt_layout := compact;
               alt_description := "Smaller margins, more cards per page" |} ] in
        (Ok alternatives, with_margin self3 original_margin)
      end
    end
  end.

(** The layout dictionary with the key [has_cutting_guides] added. *)
Record CuttingLayout : Type := {
  cutting_layout : LayoutResult;
  has_cutting_guides : bool
}.

Definition calculate_cutting_layout (self : PageLayoutManager)
  (total_cards : Z) : result CuttingLayout * PageLayoutManager :=
  let original_margin := margin_mm self in
  let original_spacing := card_spacing_mm self in
  let self1 := with_margin self (margin_mm self + 5) in
  let self2 := with_spacing self1 (card_spacing_mm self1 + 3) in
  match calculate_optimal_layout self2 total_cards with
  | Raise e => (Raise e, self2)
  | Ok layout =>
      let self3 := with_margin self2 original_margin in
      let self4 := with_spacing self3 original_spacing in
      (Ok {| cutting_layout := layout; has_cutting_guides := true |}, self4)
  end.

(** *** Notions used to state the further properties of the engine *)

(** The card plus the configured spacing has no extent along some axis:
    the divisor of a floor division is zero. *)
Definition degenerate (self : PageLayoutManager) : Prop :=
  card_width_mm self + card_spacing_mm self == 0 \/
  card_height_mm self + card_spacing_mm self == 0.

End PageLayoutRest.

(** ** The page assembly of the PDF generator *)

(** [PDFGenerator.generate_cards_pdf] of [src/pdf/pdf_generator.py], up to
    the list of flowables it hands to [doc.build] and the counts it reports;
    the writing of the file itself is left out. Card images are opaque. *)
Module PdfGenerator.
Import PageLayout.
Local Open Scope Q_scope.

(** [l[start:stop]]: a negative index counts from the end, and both are
    clipped to the list. *)
Definition slice_index (len i : Z) : Z :=
  if (i <? 0)%Z then Z.max 0 (i + len) else Z.min i len.

Definition py_slice {A} (l : list A) (start stop : Z) : list A :=
  let len := Z.of_nat (length l) in
  let s := slice_index len start in
  let e := slice_index len stop in
  take (Z.to_nat (e - s)) (drop (Z.to_nat s) l).

(** What [generate_cards_pdf] raises before it builds the file. *)
Inductive pdf_error : Type :=
| NoCardsProvided
    (* PDFGenerationError("No cards provided for PDF generation") *)
| FailedToGenerate (cause : exn)
    (* the error [create_error_context("generate PDF")] wraps [cause] in *)
| FailedToCreate (cause : exn).
    (* PDFGenerationError("Failed to create PDF: ...") *)

Inductive pdf_result (A : Type) : Type :=
| Done (a : A)
| Failed (e : pdf_error).
Arguments Done {A} a.
Arguments Failed {A} e.

Section story.
Context {Image : Type}.

(** [_optimize_card_for_print], and the card size of the settings. *)
Variable _optimize_card_for_print : Image -> Image.
Variable settings_card_width_mm settings_card_height_mm : Q.

(** A cell of the table of a page: [CardFlowable(card, width, height)] or
    the empty string. *)
Inductive cell : Type :=
| CardFlowable (image : Image) (width height : Q)
| EmptyCell.

(** [Table(table_data, colWidths, rowHeights)] with the padding of its
    style, and [Spacer(width, height)]. *)
Inductive flowable : Type :=
| Table (table_data : list (list cell)) (colWidths rowHeights : list Q)
    (padding : Q)
| Spacer (width height : Q).

Definition _create_page_content (cards : list Image)
  (layout_info : LayoutResult) : list flowable :=
  let card_width_pt := settings_card_width_mm * mm in
  let card_height_pt := settings_card_height_mm * mm in
  let rows := rows layout_info in
  let cols := cols layout_info in
  let table_data :=
    List.map (fun row =>
      List.map (fun col =>
        let card_index := (row * cols + col)%Z in
        if (card_index <? Z.of_nat (length cards))%Z then
          match cards !! Z.to_nat card_index with
          | Some card =>
              CardFlowable (_optimize_card_for_print card)
                card_width_pt card_height_pt
          | None => EmptyCell
          end
        else EmptyCell)
        (range cols))
      (range rows) in
  [Table table_data
     (replicate (Z.to_nat cols) card_width_pt)
     (replicate (Z.to_nat rows) card_height_pt)
     (spacing layout_info / 2)].

(** The story and the counts of [PDFGenerationResult]. *)
Record PdfPlan : Type := {
  story : list flowable;
  result_total_cards : Z;
  result_total_pages : Z;
  result_cards_per_page : Z
}.

(** The cards of page [page_num]. *)
Definition page_cards (cards : list Image) (cards_per_page page_num : Z)
  : list Image :=
  let start_idx := (page_num * cards_per_page)%Z in
  let end_idx :=
    Z.min (start_idx + cards_per_page) (Z.of_nat (length cards)) in
  py_slice cards start_idx end_idx.

Definition generate_cards_pdf (page_layout : PageLayoutManager)
  (cards : list Image) : pdf_result PdfPlan :=
  match cards with
  | [] => Failed NoCardsProvided
  | _ =>
    match calculate_optimal_layout page_layout (Z.of_nat (length cards)) with
    | Raise e => Failed (FailedToGenerate e)
    | Ok layout_info =>
      let cards_per_page := cards_per_page layout_info in
      if (cards_per_page =? 0)%Z then Failed (FailedToCreate ZeroDivisionError)
      else
        let total_pages :=
          ((Z.of_nat (length cards) + cards_per_page - 1) / cards_per_page)%Z in
        let story :=
          flat_map (fun page_num =>
            _create_page_content (page_cards cards cards_per_page page_num)
              layout_info
            ++ (if (page_num <? total_pages - 1)%Z then [Spacer 1 0] else []))
            (range total_pages) in
        Done {| story := story;
                result_total_cards := Z.of_nat (length cards);
                result_total_pages := total_pages;
                result_cards_per_page := cards_per_page |}
    end
  end.

(** [estimate_pdf_size]: the pages, the size in MB and the cards per page. *)
Definition estimate_pdf_size (page_layout : PageLayoutManager) (num_cards : Z)
  : result (Z * Q * Z) :=
  match calculate_optimal_layout page_layout num_cards with
  | Raise e => Raise e
  | Ok layout_info =>
      let estimated_pages := total_pages layout_info in
      let estimated_size_mb := inject_Z estimated_pages * (1 # 2) in
      Ok (estimated_pages, estimated_size_mb, cards_per_page layout_info)
  end.

(** *** Notions used to state the properties of the page assembly *)

(** The card images a story shows, in reading order: table after table,
    row after row. *)
Definition cell_cards (c : cell) : list Image :=
  match c with
  | CardFlowable image _ _ => [image]
  | EmptyCell => []
  end.

Definition flowable_cards (f : flowable) : list Image :=
  match f with
  | Table table_data _ _ _ => flat_map cell_cards (concat table_data)
  | Spacer _ _ => []
  end.

Definition story_cards (story : list flowable) : list Image :=
  flat_map flowable_cards story.

(** The cell [_create_page_content] puts at [card_index]. *)
Definition cell_at (cards : list Image) (card_index : Z) : cell :=
  if (card_index <? Z.of_nat (length cards))%Z then
    match cards !! Z.to_nat card_index with
    | Some card =>
        CardFlowable (_optimize_card_for_print card)
          (settings_card_width_mm * mm) (settings_card_height_mm * mm)
    | None => EmptyCell
    end
  else EmptyCell.

Definition is_table (f : flowable) : bool :=
  match f with Table _ _ _ _ => true | Spacer _ _ => false end.

(** A table of [rows] rows of [cols] cells each that shows at least one
    card. *)
Definition full_grid (rows cols : Z) (f : flowable) : Prop :=
  match f with
  | Table table_data colWidths rowHeights _ =>
      length table_data = Z.to_nat rows /\
      Forall (fun row => length row = Z.to_nat cols) table_data /\
      length colWidths = Z.to_nat cols /\
      length rowHeights = Z.to_nat rows /\
      flowable_cards f <> []
  | Spacer _ _ => True
  end.

End story.

End PdfGenerator.

(** ** Facts about the page layout engine *)

Module PageLayoutFacts.
Import PageLayout.
Local Open Scope Q_scope.

Lemma floordiv_ok a b : ~ b == 0 -> floordiv a b = Ok (Qfloor (a / b)).
Proof.
  intros Hb. unfold floordiv.
  destruct (Qeq_bool b 0) eqn:E; [|reflexivity].
  apply Qeq_bool_iff in E. contradiction.
Qed.

Lemma ceil_div_pages (n c : Z) :
  (0 < c)%Z -> ((n + c - 1) / c)%Z = Qceiling (inject_Z n / inject_Z c).
Proof.
  intros Hc. destruct c as [|p|p]; try lia.
  unfold Qceiling, Qfloor, Qdiv, Qinv, Qmult, Qopp, inject_Z. simpl.
  rewrite Z.mul_1_r, Pos.mul_1_l.
  pose proof (Z.div_mod (- n) (Z.pos p) ltac:(lia)) as Hdm.
  pose proof (Z.mod_pos_bound (- n) (Z.pos p) ltac:(lia)) as Hb.
  symmetry. apply Z.div_unique with (r := (Z.pos p - 1 - (- n) mod Z.pos p)%Z); lia.
Qed.

Lemma cards_per_row_ok self usable_width :
  ~ card_width_mm self + card_spacing_mm self == 0 ->
  _calculate_cards_per_row self usable_width =
  Ok (Z.max 1 (Qfloor ((usable_width + card_spacing_mm self) /
                       (card_width_mm self + card_spacing_mm self)))).
Proof.
  intros H. unfold _calculate_cards_per_row. cbv zeta.
  now rewrite (floordiv_ok _ _ H).
Qed.

Lemma cards_per_column_ok self usable_height :
  ~ card_height_mm self + card_spacing_mm self == 0 ->
  _calculate_cards_per_column self usable_height =
  Ok (Z.max 1 (Qfloor ((usable_height + card_spacing_mm self) /
                       (card_height_mm self + card_spacing_mm self)))).
Proof.
  intros H. unfold _calculate_cards_per_column. cbv zeta.
  now rewrite (floordiv_ok _ _ H).
Qed.

Lemma positive_dimensions_divisors self :
  positive_dimensions self ->
  ~ card_width_mm self + card_spacing_mm self == 0 /\
  ~ card_height_mm self + card_spacing_mm self == 0.
Proof.
  intros (_ & _ & Hw & Hh & _ & Hs). split; intros E; lra.
Qed.

(** Whenever the computation does not raise, the grid has at least one row
    and one column. *)
Lemma layout_grid_positive self total_cards layout :
  calculate_optimal_layout self total_cards = Ok layout ->
  (1 <= rows layout)%Z /\ (1 <= cols layout)%Z /\
  cards_per_page layout = (rows layout * cols layout)%Z /\
  total_pages layout =
    ((total_cards + cards_per_page layout - 1) / cards_per_page layout)%Z.
Proof.
  unfold calculate_optimal_layout, _calculate_cards_per_row,
    _calculate_cards_per_column. cbv zeta.
  destruct (floordiv _ _) as [c|]; [|discriminate].
  destruct (floordiv _ _) as [r|]; [|discriminate].
  intros [= <-]. cbn. repeat split; lia.
Qed.

Lemma default_manager_positive : positive_dimensions default_manager.
Proof. unfold positive_dimensions, default_manager; cbn. repeat split; lra. Qed.





(** C10. [validate_layout(0)] is [False] whatever the configuration, since
    it asks for [total_pages > 0], although [calculate_optimal_layout(0)]
    itself succeeds (for positive dimensions) with [cards_per_page > 0] and
    [total_pages = 0]. *)
Theorem validate_layout_zero_cards :
  (forall self, validate_layout self 0 = false) /\
  (forall self, positive_dimensions self -> exists layout,
     calculate_optimal_layout self 0 = Ok layout /\
     (0 < cards_per_page layout)%Z /\ total_pages layout = 0%Z).
Proof.
  split.
  - intros self. unfold validate_layout.
    destruct (calculate_optimal_layout self 0) as [l|] eqn:Hl; [|reflexivity].
    destruct (layout_grid_positive _ _ _ Hl) as (Hr1 & Hc1 & Hcpp & Htp).
    assert (total_pages l = 0%Z) as -> by (rewrite Htp; apply Z.div_small; nia).
    apply andb_false_r.
  - intros self Hpos.
    destruct (positive_dimensions_divisors self Hpos) as [Hw Hh].
    unfold calculate_optimal_layout. cbv zeta.
    rewrite (cards_per_row_ok _ _ Hw), (cards_per_column_ok _ _ Hh).
    eexists. split; [reflexivity|]. cbn. split; [nia|].
    apply Z.div_small. nia.
Qed.

End PageLayoutFacts.

(** ** Facts about the page layout engine in binary64 *)

Module PageLayout64Facts.
Import PrimFloat PageLayout64.
Local Open Scope Q_scope.

(** On finite operands, a divisor that is not zero and a quotient below
    [2^50], [int(a // b)] is the floor of the exact quotient. *)
Lemma int_floordiv_finite (a b : float) :
  finite a = true -> finite b = true -> ~ F2Q b == 0 ->
  (Z.abs (Qfloor (F2Q a / F2Q b)) < 2 ^ 50)%Z ->
  int_floordiv a b = Some (Ok (Qfloor (F2Q a / F2Q b))).
Proof.
  intros Ha Hb Hnz Hq. unfold int_floordiv. rewrite Ha.
  unfold finite in Hb. unfold F2Q at 1 in Hnz.
  destruct (FloatOps.Prim2SF b) as [sb|sb| |sb mb eb];
    try discriminate.
  - exfalso. apply Hnz. reflexivity.
  - cbv zeta. destruct (Z.ltb_spec (Z.abs (Qfloor (F2Q a / F2Q b))) (2 ^ 50));
      [reflexivity|lia].
Qed.

(** What a layout returned by [calculate_optimal_layout] holds. *)
Lemma layout_fields self total_cards layout :
  calculate_optimal_layout self total_cards = Some (Ok layout) ->
  let usable_width := (a4_width_mm self - 2 * margin_mm self)%float in
  let usable_height := (a4_height_mm self - 2 * margin_mm self)%float in
  (1 <= rows layout)%Z /\ (1 <= cols layout)%Z /\
  cards_per_page layout = (rows layout * cols layout)%Z /\
  total_pages layout =
    ((total_cards + cards_per_page layout - 1) / cards_per_page layout)%Z /\
  usable_width_mm layout = usable_width /\
  usable_height_mm layout = usable_height /\
  _calculate_cards_per_row self usable_width = Some (Ok (cols layout)) /\
  _calculate_cards_per_column self usable_height = Some (Ok (rows layout)) /\
  horizontal_spacing_mm layout =
    _calculate_actual_horizontal_spacing self usable_width (cols layout) /\
  vertical_spacing_mm layout =
    _calculate_actual_vertical_spacing self usable_height (rows layout).
Proof.
  intros Hl usable_width usable_height.
  unfold calculate_optimal_layout in Hl. cbv zeta in Hl.
  fold usable_width usable_height in Hl.
  destruct (_calculate_cards_per_row self usable_width)
    as [[c|e]|] eqn:Hc; try discriminate.
  destruct (_calculate_cards_per_column self usable_height)
    as [[r|e]|] eqn:Hr; try discriminate.
  injection Hl as <-.
  cbn [rows cols cards_per_page total_pages usable_width_mm usable_height_mm
       horizontal_spacing_mm vertical_spacing_mm].
  assert (1 <= c)%Z.
  { unfold _calculate_cards_per_row in Hc. cbv zeta in Hc.
    destruct (int_floordiv _ _) as [[q|e]|]; try discriminate.
    injection Hc as <-. lia. }
  assert (1 <= r)%Z.
  { unfold _calculate_cards_per_column in Hr. cbv zeta in Hr.
    destruct (int_floordiv _ _) as [[q|e]|]; try discriminate.
    injection Hr as <-. lia. }
  repeat split; assumption || reflexivity.
Qed.



(** The grid of a configuration whose sums are finite. *)
Lemma layout_grid self total_cards :
  let usable_width := (a4_width_mm self - 2 * margin_mm self)%float in
  let usable_height := (a4_height_mm self - 2 * margin_mm self)%float in
  let across := (usable_width + card_spacing_mm self)%float in
  let card_across := (card_width_mm self + card_spacing_mm self)%float in
  let down := (usable_height + card_spacing_mm self)%float in
  let card_down := (card_height_mm self + card_spacing_mm self)%float in
  finite across = true -> finite card_across = true ->
  ~ F2Q card_across == 0 ->
  (Z.abs (Qfloor (F2Q across / F2Q card_across)) < 2 ^ 50)%Z ->
  finite down = true -> finite card_down = true ->
  ~ F2Q card_down == 0 ->
  (Z.abs (Qfloor (F2Q down / F2Q card_down)) < 2 ^ 50)%Z ->
  exists layout,
    calculate_optimal_layout self total_cards = Some (Ok layout) /\
    cols layout = Z.max 1 (Qfloor (F2Q across / F2Q card_across)) /\
    rows layout = Z.max 1 (Qfloor (F2Q down / F2Q card_down)).
Proof.
  intros usable_width usable_height across card_across down card_down
    Ha Hca Hnza Hqa Hd Hcd Hnzd Hqd.
  unfold calculate_optimal_layout, _calculate_cards_per_row,
    _calculate_cards_per_column. cbv zeta.
  fold usable_width usable_height. fold across card_across down card_down.
  rewrite (int_floordiv_finite across card_across Ha Hca Hnza Hqa).
  rewrite (int_floordiv_finite down card_down Hd Hcd Hnzd Hqd).
  eexists. split; [reflexivity|]. split; reflexivity.
Qed.

(** C4, as the code has it. When the two sums [(page_width - 2*margin) +
    spacing] and [card_width + spacing], each rounded to binary64, are
    finite, the second is not zero and their quotient is below [2^50],
    and the same holds on heights, [calculate_optimal_layout] returns
    (without raising) a layout whose [cols] is [max(1, floor(q))], [q]
    being the exact quotient of the two rounded sums, whose [rows] is the
    same on heights, whose usable width and height are the rounded
    differences, whose [cards_per_page] is [rows * cols] and whose
    [total_pages] is [ceil(total_cards / cards_per_page)], which is 0 for
    [total_cards = 0]. With the default configuration (210x297 page, 63x88
    card, margin 5, spacing 2) it gives 3 columns, 3 rows, 9 cards per page
    and 3 pages for 20 cards. *)
Theorem calculate_optimal_layout_binary64 :
  (forall self total_cards,
     let usable_width := (a4_width_mm self - 2 * margin_mm self)%float in
     let usable_height := (a4_height_mm self - 2 * margin_mm self)%float in
     let across := (usable_width + card_spacing_mm self)%float in
     let card_across := (card_width_mm self + card_spacing_mm self)%float in
     let down := (usable_height + card_spacing_mm self)%float in
     let card_down := (card_height_mm self + card_spacing_mm self)%float in
     finite across = true -> finite card_across = true ->
     ~ F2Q card_across == 0 ->
     (Z.abs (Qfloor (F2Q across / F2Q card_across)) < 2 ^ 50)%Z ->
     finite down = true -> finite card_down = true ->
     ~ F2Q card_down == 0 ->
     (Z.abs (Qfloor (F2Q down / F2Q card_down)) < 2 ^ 50)%Z ->
     exists layout,
       calculate_optimal_layout self total_cards = Some (Ok layout) /\
       usable_width_mm layout = usable_width /\
       usable_height_mm layout = usable_height /\
       cols layout = Z.max 1 (Qfloor (F2Q across / F2Q card_across)) /\
       rows layout = Z.max 1 (Qfloor (F2Q down / F2Q card_down)) /\
       cards_per_page layout = (rows layout * cols layout)%Z /\
       total_pages layout =
         Qceiling (inject_Z total_cards / inject_Z (cards_per_page layout)) /\
       (total_cards = 0%Z -> total_pages layout = 0%Z)) /\
  (forall total_cards, exists layout,
     calculate_optimal_layout default_manager total_cards = Some (Ok layout) /\
     cols layout = 3%Z /\ rows layout = 3%Z /\ cards_per_page layout = 9%Z) /\
  (exists layout,
     calculate_optimal_layout default_manager 20 = Some (Ok layout) /\
     total_pages layout = 3%Z).
Proof.
  split; [|split].
  - intros self n usable_width usable_height across card_across down
      card_down Ha Hca Hnza Hqa Hd Hcd Hnzd Hqd.
    destruct (layout_grid self n Ha Hca Hnza Hqa Hd Hcd Hnzd Hqd)
      as (l & Hl & Hc & Hr).
    destruct (layout_fields _ _ _ Hl)
      as (Hr1 & Hc1 & Hcpp & Htp & Huw & Huh & _).
    exists l. split; [exact Hl|]. split; [exact Huw|]. split; [exact Huh|].
    split; [exact Hc|]. split; [exact Hr|]. split; [exact Hcpp|].
    split.
    + rewrite Htp. apply PageLayoutFacts.ceil_div_pages. rewrite Hcpp. nia.
    + intros ->. rewrite Htp. apply Z.div_small. nia.
  - intros n.
    destruct (layout_grid default_manager n) as (l & Hl & Hc & Hr);
      try (vm_compute; reflexivity); try (vm_compute; discriminate).
    destruct (layout_fields _ _ _ Hl) as (_ & _ & Hcpp & _).
    exists l. split; [exact Hl|].
    assert (cols l = 3%Z) as Hc3 by (rewrite Hc; vm_compute; reflexivity).
    assert (rows l = 3%Z) as Hr3 by (rewrite Hr; vm_compute; reflexivity).
    rewrite Hcpp, Hc3, Hr3. repeat split.
  - eexists. split; [vm_compute; reflexivity|]. reflexivity.
Qed.

(** C4 as stated fails. With a margin of 7.3 and a spacing of 3.2 on the
    default page and card, all positive, the formula of the claim gives 3
    columns, on the decimal values as on the exact values of the
    configured floats, and so does the floor of the binary64 quotient; the
    code gives 2, since the two sums round apart before [//] divides
    them. *)
Lemma calculate_optimal_layout_exact_formula_fails :
  let self := exact_fit_manager in
  exists layout,
    positive_dimensions self /\
    calculate_optimal_layout self 20 = Some (Ok layout) /\
    cols layout = 2%Z /\
    Z.max 1 (Qfloor ((F2Q (a4_width_mm self) - 2 * F2Q (margin_mm self)
                      + F2Q (card_spacing_mm self))
                     / (F2Q (card_width_mm self)
                        + F2Q (card_spacing_mm self)))) = 3%Z /\
    Z.max 1 (Qfloor ((210 - 2 * 7.3 + 3.2) / (63 + 3.2))) = 3%Z /\
    (((a4_width_mm self - 2 * margin_mm self + card_spacing_mm self)
      / (card_width_mm self + card_spacing_mm self))%float = 3%float).
Proof.
  intros self. eexists.
  split.
  { unfold positive_dimensions.
    repeat split; try (vm_compute; reflexivity); vm_compute; discriminate. }
  split; [vm_compute; reflexivity|].
  repeat split; vm_compute; reflexivity.
Qed.



Lemma calculate_optimal_layout_binary64_witness :
  exists layout,
    calculate_optimal_layout default_manager 20 = Some (Ok layout) /\
    usable_width_mm layout = 200%float /\
    usable_height_mm layout = 287%float /\
    cols layout = 3%Z /\ rows layout = 3%Z /\
    cards_per_page layout = 9%Z /\ total_pages layout = 3%Z.
Proof.
  destruct (proj1 calculate_optimal_layout_binary64 default_manager 20%Z)
    as (l & Hl & Huw & Huh & Hc & Hr & Hcpp & Htp & _);
    try (vm_compute; reflexivity); try (vm_compute; discriminate).
  exists l. split; [exact Hl|]. split; [exact Huw|]. split; [exact Huh|].
  assert (cols l = 3%Z) as Hc3 by (rewrite Hc; vm_compute; reflexivity).
  assert (rows l = 3%Z) as Hr3 by (rewrite Hr; vm_compute; reflexivity).
  assert (cards_per_page l = 9%Z) as H9 by (rewrite Hcpp, Hc3, Hr3; reflexivity).
  split; [exact Hc3|]. split; [exact Hr3|]. split; [exact H9|].
  rewrite Htp, H9. vm_compute. reflexivity.
Defined.


End PageLayout64Facts.

(** ** Facts about the Memory Tier *)

Module MemoryFacts.
Import Cache Sample.

(** *** Dictionaries *)

Section dict_facts.
Context {V : Type}.
Implicit Types (k : string) (v : V) (d : list (string * V)).

Lemma dict_get_set_eq k v d : dict_get k (dict_set k v d) = Some v.
Proof.
  induction d as [|[k' v'] d IH]; cbn.
  - now rewrite String.eqb_refl.
  - destruct (String.eqb k k') eqn:E; cbn; rewrite ?String.eqb_refl, ?E; auto.
Qed.

Lemma dict_get_set_ne k k' v d :
  k <> k' -> dict_get k' (dict_set k v d) = dict_get k' d.
Proof.
  intros Hne. induction d as [|[k0 v0] d IH]; cbn.
  - destruct (String.eqb_spec k' k); congruence.
  - destruct (String.eqb_spec k k0) as [->|]; cbn.
    + destruct (String.eqb_spec k' k0); congruence.
    + destruct (String.eqb_spec k' k0); auto.
Qed.

Lemma dict_get_del_eq k d : dict_get k (dict_del k d) = None.
Proof.
  induction d as [|[k' v'] d IH]; cbn; [reflexivity|].
  destruct (String.eqb k k') eqn:E; cbn; rewrite ?E; auto.
Qed.

Lemma dict_get_del_ne k k' d :
  k <> k' -> dict_get k' (dict_del k d) = dict_get k' d.
Proof.
  intros Hne. induction d as [|[k0 v0] d IH]; cbn; [reflexivity|].
  destruct (String.eqb_spec k k0) as [->|]; cbn.
  - destruct (String.eqb_spec k' k0); congruence.
  - destruct (String.eqb_spec k' k0); auto.
Qed.

Lemma dict_get_Some_In k v d : dict_get k d = Some v -> In (k, v) d.
Proof.
  induction d as [|[k' v'] d IH]; cbn; [discriminate|].
  destruct (String.eqb_spec k k') as [->|]; [intros [= ->]; now left|].
  intros Hg. right. auto.
Qed.

Lemma dict_get_None_keys k d : dict_get k d = None <-> ~ In k (dict_keys d).
Proof.
  induction d as [|[k' v'] d IH]; cbn; [tauto|].
  destruct (String.eqb_spec k k') as [->|Hne].
  - split; [discriminate|]. intros Hn. exfalso. apply Hn. now left.
  - rewrite IH. intuition congruence.
Qed.

Lemma In_dict_get k v d : dict_wf d -> In (k, v) d -> dict_get k d = Some v.
Proof.
  unfold dict_wf. induction d as [|[k' v'] d IH]; cbn; [tauto|].
  intros Hnd [Heq|Hin].
  - injection Heq as -> ->. now rewrite String.eqb_refl.
  - apply List.NoDup_cons_iff in Hnd as [Hk' Hnd].
    destruct (String.eqb_spec k k') as [->|]; [|auto].
    exfalso. apply Hk'. change k' with (fst (k', v)). now apply in_map.
Qed.

Lemma dict_keys_del k d : forall k', In k' (dict_keys (dict_del k d)) <-> In k' (dict_keys d) /\ k' <> k.
Proof.
  induction d as [|[k0 v0] d IH]; intros k'; cbn; [tauto|].
  destruct (String.eqb_spec k k0) as [->|Hne]; cbn; rewrite IH.
  - split; [tauto|]. intros [[->|Hi] Hn]; [congruence|tauto].
  - split; [intros [->|[Hi Hn]]; auto|]. intros [[->|Hi] Hn]; auto.
Qed.

Lemma dict_keys_set k v d :
  forall k', In k' (dict_keys (dict_set k v d)) <-> In k' (dict_keys d) \/ k' = k.
Proof.
  induction d as [|[k0 v0] d IH]; intros k'; cbn; [intuition congruence|].
  destruct (String.eqb_spec k k0) as [->|Hne]; cbn.
  - intuition congruence.
  - rewrite IH. intuition congruence.
Qed.

Lemma dict_wf_del k d : dict_wf d -> dict_wf (dict_del k d).
Proof.
  unfold dict_wf. induction d as [|[k0 v0] d IH]; cbn; [auto|].
  intros Hnd. apply List.NoDup_cons_iff in Hnd as [Hk0 Hnd].
  destruct (String.eqb_spec k k0) as [->|Hne]; [auto|].
  cbn. apply List.NoDup_cons_iff. split; [|auto].
  intros Hin. apply (dict_keys_del k d k0) in Hin. tauto.
Qed.

Lemma dict_wf_set k v d : dict_wf d -> dict_wf (dict_set k v d).
Proof.
  unfold dict_wf. induction d as [|[k0 v0] d IH]; cbn.
  - intros _. apply List.NoDup_cons_iff. split; [easy|constructor].
  - intros Hnd. apply List.NoDup_cons_iff in Hnd as [Hk0 Hnd].
    destruct (String.eqb_spec k k0) as [->|Hne]; cbn.
    + apply List.NoDup_cons_iff. auto.
    + apply List.NoDup_cons_iff. split; [|auto].
      intros Hin. apply (dict_keys_set k v d k0) in Hin as [Hi|He];
        [exact (Hk0 Hi)|congruence].
Qed.

Lemma dict_del_absent k d : dict_get k d = None -> dict_del k d = d.
Proof.
  induction d as [|[k0 v0] d IH]; cbn; [reflexivity|].
  destruct (String.eqb_spec k k0); [discriminate|].
  intros Hg. now rewrite IH.
Qed.

Lemma length_dict_del_le k d : (length (dict_del k d) <= length d)%nat.
Proof.
  induction d as [|[k0 v0] d IH]; cbn; [lia|].
  destruct (String.eqb k k0); cbn; lia.
Qed.

Lemma length_dict_del_lt k d :
  dict_get k d <> None -> (length (dict_del k d) < length d)%nat.
Proof.
  induction d as [|[k0 v0] d IH]; cbn; [congruence|].
  destruct (String.eqb k k0); cbn; intros Hg.
  - pose proof (length_dict_del_le k d). lia.
  - apply IH in Hg. lia.
Qed.

(** In a well-formed dictionary [del] removes exactly one binding. *)
Lemma length_dict_del_present k d :
  dict_wf d -> dict_get k d <> None -> S (length (dict_del k d)) = length d.
Proof.
  unfold dict_wf. induction d as [|[k0 v0] d IH]; cbn; [congruence|].
  intros Hnd Hg. apply List.NoDup_cons_iff in Hnd as [Hk0 Hnd].
  destruct (String.eqb_spec k k0) as [->|Hne]; cbn.
  - rewrite dict_del_absent; [reflexivity|]. now apply dict_get_None_keys.
  - f_equal. auto.
Qed.

Lemma length_dict_set k v d :
  length (dict_set k v d) =
  match dict_get k d with Some _ => length d | None => S (length d) end.
Proof.
  induction d as [|[k0 v0] d IH]; cbn; [reflexivity|].
  destruct (String.eqb k k0); cbn; [reflexivity|].
  rewrite IH. now destruct (dict_get k d).
Qed.

Lemma length_dict_set_le k v d : (length (dict_set k v d) <= S (length d))%nat.
Proof. rewrite length_dict_set. destruct (dict_get k d); lia. Qed.

End dict_facts.

(** *** The least recently used entry *)

Lemma min_from_In best rest : In (min_from best rest) (best :: rest).
Proof.
  revert best. induction rest as [|x rest IH]; intros best; cbn; [now left|].
  destruct (lru_stamp (snd x) <? lru_stamp (snd best))%Z.
  - right. apply IH.
  - destruct (IH best) as [<-|Hin]; [now left|right; now right].
Qed.

Lemma min_from_le_best best rest :
  (lru_stamp (snd (min_from best rest)) <= lru_stamp (snd best))%Z.
Proof.
  revert best. induction rest as [|x rest IH]; intros best; cbn; [lia|].
  destruct (Z.ltb_spec (lru_stamp (snd x)) (lru_stamp (snd best))).
  - specialize (IH x). lia.
  - apply IH.
Qed.

Lemma min_from_least best rest item :
  In item (best :: rest) ->
  (lru_stamp (snd (min_from best rest)) <= lru_stamp (snd item))%Z.
Proof.
  revert best. induction rest as [|x rest IH]; intros best Hin.
  - destruct Hin as [<-|[]]. cbn. lia.
  - cbn. destruct (Z.ltb_spec (lru_stamp (snd x)) (lru_stamp (snd best))).
    + destruct Hin as [<-|Hin].
      * pose proof (min_from_le_best x rest). lia.
      * apply IH. exact Hin.
    + destruct Hin as [<-|[<-|Hin]].
      * apply min_from_le_best.
      * pose proof (min_from_le_best best rest). lia.
      * apply IH. now right.
Qed.

(** [lru_key] names a stored entry whose stamp no stored entry undercuts;
    it is defined exactly when the dictionary is non-empty. *)
Lemma lru_key_spec (c : list (string * CacheEntry)) :
  match lru_key c with
  | None => c = []
  | Some k =>
      exists entry, In (k, entry) c /\
        forall k' entry', In (k', entry') c ->
          (lru_stamp entry <= lru_stamp entry')%Z
  end.
Proof.
  destruct c as [|item rest]; [reflexivity|]. cbn [lru_key].
  exists (snd (min_from item rest)). split.
  - rewrite <- surjective_pairing. apply min_from_In.
  - intros k' entry' Hin. exact (min_from_least item rest (k', entry') Hin).
Qed.

Lemma In_dict_get_present {V} k (v : V) d : In (k, v) d -> dict_get k d <> None.
Proof.
  intros Hin Hg. apply dict_get_None_keys in Hg. apply Hg.
  change k with (fst (k, v)). now apply in_map.
Qed.

(** *** [MemoryCache.get] *)

Lemma is_expired_iff now entry :
  is_expired now entry = true <->
  exists t, expires_at entry = Some t /\ (t < now)%Z.
Proof.
  unfold is_expired. destruct (expires_at entry) as [t|].
  - rewrite Z.ltb_lt. split; [eauto|]. now intros (t' & [= <-] & Ht).
  - split; [discriminate|]. now intros (t & [=] & _).
Qed.

(** What [get] answers and what it leaves, case by case. *)
Lemma MemoryCache_get_cases now key self :
  exists v self',
    MemoryCache_get now key self = (v, self') /\
    max_size self' = max_size self /\
    default_ttl_hours self' = default_ttl_hours self /\
    (forall k, k <> key -> dict_get k (_cache self') = dict_get k (_cache self)) /\
    match dict_get key (_cache self) with
    | None => v = PNone /\ self' = self
    | Some entry =>
        if is_expired now entry then
          v = PNone /\ dict_get key (_cache self') = None /\
          _cache self' = dict_del key (_cache self)
        else
          v = data entry /\
          dict_get key (_cache self') =
            Some {| Cache.key := Cache.key entry;
                    data := data entry;
                    created_at := created_at entry;
                    expires_at := expires_at entry;
                    access_count := access_count entry + 1;
                    last_accessed := Some now |} /\
          length (_cache self') = length (_cache self)
    end.
Proof.
  unfold MemoryCache_get.
  destruct (dict_get key (_cache self)) as [entry|] eqn:Hg.
  - destruct (is_expired now entry) eqn:He.
    + eexists _, _. split; [reflexivity|]. cbn. repeat split.
      * intros k Hk. now apply dict_get_del_ne.
      * apply dict_get_del_eq.
    + eexists _, _. split; [reflexivity|]. cbn. repeat split.
      * intros k Hk. now apply dict_get_set_ne.
      * apply dict_get_set_eq.
      * rewrite length_dict_set. now rewrite Hg.
  - eexists _, _. split; [reflexivity|]. repeat split.
Qed.

(** C6. [MemoryCache.get(key)]: without an entry the answer is absent and
    nothing changes; an expired entry ([expires_at] is not [None] and
    [now > expires_at]) is deleted and the answer is absent; otherwise the
    entry's [access_count] grows by one, its [last_accessed] becomes [now]
    and its data is the answer. The function is total: no case raises. *)
Theorem MemoryCache_get_spec now key self :
  (forall entry, is_expired now entry = true <->
     exists t, expires_at entry = Some t /\ (t < now)%Z) /\
  exists v self',
    MemoryCache_get now key self = (v, self') /\
    max_size self' = max_size self /\
    default_ttl_hours self' = default_ttl_hours self /\
    (forall k, k <> key -> dict_get k (_cache self') = dict_get k (_cache self)) /\
    match dict_get key (_cache self) with
    | None => v = PNone /\ self' = self
    | Some entry =>
        if is_expired now entry then
          v = PNone /\ dict_get key (_cache self') = None /\
          _cache self' = dict_del key (_cache self)
        else
          v = data entry /\
          dict_get key (_cache self') =
            Some {| Cache.key := Cache.key entry;
                    data := data entry;
                    created_at := created_at entry;
                    expires_at := expires_at entry;
                    access_count := access_count entry + 1;
                    last_accessed := Some now |} /\
          length (_cache self') = length (_cache self)
    end.
Proof.
  split.
  - intros entry. apply is_expired_iff.
  - apply MemoryCache_get_cases.
Qed.

(** *** [MemoryCache.set] *)

Section set_facts.
Context {rt : Runtime}.

Lemma MemoryCache_set_valid now key data data' ttl_hours self :
  validate_data data = Some data' ->
  MemoryCache_set now key data ttl_hours self =
  (Ok tt,
   with_cache (after_eviction self)
     (dict_set key (new_entry now key data' ttl_hours self)
        (_cache (after_eviction self)))).
Proof.
  intros Hv. unfold MemoryCache_set, CacheEntry_new, after_eviction, new_entry.
  cbv zeta. now rewrite Hv.
Qed.

Lemma MemoryCache_set_invalid now key data ttl_hours self :
  validate_data data = None ->
  MemoryCache_set now key data ttl_hours self =
  (Raise PydanticValidationError, after_eviction self).
Proof.
  intros Hv. unfold MemoryCache_set, CacheEntry_new, after_eviction.
  cbv zeta. now rewrite Hv.
Qed.

(** C2, as the code has it. After [MemoryCache.set(key, data, ttl_hours)]
    the entry stored under [key] has [expires_at = now + default_ttl_hours]
    hours when [ttl_hours] is falsy ([None] or [0]), never [None]; and
    [expires_at = now + ttl_hours] hours when [ttl_hours] is truthy. *)
Theorem MemoryCache_set_expires_at now key data data' ttl_hours self :
  validate_data data = Some data' ->
  exists self' entry,
    MemoryCache_set now key data ttl_hours self = (Ok tt, self') /\
    dict_get key (_cache self') = Some entry /\
    Cache.data entry = data' /\
    (falsy_ttl ttl_hours ->
       expires_at entry =
       Some (now + timedelta_hours (default_ttl_hours self))%Z) /\
    (forall t, ttl_hours = Some t -> t <> 0%Z ->
       expires_at entry = Some (now + timedelta_hours t)%Z).
Proof.
  intros Hv. rewrite (MemoryCache_set_valid _ _ _ _ _ _ Hv).
  eexists _, _. split; [reflexivity|]. cbn [_cache with_cache].
  split; [apply dict_get_set_eq|]. split; [reflexivity|]. split.
  - intros [->| ->]; reflexivity.
  - intros t -> Ht. cbn. destruct (Z.eqb_spec t 0); [contradiction|reflexivity].
Qed.

(** *** Eviction and the size bound *)

Lemma after_eviction_fields self :
  max_size (after_eviction self) = max_size self /\
  default_ttl_hours (after_eviction self) = default_ttl_hours self.
Proof.
  unfold after_eviction, _evict_lru.
  destruct (_ <=? _)%Z; [|easy]. now destruct (lru_key _).
Qed.

(** What the size test of [set] does to the dictionary. *)
Lemma after_eviction_cases self :
  dict_wf (_cache self) ->
  ((max_size self <= Z.of_nat (length (_cache self)))%Z /\ _cache self <> [] ->
   exists victim ventry,
     In (victim, ventry) (_cache self) /\
     (forall k e, In (k, e) (_cache self) ->
        (lru_stamp ventry <= lru_stamp e)%Z) /\
     _cache (after_eviction self) = dict_del victim (_cache self) /\
     S (length (dict_del victim (_cache self))) = length (_cache self) /\
     dict_get victim (dict_del victim (_cache self)) = None /\
     (forall k, k <> victim ->
        dict_get k (dict_del victim (_cache self)) = dict_get k (_cache self))) /\
  (~ ((max_size self <= Z.of_nat (length (_cache self)))%Z /\ _cache self <> []) ->
   _cache (after_eviction self) = _cache self).
Proof.
  intros Hwf. unfold after_eviction, _evict_lru.
  pose proof (lru_key_spec (_cache self)) as Hlru.
  destruct (Z.leb_spec (max_size self) (Z.of_nat (length (_cache self)))) as [Hfull|Hroom].
  - destruct (lru_key (_cache self)) as [victim|].
    + destruct Hlru as (ventry & Hin & Hmin). split.
      * intros _. exists victim, ventry. repeat split; try assumption.
        -- apply length_dict_del_present; [assumption|].
           now apply In_dict_get_present with ventry.
        -- apply dict_get_del_eq.
        -- intros k Hk. now apply dict_get_del_ne.
      * intros Hno. exfalso. apply Hno. split; [assumption|].
        intros E. rewrite E in Hin. destruct Hin.
    + split; [|reflexivity]. intros [_ Hne]. contradiction.
  - split; [|reflexivity]. intros [Hfull _]. lia.
Qed.

Lemma after_eviction_length self :
  (length (_cache (after_eviction self)) <= length (_cache self))%nat /\
  ((1 <= max_size self)%Z ->
   (max_size self <= Z.of_nat (length (_cache self)))%Z ->
   (length (_cache (after_eviction self)) < length (_cache self))%nat).
Proof.
  unfold after_eviction, _evict_lru.
  pose proof (lru_key_spec (_cache self)) as Hlru.
  destruct (Z.leb_spec (max_size self) (Z.of_nat (length (_cache self)))) as [Hfull|Hroom].
  - destruct (lru_key (_cache self)) as [victim|].
    + destruct Hlru as (ventry & Hin & _). cbn [_cache with_cache].
      pose proof (length_dict_del_lt victim (_cache self)
                    (In_dict_get_present _ _ _ Hin)). lia.
    + rewrite Hlru. cbn. split; [lia|]. rewrite Hlru in Hfull. cbn in Hfull. lia.
  - split; [lia|]. lia.
Qed.

Lemma run_op_bound o self :
  (1 <= max_size self)%Z -> within_bound self ->
  max_size (run_op o self) = max_size self /\ within_bound (run_op o self).
Proof.
  unfold within_bound. intros Hmax Hb. destruct o as [now key|now key data ttl|key|]; cbn.
  - destruct (MemoryCache_get_cases now key self)
      as (v & self' & -> & Hm & _ & _ & Hcase). cbn. split; [exact Hm|].
    rewrite Hm. destruct (dict_get key (_cache self)) as [entry|].
    + destruct (is_expired now entry).
      * destruct Hcase as (_ & _ & ->).
        pose proof (length_dict_del_le key (_cache self)). lia.
      * destruct Hcase as (_ & _ & ->). lia.
    + destruct Hcase as [_ ->]. lia.
  - destruct (after_eviction_fields self) as [Hm _].
    destruct (after_eviction_length self) as [Hle Hlt].
    destruct (validate_data data) as [data'|] eqn:Hv.
    + rewrite (MemoryCache_set_valid _ _ _ _ _ _ Hv). cbn. split; [exact Hm|].
      rewrite Hm.
      pose proof (length_dict_set_le key (new_entry now key data' ttl self)
                    (_cache (after_eviction self))).
      destruct (Z.le_gt_cases (max_size self) (Z.of_nat (length (_cache self)))).
      * specialize (Hlt Hmax ltac:(assumption)). lia.
      * lia.
    + rewrite (MemoryCache_set_invalid _ _ _ _ _ Hv). cbn. split; [exact Hm|].
      rewrite Hm. lia.
  - unfold MemoryCache_delete. destruct (dict_get key (_cache self)); cbn.
    + split; [reflexivity|]. pose proof (length_dict_del_le key (_cache self)). lia.
    + split; [reflexivity|]. lia.
  - split; [reflexivity|]. lia.
Qed.

Lemma run_ops_bound ops : forall self,
  (1 <= max_size self)%Z -> within_bound self ->
  max_size (run_ops ops self) = max_size self /\ within_bound (run_ops ops self).
Proof.
  induction ops as [|o ops IH]; intros self Hmax Hb; [easy|].
  change (run_ops (o :: ops) self) with (run_ops ops (run_op o self)).
  destruct (run_op_bound o self Hmax Hb) as [Hm Hb'].
  assert (1 <= max_size (run_op o self))%Z as Hmax' by lia.
  destruct (IH (run_op o self) Hmax' Hb') as [Hm' Hb''].
  split; [now rewrite Hm'|exact Hb''].
Qed.

(** Every operation keeps the dictionary well formed. *)
Lemma run_op_wf o self : dict_wf (_cache self) -> dict_wf (_cache (run_op o self)).
Proof.
  intros Hwf. destruct o as [now key|now key data ttl|key|]; cbn.
  - unfold MemoryCache_get. destruct (dict_get key (_cache self)) as [entry|]; [|easy].
    destruct (is_expired now entry); cbn; [now apply dict_wf_del|now apply dict_wf_set].
  - assert (dict_wf (_cache (after_eviction self))) as Hwf'.
    { unfold after_eviction, _evict_lru. destruct (_ <=? _)%Z; [|easy].
      destruct (lru_key _); [|easy]. now apply dict_wf_del. }
    destruct (validate_data data) as [data'|] eqn:Hv.
    + rewrite (MemoryCache_set_valid _ _ _ _ _ _ Hv). cbn. now apply dict_wf_set.
    + now rewrite (MemoryCache_set_invalid _ _ _ _ _ Hv).
  - unfold MemoryCache_delete. destruct (dict_get key (_cache self)); cbn; [|easy].
    now apply dict_wf_del.
  - constructor.
Qed.

(** C3, as the code has it. [MemoryCache.set] evicts exactly when the entry
    count has reached [max_size] and the cache is not empty, whether or not
    [key] is already stored; it then removes exactly one entry, one whose
    [last_accessed] (or [created_at], if it was never read) is the oldest,
    before it inserts. When [max_size >= 1], the entry count of a cache
    within the bound stays within the bound through every sequence of
    [get], [set], [delete] and [clear]. *)
Theorem MemoryCache_set_eviction :
  (forall now key data data' ttl_hours self,
     validate_data data = Some data' -> dict_wf (_cache self) ->
     let entry := new_entry now key data' ttl_hours self in
     exists self',
       MemoryCache_set now key data ttl_hours self = (Ok tt, self') /\
       ((max_size self <= Z.of_nat (length (_cache self)))%Z /\
        _cache self <> [] ->
        exists victim ventry,
          In (victim, ventry) (_cache self) /\
          (forall k e, In (k, e) (_cache self) ->
             (lru_stamp ventry <= lru_stamp e)%Z) /\
          S (length (dict_del victim (_cache self))) = length (_cache self) /\
          dict_get victim (dict_del victim (_cache self)) = None /\
          (forall k, k <> victim ->
             dict_get k (dict_del victim (_cache self)) =
             dict_get k (_cache self)) /\
          _cache self' = dict_set key entry (dict_del victim (_cache self))) /\
       (~ ((max_size self <= Z.of_nat (length (_cache self)))%Z /\
           _cache self <> []) ->
        _cache self' = dict_set key entry (_cache self))) /\
  (forall ops self,
     (1 <= max_size self)%Z ->
     (Z.of_nat (length (_cache self)) <= max_size self)%Z ->
     (Z.of_nat (length (_cache (run_ops ops self))) <= max_size self)%Z).
Proof.
  split.
  - intros now key data data' ttl_hours self Hv Hwf entry.
    rewrite (MemoryCache_set_valid _ _ _ _ _ _ Hv). eexists. split; [reflexivity|].
    cbn [_cache with_cache]. fold entry.
    destruct (after_eviction_cases self Hwf) as [Hev Hno]. split.
    + intros Hfull.
      destruct (Hev Hfull) as (victim & ventry & Hin & Hmin & Hc & Hlen & Hgone & Hrest).
      exists victim, ventry. rewrite Hc. repeat split; assumption.
    + intros Hroom. now rewrite (Hno Hroom).
  - intros ops self Hmax Hb.
    destruct (run_ops_bound ops self Hmax Hb) as [Hm Hb'].
    unfold within_bound in Hb'. now rewrite Hm in Hb'.
Qed.

Lemma run_ops_wf ops : forall self,
  dict_wf (_cache self) -> dict_wf (_cache (run_ops ops self)).
Proof.
  induction ops as [|o ops IH]; intros self Hwf; [exact Hwf|].
  change (run_ops (o :: ops) self) with (run_ops ops (run_op o self)).
  apply IH. now apply run_op_wf.
Qed.

End set_facts.

(** *** Concrete runs *)

(** C2 as stated fails: a [set] without [ttl_hours] on a cache whose default
    is one hour stores an entry that expires one hour later, not never. *)
Lemma MemoryCache_set_falsy_ttl_not_None :
  ~ (forall now key data ttl_hours self self' entry,
       falsy_ttl ttl_hours ->
       MemoryCache_set (rt := Sample.runtime) now key data ttl_hours self
         = (Ok tt, self') ->
       dict_get key (_cache self') = Some entry ->
       expires_at entry = None).
Proof.
  intros Hclaim.
  specialize (Hclaim 0%Z "pokemon_1" (PInt 7) None (MemoryCache_init 1000 1)
                _ _ (or_introl eq_refl) eq_refl eq_refl).
  discriminate Hclaim.
Qed.

Lemma MemoryCache_set_expires_at_witness :
  exists self' entry,
    MemoryCache_set (rt := Sample.runtime) 0 "pokemon_1" (PInt 7) None
      (MemoryCache_init 1000 1) = (Ok tt, self') /\
    dict_get "pokemon_1" (_cache self') = Some entry /\
    expires_at entry = Some 3600000000%Z.
Proof.
  destruct (MemoryCache_set_expires_at (rt := Sample.runtime)
              0 "pokemon_1" (PInt 7) (PInt 7) None (MemoryCache_init 1000 1)
              eq_refl) as (self' & entry & Hset & Hget & _ & Hfalsy & _).
  exists self', entry. split; [exact Hset|]. split; [exact Hget|].
  rewrite (Hfalsy (or_introl eq_refl)). reflexivity.
Defined.

(** C3 as stated fails twice. With the cache full and ["B"] already stored,
    [set("B", ...)] still evicts: ["A"] is gone afterwards, although the
    insertion would not have exceeded [max_size]. And with [max_size = 0]
    one [set] on the empty cache leaves one entry, more than [max_size]. *)
Lemma MemoryCache_set_evicts_for_stored_key :
  ~ (forall now key data ttl_hours self self',
       MemoryCache_set (rt := Sample.runtime) now key data ttl_hours self
         = (Ok tt, self') ->
       (evicted self self' <->
        (max_size self <= Z.of_nat (length (_cache self)))%Z /\
        dict_get key (_cache self) = None)) /\
  ~ (forall ops self,
       (Z.of_nat (length (_cache self)) <= max_size self)%Z ->
       (Z.of_nat (length (_cache (run_ops (rt := Sample.runtime) ops self)))
          <= max_size self)%Z).
Proof.
  split; intros Hclaim.
  - specialize (Hclaim 3%Z "B" (PInt 3) None two_entries _ eq_refl).
    destruct Hclaim as [Hnew _].
    destruct Hnew as [_ Hnew].
    + exists "A"%string. split; [discriminate|reflexivity].
    + discriminate Hnew.
  - specialize (Hclaim [OpSet 1 "A" (PInt 1) None] (MemoryCache_init 0 1)).
    apply Hclaim; reflexivity.
Qed.

(** The scripted access pattern of section 8: with room for three, after
    writing ["A"], ["B"], ["C"] and reading ["A"], writing ["D"] evicts
    ["B"], the least recently used, and not ["A"]. *)
Lemma lru_script_evicts_B :
  dict_keys (_cache (run_ops (rt := Sample.runtime)
    [OpSet 1 "A" (PInt 1) None; OpSet 2 "B" (PInt 2) None;
     OpSet 3 "C" (PInt 3) None; OpGet 4 "A"; OpSet 5 "D" (PInt 4) None]
    (MemoryCache_init 3 1))) = ["A"; "C"; "D"].
Proof. reflexivity. Qed.

Lemma MemoryCache_set_eviction_witness :
  exists self',
    MemoryCache_set (rt := Sample.runtime) 3 "C" (PInt 3) None two_entries
      = (Ok tt, self') /\
    dict_keys (_cache self') = ["B"; "C"] /\
    (Z.of_nat (length (_cache self')) <= 2)%Z.
Proof.
  destruct (MemoryCache_set_eviction (rt := Sample.runtime)) as [Hset Hbound].
  destruct (Hset 3%Z "C" (PInt 3) (PInt 3) None two_entries eq_refl
              ltac:(repeat constructor; cbn; intuition discriminate))
    as (self' & Hrun & _ & _).
  exists self'. split; [exact Hrun|].
  injection Hrun as <-. split; [reflexivity|].
  exact (Hbound [OpSet 3 "C" (PInt 3) None] two_entries
           ltac:(vm_compute; discriminate) ltac:(vm_compute; discriminate)).
Defined.

End MemoryFacts.

(** ** Facts about the Disk Tier *)

Module DiskFacts.
Import Cache CacheRest Sample.

(** *** What [json] keeps *)

Lemma json_default_str_native : forall v, json_native (json_default_str v) = true.
Proof.
  fix IH 1. intros [ | b | n | q | s | l | d | s | l ]; cbn; try reflexivity.
  - induction l as [|x l IHl]; cbn; [reflexivity|].
    now rewrite IH, IHl.
  - induction d as [|[k x] d IHd]; cbn; [reflexivity|].
    now rewrite IH, IHd.
  - induction l as [|x l IHl]; cbn; [reflexivity|].
    now rewrite IH, IHl.
Qed.

Lemma json_default_str_id : forall v, json_plain v = true -> json_default_str v = v.
Proof.
  fix IH 1. intros [ | b | n | q | s | l | d | s | l ]; cbn; try reflexivity; try discriminate.
  - intros Hn. f_equal. induction l as [|x l IHl]; cbn in *; [reflexivity|].
    apply andb_prop in Hn as [Hx Hl]. now rewrite (IH x Hx), (IHl Hl).
  - intros Hn. f_equal. induction d as [|[k x] d IHd]; cbn in *; [reflexivity|].
    apply andb_prop in Hn as [Hx Hd]. now rewrite (IH x Hx), (IHd Hd).
Qed.

(** *** Running the computations *)

Ltac run :=
  unfold mbind, M_bind, mret, M_ret, raise, try_except, log_error,
    path_exists, read_json, unlink, glob; cbn.

(** A [try] whose handler never raises never raises. *)
Lemma try_except_total {A} (body : M A) (handler : exn -> M A) w :
  (forall e w1, exists a w2, handler e w1 = (Ok a, w2)) ->
  exists a w', try_except body handler w = (Ok a, w').
Proof.
  intros Hh. unfold try_except. destruct (body w) as [[a|e] w1]; eauto.
Qed.

(** The decorator passes a normal return through. *)
Lemma handle_errors_reraise_ok {A} name (func : M A) w a w' :
  func w = (Ok a, w') -> handle_errors_reraise name func w = (Ok a, w').
Proof. intros Hf. unfold handle_errors_reraise, try_except. now rewrite Hf. Qed.

Section get_facts.
Context {rt : Runtime}.

(** The body of [get] under the decorator, named to reason about it. *)
Lemma FileCache_get_total self now key w :
  exists v w', FileCache_get self now key w = (Ok v, w').
Proof.
  unfold FileCache_get.
  match goal with |- context [handle_errors_reraise _ ?body] =>
    assert (exists v w', body w = (Ok v, w')) as (v & w' & Hbody)
  end.
  { unfold mbind, M_bind, path_exists.
    destruct (files w !! _get_cache_file_path key); cbn [negb].
    - apply try_except_total. intros e w1. run. eauto.
    - run. eauto. }
  exists v, w'. now apply handle_errors_reraise_ok.
Qed.

(** C8. [FileCache.get] keeps a failure from the caller only when it
    happens inside its [try]. While [stat] answers, [get] always returns:
    when the key's file is missing it answers absent and changes nothing;
    when the file cannot be opened or its text cannot be parsed it answers
    absent, leaves the files alone and logs a cache error; when the
    document's [expires_at] lies in the past it deletes the file and
    answers absent. When [stat] is refused the existence test raises
    before the [try] is entered, and [get] logs and raises
    ["Unexpected error in get"], where [delete], which makes the same test
    inside its [try], logs and answers [False]. *)
Theorem FileCache_get_stat_refused self now key w :
  let file_path := _get_cache_file_path key in
  let unexpected := UnexpectedError "get" OSError in
  FileCache_get_stat true self now key w =
    (Raise unexpected,
     {| files := files w; log := log w ++ [unexpected] |}) /\
  FileCache_delete_stat true self key w =
    (Ok false,
     {| files := files w;
        log := log w ++ [CacheError "delete" key OSError] |}) /\
  FileCache_get_stat false self now key w = FileCache_get self now key w /\
  (exists v w', FileCache_get self now key w = (Ok v, w')) /\
  (files w !! file_path = None ->
   FileCache_get self now key w = (Ok PNone, w)) /\
  (forall f, files w !! file_path = Some f -> f_text f = Unreadable ->
   FileCache_get self now key w =
   (Ok PNone, {| files := files w;
                 log := log w ++ [CacheError "get" key OSError] |})) /\
  (forall f, files w !! file_path = Some f -> f_text f = Malformed ->
   FileCache_get self now key w =
   (Ok PNone, {| files := files w;
                 log := log w ++ [CacheError "get" key JSONDecodeError] |})) /\
  (forall f d s expires_at,
   files w !! file_path = Some f -> f_text f = Doc (PDict d) ->
   dict_get "expires_at" d = Some (PStr s) -> s <> ""%string ->
   fromisoformat s = Some expires_at -> (expires_at < now)%Z ->
   FileCache_get self now key w =
   (Ok PNone, {| files := delete file_path (files w); log := log w |})).
Proof.
  intros file_path unexpected.
  split; [reflexivity|]. split; [reflexivity|]. split; [reflexivity|].
  split; [apply FileCache_get_total|].
  repeat split.
  - intros Hf. apply handle_errors_reraise_ok. run.
    fold file_path. now rewrite Hf.
  - intros f Hf Ht. apply handle_errors_reraise_ok. run.
    fold file_path. rewrite Hf. cbn. rewrite Hf, Ht. reflexivity.
  - intros f Hf Ht. apply handle_errors_reraise_ok. run.
    fold file_path. rewrite Hf. cbn. rewrite Hf, Ht. reflexivity.
  - intros f d s e Hf Ht Hd Hs Hp He. apply handle_errors_reraise_ok. run.
    fold file_path. rewrite Hf. cbn. rewrite Hf, Ht.
    unfold document_expired. rewrite Hd. cbn.
    destruct (String.eqb_spec s ""); [contradiction|]. cbn.
    rewrite Hp. run.
    destruct (Z.ltb_spec e now); [|lia]. now rewrite Hf.
Qed.

End get_facts.

(** *** Sorting by modification time *)

Section sorting.
Context {rt : Runtime}.

Lemma insert_by_mtime_perm x l : insert_by_mtime x l ≡ₚ x :: l.
Proof.
  induction l as [|y l IH]; cbn; [reflexivity|].
  destruct (_ <=? _)%Z; [reflexivity|].
  rewrite IH. apply Permutation_swap.
Qed.

Lemma sorted_by_mtime_perm l : sorted_by_mtime l ≡ₚ l.
Proof.
  induction l as [|x l IH]; cbn; [reflexivity|].
  now rewrite insert_by_mtime_perm, IH.
Qed.

Lemma insert_by_mtime_sorted x l :
  StronglySorted le_mtime l -> StronglySorted le_mtime (insert_by_mtime x l).
Proof.
  induction 1 as [|y l Hs IH Hy]; cbn.
  - repeat constructor.
  - destruct (Z.leb_spec (f_mtime (snd x)) (f_mtime (snd y))) as [Hle|Hgt].
    + constructor; [now constructor|].
      constructor; [exact Hle|].
      eapply Forall_impl; [exact Hy|]. unfold le_mtime. intros z Hz. lia.
    + constructor; [exact IH|].
      rewrite insert_by_mtime_perm. constructor; [|exact Hy].
      unfold le_mtime. lia.
Qed.

Lemma sorted_by_mtime_sorted l : StronglySorted le_mtime (sorted_by_mtime l).
Proof.
  induction l as [|x l IH]; cbn; [constructor|].
  now apply insert_by_mtime_sorted.
Qed.

Lemma StronglySorted_app_le {A} (R : A -> A -> Prop) l1 l2 :
  StronglySorted R (l1 ++ l2) ->
  forall x y, In x l1 -> In y l2 -> R x y.
Proof.
  induction l1 as [|a l1 IH]; cbn; intros Hs x y Hx Hy; [destruct Hx|].
  apply StronglySorted_inv in Hs as [Hs Ha].
  destruct Hx as [<-|Hx]; [|now apply IH].
  rewrite List.Forall_forall in Ha. apply Ha. apply in_or_app. now right.
Qed.

(** *** The clean-up of [set] *)

Lemma remove_all_lookup names : forall (fs : gmap string file) p,
  remove_all names fs !! p =
  if decide (p ∈ names) then None else fs !! p.
Proof.
  induction names as [|q names IH]; intros fs p; cbn.
  - case_decide as Hin; [|reflexivity]. now apply elem_of_nil in Hin.
  - rewrite IH. destruct (decide (p ∈ names)) as [Hin|Hnin].
    + rewrite decide_True by (apply elem_of_cons; now right). reflexivity.
    + destruct (decide (p = q)) as [->|Hne].
      * rewrite lookup_delete_eq.
        rewrite decide_True by (apply elem_of_cons; now left). reflexivity.
      * rewrite lookup_delete_ne by congruence.
        rewrite decide_False; [reflexivity|].
        rewrite elem_of_cons. intros [Heq|Hin]; [exact (Hne Heq)|exact (Hnin Hin)].
Qed.

Lemma for_each_unlink (l : list (string * file)) : forall w,
  NoDup (l.*1) ->
  (forall x, x ∈ l -> is_Some (files w !! fst x)) ->
  for_each l (fun f => unlink (fst f)) w =
  (Ok tt, with_files w (remove_all (l.*1) (files w))).
Proof.
  induction l as [|[p f] l IH]; intros w Hnd Hex; cbn.
  - unfold mret, M_ret, with_files. now destruct w.
  - apply NoDup_cons in Hnd as [Hp Hnd].
    unfold mbind, M_bind, unlink at 1. cbn.
    destruct (Hex (p, f)) as [f' Hf']; [now left|]. cbn in Hf'. rewrite Hf'.
    rewrite IH; [reflexivity|exact Hnd|].
    intros x Hx. cbn. rewrite lookup_delete_ne.
    + apply Hex. now right.
    + intros ->. apply Hp. apply list_elem_of_fmap. now exists x.
Qed.

Lemma victims_of_spec (fs : gmap string file) :
  let listing := map_to_list fs in
  let sorted := sorted_by_mtime listing in
  let kept := drop (length sorted / 4) sorted in
  listing ≡ₚ victims_of fs ++ kept /\
  length (victims_of fs) = (length listing / 4)%nat /\
  (forall x y, In x (victims_of fs) -> In y kept -> le_mtime x y) /\
  NoDup ((victims_of fs).*1) /\
  (forall x, x ∈ victims_of fs -> fs !! fst x = Some (snd x)).
Proof.
  intros listing sorted kept. unfold victims_of. fold listing sorted.
  assert (Hperm : sorted ≡ₚ listing) by apply sorted_by_mtime_perm.
  assert (Hsplit : take (length sorted / 4) sorted ++ kept = sorted)
    by apply take_drop.
  assert (Hlen : length sorted = length listing) by now rewrite Hperm.
  repeat split.
  - now rewrite Hsplit.
  - rewrite length_take, Hlen.
    pose proof (Nat.Div0.div_le_upper_bound (length listing) 4 (length listing)).
    lia.
  - apply StronglySorted_app_le. rewrite Hsplit. apply sorted_by_mtime_sorted.
  - assert (NoDup (sorted.*1)) as Hnd.
    { rewrite Hperm. apply NoDup_fst_map_to_list. }
    rewrite <- Hsplit, fmap_app in Hnd. now apply NoDup_app in Hnd as [Hnd _].
  - intros [p f] Hx. cbn. apply elem_of_map_to_list.
    fold listing. rewrite <- Hperm, <- Hsplit. apply elem_of_app. now left.
Qed.

Lemma cleanup_result self w :
  _cleanup_if_needed self w =
  (Ok tt, with_files w (cleanup_files self (files w))).
Proof.
  unfold _cleanup_if_needed, cleanup_files, try_except, mbind, M_bind, glob.
  destruct (_ <? _)%Z.
  - destruct (victims_of_spec (files w)) as (_ & _ & _ & Hnd & Hex).
    fold (victims_of (files w)).
    rewrite for_each_unlink; [reflexivity|exact Hnd|].
    intros x Hx. rewrite (Hex x Hx). eauto.
  - unfold mret, M_ret, with_files. now destruct w.
Qed.

(** *** [FileCache.set] *)

(** [set] cleans up, then writes; it raises exactly when the key's file is
    there and cannot be written. *)
Lemma FileCache_set_result self now key data ttl_hours w :
  let remaining := cleanup_files self (files w) in
  let file_path := _get_cache_file_path key in
  FileCache_set self now key data ttl_hours w =
  if from_option f_writable true (remaining !! file_path) then
    (Ok tt,
     {| files := <[file_path :=
                    written_file now (cache_document now key data ttl_hours)]>
                   remaining;
        log := log w |})
  else
    (Raise (CacheError "set" key OSError),
     {| files := remaining;
        log := log w ++ [CacheError "set" key OSError] |}).
Proof.
  intros remaining file_path.
  unfold FileCache_set, handle_errors_reraise, mbind, M_bind, try_except.
  rewrite cleanup_result. fold remaining file_path.
  unfold write_json. cbn [files with_files].
  destruct (from_option f_writable true (remaining !! file_path)); cbn.
  - unfold written_file, cache_document, with_files. cbn.
    destruct ttl_hours as [t|]; [destruct (t =? 0)%Z|]; reflexivity.
  - reflexivity.
Qed.


(** *** Write, then read *)

(** C5, as the code has it. A value made of [None], booleans, integers,
    finite floats, strings, lists, tuples, string-keyed dictionaries and
    objects that [json] cannot encode, written by [FileCache.set] and read
    back by [get] before it expires, comes back with every such object
    replaced by its [str] text ([default=str]) and every tuple turned into
    a list; a value that holds neither comes back equal to the original. *)
Theorem FileCache_set_get self now now' key data ttl_hours w w1 :
  FileCache_set self now key data ttl_hours w = (Ok tt, w1) ->
  (forall t, ttl_hours = Some t -> t <> 0%Z ->
     fromisoformat (isoformat (now + timedelta_hours t))
       = Some (now + timedelta_hours t)%Z /\
     (now' <= now + timedelta_hours t)%Z) ->
  exists w2,
    FileCache_get self now' key w1 = (Ok (json_default_str data), w2) /\
    (json_plain data = true -> json_default_str data = data).
Proof.
  intros Hset Httl.
  rewrite FileCache_set_result in Hset. cbv zeta in Hset.
  set (file_path := _get_cache_file_path key) in *.
  destruct (from_option f_writable true _); [|discriminate].
  injection Hset as <-.
  enough (exists w2, FileCache_get self now' key
            {| files := <[file_path :=
                 written_file now (cache_document now key data ttl_hours)]>
                 (cleanup_files self (files w));
               log := log w |} = (Ok (json_default_str data), w2))
    as [w2 Hw2] by (exists w2; split; [exact Hw2|apply json_default_str_id]).
  destruct ttl_hours as [t|]; [destruct (Z.eqb_spec t 0) as [Ht|Ht]|].
  - subst t. eexists. apply handle_errors_reraise_ok. run. fold file_path.
    rewrite lookup_insert_eq. cbn. rewrite lookup_insert_eq. cbn.
    unfold write_json. cbn. rewrite lookup_insert_eq. cbn.
    rewrite json_default_str_native. cbn. reflexivity.
  - destruct (Httl t eq_refl Ht) as [Hparse Hnow].
    eexists. apply handle_errors_reraise_ok. run. fold file_path.
    rewrite lookup_insert_eq. cbn. rewrite lookup_insert_eq. cbn.
    destruct (Z.eqb_spec t 0) as [|_]; [contradiction|]. cbn.
    assert (Hlive : (now + timedelta_hours t <? now')%Z = false)
      by (apply Z.ltb_ge; exact Hnow).
    destruct (String.eqb _ ""); cbn; rewrite ?Hparse; run; rewrite ?Hlive.
    all: unfold write_json; cbn; rewrite lookup_insert_eq; cbn.
    all: rewrite json_default_str_native; cbn; reflexivity.
  - eexists. apply handle_errors_reraise_ok. run. fold file_path.
    rewrite lookup_insert_eq. cbn. rewrite lookup_insert_eq. cbn.
    unfold write_json. cbn. rewrite lookup_insert_eq. cbn.
    rewrite json_default_str_native. cbn. reflexivity.
Qed.

End sorting.

(** *** Concrete runs *)

(** C5 as stated fails: the record above, written with a 24 hour TTL and
    read back at once, returns with the URL object turned into a string. *)
Lemma FileCache_set_get_not_equal :
  ~ (forall self now now' key data ttl_hours w w1 v w2,
       FileCache_set (rt := Sample.runtime) self now key data ttl_hours w
         = (Ok tt, w1) ->
       (forall t, ttl_hours = Some t -> (now' <= now + timedelta_hours t)%Z) ->
       FileCache_get (rt := Sample.runtime) self now' key w1 = (Ok v, w2) ->
       v = data).
Proof.
  intros Hclaim.
  pose (w1 := snd (FileCache_set (rt := Sample.runtime) sample_cache 100
                     "pokemon_1" bulbasaur (Some 24%Z) Sample.empty_world)).
  pose (w2 := snd (FileCache_get (rt := Sample.runtime) sample_cache 200
                     "pokemon_1" w1)).
  assert (Hset : FileCache_set (rt := Sample.runtime) sample_cache 100
                   "pokemon_1" bulbasaur (Some 24%Z) Sample.empty_world
                 = (Ok tt, w1)) by (vm_compute; reflexivity).
  assert (Hget : FileCache_get (rt := Sample.runtime) sample_cache 200
                   "pokemon_1" w1 = (Ok bulbasaur_read_back, w2))
    by (vm_compute; reflexivity).
  assert (Hlive : forall t, Some 24%Z = Some t ->
                      (200 <= 100 + timedelta_hours t)%Z)
    by (intros t [= <-]; vm_compute; discriminate).
  specialize (Hclaim sample_cache 100%Z 200%Z "pokemon_1" bulbasaur
                (Some 24%Z) Sample.empty_world w1 bulbasaur_read_back w2
                Hset Hlive Hget).
  discriminate Hclaim.
Qed.

Lemma FileCache_set_get_witness :
  exists w1 w2,
    FileCache_set (rt := Sample.runtime) sample_cache 100 "pokemon_1"
      bulbasaur_read_back (Some 24%Z) Sample.empty_world = (Ok tt, w1) /\
    FileCache_get (rt := Sample.runtime) sample_cache 200 "pokemon_1" w1
      = (Ok bulbasaur_read_back, w2).
Proof.
  eexists. 
  assert (Hset : FileCache_set (rt := Sample.runtime) sample_cache 100
            "pokemon_1" bulbasaur_read_back (Some 24%Z) Sample.empty_world
          = (Ok tt,
             snd (FileCache_set (rt := Sample.runtime) sample_cache 100
                    "pokemon_1" bulbasaur_read_back (Some 24%Z)
                    Sample.empty_world)))
    by (vm_compute; reflexivity).
  destruct (FileCache_set_get (rt := Sample.runtime) sample_cache 100 200
              "pokemon_1" bulbasaur_read_back (Some 24%Z) Sample.empty_world
              _ Hset
              ltac:(intros t [= <-] _; split;
                    [vm_compute; reflexivity|vm_compute; discriminate]))
    as (w2 & Hget & _).
  exists w2. split; [exact Hset|exact Hget].
Defined.

Lemma FileCache_get_stat_refused_witness :
  FileCache_get_stat (rt := Sample.runtime) true sample_cache 4000000000
    "pokemon_1" stale_disk =
  (Raise (UnexpectedError "get" OSError),
   {| files := files stale_disk;
      log := log stale_disk ++ [UnexpectedError "get" OSError] |}) /\
  FileCache_get (rt := Sample.runtime) sample_cache 4000000000 "pokemon_1"
    stale_disk =
  (Ok PNone,
   {| files := delete "pokemon_1.json" (files stale_disk);
      log := log stale_disk |}).
Proof.
  destruct (FileCache_get_stat_refused (rt := Sample.runtime) sample_cache
              4000000000 "pokemon_1" stale_disk)
    as (Hrefused & _ & _ & _ & _ & _ & _ & Hexpired).
  split; [exact Hrefused|].
  eapply Hexpired.
  - reflexivity.
  - reflexivity.
  - reflexivity.
  - discriminate.
  - reflexivity.
  - reflexivity.
Defined.


Lemma fifth_write_removes_oldest :
  let four := after_writes [(1, "a"); (2, "b"); (3, "c"); (4, "d")]%Z in
  let five := after_writes [(1, "a"); (2, "b"); (3, "c"); (4, "d"); (5, "e")]%Z in
  (size (files four) = 4%nat /\ files four !! "a.json" <> None) /\
  (size (files five) = 4%nat /\ files five !! "a.json" = None /\
   files five !! "b.json" <> None /\ files five !! "e.json" <> None).
Proof. vm_compute. repeat split; discriminate. Qed.

End DiskFacts.

(** ** Facts about the Cache Manager *)

Module ManagerFacts.
Import Cache Sample.

Section read_path.
Context {rt : Runtime}.

(** [get_pokemon_data]: a miss in memory followed by a hit on disk stores
    the value with [MemoryCache.set(key, data)], hence with the default
    TTL, and returns it. *)
Lemma get_pokemon_data_promotes self now pokemon_id w m1 v v' w' :
  let key := pokemon_key pokemon_id in
  MemoryCache_get now key (memory_cache self) = (PNone, m1) ->
  FileCache_get (file_cache self) now key w = (Ok v, w') ->
  v <> PNone -> validate_data v = Some v' ->
  exists m2 entry,
    MemoryCache_set now key v None m1 = (Ok tt, m2) /\
    get_pokemon_data self now pokemon_id w = (Ok v, with_memory self m2, w') /\
    dict_get key (_cache m2) = Some entry /\
    data entry = v' /\
    expires_at entry =
      Some (now + timedelta_hours (default_ttl_hours (memory_cache self)))%Z.
Proof.
  intros key Hmem Hdisk Hv Hvalid.
  pose proof (MemoryFacts.MemoryCache_set_valid now key v v' None m1 Hvalid)
    as Hset.
  eexists _, _. split; [exact Hset|].
  split; [|split; [|split]].
  - unfold get_pokemon_data. fold key. rewrite Hmem. cbn [is_none negb].
    rewrite Hdisk. destruct v; try contradiction; cbn [is_none negb];
      now rewrite Hset.
  - cbn [_cache with_cache]. apply MemoryFacts.dict_get_set_eq.
  - reflexivity.
  - destruct (MemoryFacts.MemoryCache_get_cases now key (memory_cache self))
      as (v0 & m0 & Hm0 & _ & Httl & _).
    rewrite Hmem in Hm0. injection Hm0 as _ <-. cbn. now rewrite Httl.
Qed.

Lemma get_pokemon_data_absent self now pokemon_id w m1 w' :
  let key := pokemon_key pokemon_id in
  MemoryCache_get now key (memory_cache self) = (PNone, m1) ->
  FileCache_get (file_cache self) now key w = (Ok PNone, w') ->
  get_pokemon_data self now pokemon_id w = (Ok PNone, with_memory self m1, w').
Proof.
  intros key Hmem Hdisk. unfold get_pokemon_data. fold key.
  rewrite Hmem. cbn [is_none negb]. now rewrite Hdisk.
Qed.

(** [memory.get(key) or file.get(key)]: when memory gives nothing truthy the
    answer is whatever the disk gives, and the Memory Tier is left as
    [MemoryCache.get] left it: nothing is stored. *)
Lemma memory_or_file_falls_through self now key w v m1 r w' :
  MemoryCache_get now key (memory_cache self) = (v, m1) ->
  truthy v = false ->
  FileCache_get (file_cache self) now key w = (r, w') ->
  memory_or_file self now key w = (r, with_memory self m1, w').
Proof.
  intros Hmem Hv Hdisk. unfold memory_or_file.
  now rewrite Hmem, Hv, Hdisk.
Qed.

End read_path.

(** *** A concrete run *)

(** C1, on the code. [get_pokemon_data] does what the claim says: after a
    miss in memory, a hit on disk is stored in memory under the default TTL
    and returned, and a miss in both tiers is answered absent.
    [get_species_data] and [get_generation_data] return
    [memory.get(key) or file.get(key)]: they answer a miss in both tiers
    absent too, but on a disk hit they return the value and store nothing
    in memory. With an empty Memory Tier and the record on disk,
    [get_pokemon_data(1)] leaves the record in memory while
    [get_species_data(1)] and [get_generation_data(1)] leave memory empty. *)
Theorem read_path_promotion :
  (forall (rt : Runtime) self now pokemon_id w m1 v v' w',
     MemoryCache_get now (pokemon_key pokemon_id) (memory_cache self)
       = (PNone, m1) ->
     FileCache_get (file_cache self) now (pokemon_key pokemon_id) w
       = (Ok v, w') ->
     (v <> PNone -> validate_data v = Some v' ->
      exists m2 entry,
        MemoryCache_set now (pokemon_key pokemon_id) v None m1 = (Ok tt, m2) /\
        get_pokemon_data self now pokemon_id w
          = (Ok v, with_memory self m2, w') /\
        dict_get (pokemon_key pokemon_id) (_cache m2) = Some entry /\
        data entry = v' /\
        expires_at entry =
          Some (now + timedelta_hours (default_ttl_hours (memory_cache self)))%Z) /\
     (v = PNone ->
      get_pokemon_data self now pokemon_id w
        = (Ok PNone, with_memory self m1, w'))) /\
  (forall (rt : Runtime) self now id w m1 r w',
     (MemoryCache_get now (species_key id) (memory_cache self) = (PNone, m1) ->
      FileCache_get (file_cache self) now (species_key id) w = (r, w') ->
      get_species_data self now id w = (r, with_memory self m1, w')) /\
     (MemoryCache_get now (generation_key id) (memory_cache self) = (PNone, m1) ->
      FileCache_get (file_cache self) now (generation_key id) w = (r, w') ->
      get_generation_data self now id w = (r, with_memory self m1, w'))) /\
  (exists self' w',
     get_pokemon_data (rt := Sample.runtime) manager 200 1 (disk_with "pokemon_1")
       = (Ok species, self', w') /\
     dict_keys (_cache (memory_cache self')) = ["pokemon_1"]) /\
  (exists self' w',
     get_species_data (rt := Sample.runtime) manager 200 1 (disk_with "species_1")
       = (Ok species, self', w') /\
     _cache (memory_cache self') = []) /\
  (exists self' w',
     get_generation_data (rt := Sample.runtime) manager 200 1
       (disk_with "generation_1") = (Ok species, self', w') /\
     _cache (memory_cache self') = []).
Proof.
  split; [|split; [|split; [|split]]].
  - intros rt self now pokemon_id w m1 v v' w' Hmem Hdisk. split.
    + intros Hv Hvalid.
      exact (get_pokemon_data_promotes self now pokemon_id w m1 v v' w'
               Hmem Hdisk Hv Hvalid).
    + intros ->. now apply get_pokemon_data_absent.
  - intros rt self now id w m1 r w'. split; intros Hmem Hdisk.
    + exact (memory_or_file_falls_through self now _ w PNone m1 r w'
               Hmem eq_refl Hdisk).
    + exact (memory_or_file_falls_through self now _ w PNone m1 r w'
               Hmem eq_refl Hdisk).
  - eexists _, _. split; vm_compute; reflexivity.
  - eexists _, _. split; vm_compute; reflexivity.
  - eexists _, _. split; vm_compute; reflexivity.
Qed.

End ManagerFacts.

(** ** More about the Memory Tier *)

Module MemoryMore.
Import Cache CacheRest Sample MemoryFacts.

Section round_trip.
Context {rt : Runtime}.

(** X1. A value stored by [MemoryCache.set] and read by [get] no later than
    its expiry is returned as validated, and the read is recorded on the
    entry: [access_count] becomes 1 and [last_accessed] the time of the
    read. *)
Theorem MemoryCache_set_then_get now now' key data data' ttl_hours self :
  validate_data data = Some data' ->
  (now' <= now + timedelta_hours
                   (ttl_or_default ttl_hours (default_ttl_hours self)))%Z ->
  exists m2,
    MemoryCache_get now' key (snd (MemoryCache_set now key data ttl_hours self))
      = (data', m2) /\
    dict_get key (_cache m2) =
      Some (mark_accessed now' (new_entry now key data' ttl_hours self)).
Proof.
  intros Hv Hlive. rewrite (MemoryCache_set_valid _ _ _ _ _ _ Hv).
  cbn [snd]. unfold MemoryCache_get. cbn [_cache with_cache].
  rewrite dict_get_set_eq.
  assert (is_expired now' (new_entry now key data' ttl_hours self) = false)
    as ->.
  { unfold is_expired, new_entry. cbn. apply Z.ltb_ge. exact Hlive. }
  eexists. split; [reflexivity|]. cbn [_cache with_cache].
  apply dict_get_set_eq.
Qed.

(** X2. Once the time to live has passed, [get] answers absent, drops the
    entry, and leaves every other key as it was; the key stays absent for
    every later read. *)
Theorem MemoryCache_set_then_get_expired now now' now'' key data data'
    ttl_hours self :
  validate_data data = Some data' ->
  (now + timedelta_hours
           (ttl_or_default ttl_hours (default_ttl_hours self)) < now')%Z ->
  let m1 := snd (MemoryCache_set now key data ttl_hours self) in
  exists m2,
    MemoryCache_get now' key m1 = (PNone, m2) /\
    dict_get key (_cache m2) = None /\
    (forall k, k <> key -> dict_get k (_cache m2) = dict_get k (_cache m1)) /\
    MemoryCache_get now'' key m2 = (PNone, m2).
Proof.
  intros Hv Hdead m1. subst m1. rewrite (MemoryCache_set_valid _ _ _ _ _ _ Hv).
  cbn [snd]. unfold MemoryCache_get at 1. cbn [_cache with_cache].
  rewrite dict_get_set_eq.
  assert (is_expired now' (new_entry now key data' ttl_hours self) = true)
    as ->.
  { unfold is_expired, new_entry. cbn. apply Z.ltb_lt. exact Hdead. }
  eexists. split; [reflexivity|]. cbn [_cache with_cache].
  split; [apply dict_get_del_eq|]. split.
  - intros k Hk. now apply dict_get_del_ne.
  - unfold MemoryCache_get. cbn [_cache with_cache].
    now rewrite dict_get_del_eq.
Qed.

End round_trip.

(** X3. [MemoryCache.delete] answers [True] exactly when the key was stored;
    afterwards the key is absent for every read, the other keys are
    untouched, and in a well-formed cache a successful delete shortens the
    cache by exactly one entry. *)
Theorem MemoryCache_delete_spec now key self :
  let '(removed, m1) := MemoryCache_delete key self in
  (removed = true <-> dict_get key (_cache self) <> None) /\
  MemoryCache_get now key m1 = (PNone, m1) /\
  (forall k, k <> key -> dict_get k (_cache m1) = dict_get k (_cache self)) /\
  (removed = false -> m1 = self) /\
  (removed = true -> dict_wf (_cache self) ->
   S (length (_cache m1)) = length (_cache self)).
Proof.
  unfold MemoryCache_delete.
  destruct (dict_get key (_cache self)) as [entry|] eqn:Hg.
  - split; [split; [discriminate|reflexivity]|].
    split.
    { unfold MemoryCache_get. cbn [_cache with_cache].
      now rewrite dict_get_del_eq. }
    split; [intros k Hk; now apply dict_get_del_ne|].
    split; [discriminate|].
    intros _ Hwf. cbn [_cache with_cache].
    apply length_dict_del_present; [exact Hwf|]. now rewrite Hg.
  - split; [split; [discriminate|congruence]|].
    split; [unfold MemoryCache_get; now rewrite Hg|].
    split; [reflexivity|]. split; [reflexivity|discriminate].
Qed.

(** *** Statistics *)

Lemma count_expired_bounds now (c : list (string * CacheEntry)) :
  (0 <= count_expired now c <= Z.of_nat (length c))%Z.
Proof.
  unfold count_expired.
  pose proof (List.filter_length_le (fun kv => is_expired now (snd kv)) c). lia.
Qed.

Lemma count_expired_del now k entry (c : list (string * CacheEntry)) :
  dict_wf c -> dict_get k c = Some entry ->
  count_expired now (dict_del k c) =
  (count_expired now c - (if is_expired now entry then 1 else 0))%Z.
Proof.
  unfold count_expired, dict_wf.
  induction c as [|[k0 e0] c IH]; cbn; [discriminate|].
  intros Hnd Hg. apply List.NoDup_cons_iff in Hnd as [Hk0 Hnd].
  destruct (String.eqb_spec k k0) as [->|Hne].
  - injection Hg as ->.
    rewrite dict_del_absent by (now apply dict_get_None_keys).
    destruct (is_expired now entry); cbn [length]; lia.
  - cbn. specialize (IH Hnd Hg).
    destruct (is_expired now e0); cbn [length]; lia.
Qed.

Lemma count_expired_set now k entry entry' (c : list (string * CacheEntry)) :
  dict_get k c = Some entry ->
  is_expired now entry' = is_expired now entry ->
  count_expired now (dict_set k entry' c) = count_expired now c.
Proof.
  unfold count_expired.
  induction c as [|[k0 e0] c IH]; cbn; [discriminate|].
  intros Hg He. destruct (String.eqb_spec k k0) as [->|Hne].
  - injection Hg as ->. cbn [List.filter snd]. rewrite He.
    destruct (is_expired now entry); reflexivity.
  - cbn [List.filter snd]. specialize (IH Hg He).
    destruct (is_expired now e0); cbn [length]; lia.
Qed.

(** X4. The figures of [MemoryCache.get_stats] add up
    ([total = expired + active], [0 <= expired <= total]), and a [get] never
    changes [active_entries]: the only entry it can make disappear is the
    expired one it was asked for, which then leaves both [total_entries] and
    [expired_entries]. *)
Theorem MemoryCache_get_stats_after_get getsizeof now key self :
  dict_wf (_cache self) ->
  let before := MemoryCache_get_stats getsizeof now self in
  let after :=
    MemoryCache_get_stats getsizeof now (snd (MemoryCache_get now key self)) in
  let purged : Z :=
    match dict_get key (_cache self) with
    | Some entry => if is_expired now entry then 1%Z else 0%Z
    | None => 0%Z
    end in
  total_entries before = (expired_entries before + active_entries before)%Z /\
  (0 <= expired_entries before <= total_entries before)%Z /\
  active_entries after = active_entries before /\
  total_entries after = (total_entries before - purged)%Z /\
  expired_entries after = (expired_entries before - purged)%Z.
Proof.
  intros Hwf before after purged. subst before after purged.
  unfold MemoryCache_get_stats. cbn [total_entries expired_entries active_entries].
  pose proof (count_expired_bounds now (_cache self)) as Hb.
  split; [lia|]. split; [lia|].
  unfold MemoryCache_get.
  destruct (dict_get key (_cache self)) as [entry|] eqn:Hg; cbn [snd].
  - destruct (is_expired now entry) eqn:He; cbn [snd _cache with_cache].
    + rewrite (count_expired_del now key entry _ Hwf Hg), He.
      pose proof (length_dict_del_present key (_cache self) Hwf
                    ltac:(now rewrite Hg)) as Hlen.
      lia.
    + rewrite (count_expired_set now key entry (mark_accessed now entry) _ Hg
                 eq_refl).
      rewrite length_dict_set, Hg. lia.
  - lia.
Qed.

(** *** Reads and the eviction order *)

Section lru.
Context {rt : Runtime}.

(** X5. A read protects an entry from the next eviction: after a hit on
    [key] at [now], while some other entry was last used before [now], the
    [set] that follows, whatever it stores and whether or not it evicts or
    fails validation, leaves [key] in the cache; unless that [set] writes
    [key] itself, the entry is the one the read left. *)
Theorem MemoryCache_get_protects_entry now now2 key entry other oentry
    key2 data2 ttl_hours self :
  dict_wf (_cache self) ->
  dict_get key (_cache self) = Some entry ->
  is_expired now entry = false ->
  other <> key ->
  dict_get other (_cache self) = Some oentry ->
  (lru_stamp oentry < now)%Z ->
  let m1 := snd (MemoryCache_get now key self) in
  let m2 := snd (MemoryCache_set now2 key2 data2 ttl_hours m1) in
  dict_get key (_cache m2) <> None /\
  (key2 <> key -> dict_get key (_cache m2) = Some (mark_accessed now entry)).
Proof.
  intros Hwf Hget Hlive Hne Hother Hold m1 m2.
  assert (Hm1 : _cache m1 =
                dict_set key (mark_accessed now entry) (_cache self)).
  { unfold m1, MemoryCache_get. now rewrite Hget, Hlive. }
  assert (Hwf1 : dict_wf (_cache m1)) by (rewrite Hm1; now apply dict_wf_set).
  assert (Hk1 : dict_get key (_cache m1) = Some (mark_accessed now entry))
    by (rewrite Hm1; apply dict_get_set_eq).
  assert (Ho1 : dict_get other (_cache m1) = Some oentry).
  { rewrite Hm1, dict_get_set_ne by congruence. exact Hother. }
  assert (Hkept : dict_get key (_cache (after_eviction m1)) =
                  Some (mark_accessed now entry)).
  { destruct (after_eviction_cases m1 Hwf1) as [Hfull Hroom].
    destruct (Z_le_dec (max_size m1) (Z.of_nat (length (_cache m1))))
      as [Hle|Hgt].
    - destruct Hfull as (victim & ventry & Hin & Hmin & Hcache & _ & _ & Hrest).
      { split; [exact Hle|]. intros E. rewrite E in Hk1. discriminate. }
      rewrite Hcache. rewrite Hrest; [exact Hk1|].
      intros ->. apply (In_dict_get _ _ _ Hwf1) in Hin.
      rewrite Hk1 in Hin. injection Hin as <-.
      specialize (Hmin other oentry (dict_get_Some_In _ _ _ Ho1)).
      cbn in Hmin. lia.
    - rewrite Hroom; [exact Hk1|]. intros [Hle _]. contradiction. }
  assert (Hm2 : dict_get key (_cache m2) <> None /\
                (key2 <> key ->
                 dict_get key (_cache m2) = Some (mark_accessed now entry))).
  { unfold m2. destruct (validate_data data2) as [data2'|] eqn:Hv.
    - rewrite (MemoryCache_set_valid _ _ _ _ _ _ Hv).
      cbn [snd _cache with_cache].
      destruct (String.eqb_spec key2 key) as [->|Hk2].
      + rewrite dict_get_set_eq. split; [discriminate|contradiction].
      + rewrite dict_get_set_ne by exact Hk2. rewrite Hkept.
        split; [discriminate|reflexivity].
    - rewrite (MemoryCache_set_invalid _ _ _ _ _ Hv). cbn [snd].
      rewrite Hkept. split; [discriminate|reflexivity]. }
  exact Hm2.
Qed.

End lru.

Lemma MemoryCache_get_protects_entry_witness :
  dict_get "A"
    (_cache (snd (MemoryCache_set (rt := Sample.runtime) 4 "C" (PInt 3) None
                    (snd (MemoryCache_get 3 "A" two_entries)))))
  <> None.
Proof.
  assert (Hwf : dict_wf (_cache two_entries))
    by (repeat constructor; cbn; intuition discriminate).
  assert (Hb : "B" <> "A") by discriminate.
  exact (proj1 (MemoryCache_get_protects_entry (rt := Sample.runtime) 3 4 "A"
                  _ "B" _ "C" (PInt 3) None two_entries Hwf eq_refl eq_refl Hb
                  eq_refl eq_refl)).
Defined.

Lemma MemoryCache_set_then_get_witness :
  exists m2,
    MemoryCache_get 50 "pokemon_1"
      (snd (MemoryCache_set (rt := Sample.runtime) 0 "pokemon_1" (PInt 7) None
              (MemoryCache_init 1000 1)))
      = (PInt 7, m2) /\
    dict_get "pokemon_1" (_cache m2) =
      Some (mark_accessed 50
              (new_entry 0 "pokemon_1" (PInt 7) None (MemoryCache_init 1000 1))).
Proof.
  apply (MemoryCache_set_then_get (rt := Sample.runtime) 0 50 "pokemon_1"
           (PInt 7) (PInt 7) None (MemoryCache_init 1000 1)).
  - reflexivity.
  - vm_compute. discriminate.
Defined.

Lemma MemoryCache_set_then_get_expired_witness :
  exists m2,
    MemoryCache_get 4000000000 "pokemon_1"
      (snd (MemoryCache_set (rt := Sample.runtime) 0 "pokemon_1" (PInt 7) None
              (MemoryCache_init 1000 1)))
      = (PNone, m2) /\
    dict_get "pokemon_1" (_cache m2) = None.
Proof.
  destruct (MemoryCache_set_then_get_expired (rt := Sample.runtime)
              0 4000000000 4000000001 "pokemon_1" (PInt 7) (PInt 7) None
              (MemoryCache_init 1000 1) eq_refl eq_refl)
    as (m2 & Hget & Hgone & _).
  exists m2. split; [exact Hget|exact Hgone].
Defined.

Lemma MemoryCache_get_stats_after_get_witness :
  active_entries
    (MemoryCache_get_stats (fun _ => 48%Z) 5
       (snd (MemoryCache_get 5 "A" two_entries))) =
  active_entries (MemoryCache_get_stats (fun _ => 48%Z) 5 two_entries).
Proof.
  assert (Hwf : dict_wf (_cache two_entries))
    by (repeat constructor; cbn; intuition discriminate).
  exact (proj1 (proj2 (proj2
           (MemoryCache_get_stats_after_get (fun _ => 48%Z) 5 "A" two_entries
              Hwf)))).
Defined.

End MemoryMore.

(** ** More about the Disk Tier *)

Module DiskMore.
Import Cache CacheRest Sample DiskFacts.

Section reads.
Context {rt : Runtime}.

(** A read of a live document answers its data and rewrites the file with
    the count raised and the time of the read. *)
Lemma FileCache_get_bookkept self now now' key data ttl_hours count last f w :
  files w !! _get_cache_file_path key = Some f ->
  f_text f = Doc (bookkept_document now key data ttl_hours count last) ->
  f_writable f = true ->
  still_valid now now' ttl_hours ->
  FileCache_get self now' key w =
  (Ok (json_default_str data),
   {| files := <[_get_cache_file_path key :=
                  written_file now'
                    (bookkept_document now key data ttl_hours (count + 1)
                       (PStr (isoformat now')))]> (files w);
      log := log w |}).
Proof.
  intros Hf Ht Hw Hvalid.
  set (file_path := _get_cache_file_path key) in *.
  unfold bookkept_document, written_file in *.
  apply handle_errors_reraise_ok. run. fold file_path.
  rewrite Hf. cbn. rewrite Hf, Ht. cbn.
  destruct ttl_hours as [t|]; [destruct (Z.eqb_spec t 0) as [Ht0|Ht0]|].
  - cbn. unfold write_json. cbn. rewrite Hf. cbn. rewrite Hw. cbn.
    rewrite json_default_str_native. cbn. reflexivity.
  - destruct (Hvalid t eq_refl Ht0) as [Hparse Hnow].
    assert (Hlive : (now + timedelta_hours t <? now')%Z = false)
      by (apply Z.ltb_ge; exact Hnow).
    cbn. destruct (String.eqb _ ""); cbn; rewrite ?Hparse; run; rewrite ?Hlive.
    all: unfold write_json; cbn; rewrite Hf; cbn; rewrite Hw; cbn.
    all: rewrite json_default_str_native; cbn; reflexivity.
  - cbn. unfold write_json. cbn. rewrite Hf. cbn. rewrite Hw. cbn.
    rewrite json_default_str_native. cbn. reflexivity.
Qed.

Lemma last_nonempty_default {A} (l : list A) (x d d' : A) :
  List.last (x :: l) d = List.last (x :: l) d'.
Proof.
  revert x. induction l as [|y l IH]; intros x; [reflexivity|].
  change (List.last (y :: l) d = List.last (y :: l) d'). apply IH.
Qed.

Lemma last_cons_default {A} (l : list A) (x d : A) :
  List.last (x :: l) d = List.last l x.
Proof.
  destruct l as [|y l]; [reflexivity|].
  change (List.last (y :: l) d = List.last (y :: l) x).
  apply last_nonempty_default.
Qed.

Lemma read_each_bookkept self now key data ttl_hours times :
  forall w count last f,
  files w !! _get_cache_file_path key = Some f ->
  f_text f = Doc (bookkept_document now key data ttl_hours count last) ->
  f_writable f = true ->
  Forall (fun t => still_valid now t ttl_hours) times ->
  exists wn f',
    read_each self key times w =
      (List.map (fun _ => Ok (json_default_str data)) times, wn) /\
    files wn !! _get_cache_file_path key = Some f' /\
    f_text f' =
      Doc (bookkept_document now key data ttl_hours
             (count + Z.of_nat (length times))
             (List.last (List.map (fun t => PStr (isoformat t)) times) last)) /\
    f_writable f' = true /\
    log wn = log w /\
    (forall p, p <> _get_cache_file_path key -> files wn !! p = files w !! p).
Proof.
  induction times as [|t times IH]; intros w count last f Hf Ht Hw Hvalid.
  - exists w, f. cbn. rewrite Z.add_0_r. repeat split; assumption.
  - apply Forall_cons in Hvalid as [Hvt Hvalid].
    cbn [read_each].
    rewrite (FileCache_get_bookkept self now t key data ttl_hours count last f w
               Hf Ht Hw Hvt).
    match goal with |- context [read_each _ _ _ ?w1] => set (w' := w1) end.
    assert (Hnew : files w' !! _get_cache_file_path key =
              Some (written_file t
                      (bookkept_document now key data ttl_hours (count + 1)
                         (PStr (isoformat t)))))
      by (subst w'; cbn [files]; apply lookup_insert_eq).
    destruct (IH w' (count + 1)%Z (PStr (isoformat t)) _ Hnew
                 eq_refl eq_refl Hvalid)
      as (wn & f' & Hrun & Hf' & Ht' & Hw' & Hlog & Hrest).
    exists wn, f'. rewrite Hrun. cbn [List.map length].
    split; [reflexivity|]. split; [exact Hf'|]. split.
    { rewrite Ht'. rewrite last_cons_default.
      do 2 f_equal. lia. }
    split; [exact Hw'|]. split; [exact Hlog|].
    intros p Hp. rewrite (Hrest p Hp). subst w'. cbn [files].
    now rewrite lookup_insert_ne by congruence.
Qed.

(** X6. After a successful [FileCache.set], reads made before the expiry
    all answer the stored value, and the file keeps count of them: after
    [n] reads its document still has the key, data, creation and expiry
    written by [set], its [access_count] is [n] and its [last_accessed] is
    the time of the last read. Nothing is logged and no other file
    changes. *)
Theorem FileCache_reads_are_counted self now key data ttl_hours times w w1 :
  FileCache_set self now key data ttl_hours w = (Ok tt, w1) ->
  Forall (fun t => still_valid now t ttl_hours) times ->
  exists wn f,
    read_each self key times w1 =
      (List.map (fun _ => Ok (json_default_str data)) times, wn) /\
    files wn !! _get_cache_file_path key = Some f /\
    f_text f =
      Doc (bookkept_document now key data ttl_hours
             (Z.of_nat (length times))
             (List.last (List.map (fun t => PStr (isoformat t)) times) PNone)) /\
    log wn = log w1 /\
    (forall p, p <> _get_cache_file_path key -> files wn !! p = files w1 !! p).
Proof.
  intros Hset Hvalid.
  rewrite FileCache_set_result in Hset. cbv zeta in Hset.
  destruct (from_option f_writable true _); [|discriminate].
  injection Hset as <-.
  match goal with |- context [read_each _ _ _ ?w0] => set (w' := w0) end.
  assert (Hnew : files w' !! _get_cache_file_path key =
            Some (written_file now
                    (bookkept_document now key data ttl_hours 0 PNone)))
    by (subst w'; cbn [files]; apply lookup_insert_eq).
  destruct (read_each_bookkept self now key data ttl_hours times
               w' 0%Z PNone _ Hnew eq_refl eq_refl Hvalid)
    as (wn & f' & Hrun & Hf' & Ht' & _ & Hlog & Hrest).
  exists wn, f'. repeat split; assumption.
Qed.

(** X7. An entry written by [FileCache.set] without a time to live
    ([ttl_hours] is [None] or [0]) has no expiry on disk and is answered by
    [get] at every later time, however late. *)
Theorem FileCache_no_ttl_never_expires self now now' key data ttl_hours w w1 :
  FileCache_set self now key data ttl_hours w = (Ok tt, w1) ->
  falsy_ttl ttl_hours ->
  exists f w2,
    files w1 !! _get_cache_file_path key = Some f /\
    f_text f = Doc (bookkept_document now key data ttl_hours 0 PNone) /\
    dict_get "expires_at"
      match bookkept_document now key data ttl_hours 0 PNone with
      | PDict d => d | _ => [] end = Some PNone /\
    FileCache_get self now' key w1 = (Ok (json_default_str data), w2).
Proof.
  intros Hset Hfalsy.
  rewrite FileCache_set_result in Hset. cbv zeta in Hset.
  destruct (from_option f_writable true _); [|discriminate].
  injection Hset as <-.
  eexists _, _. split; [cbn [files]; apply lookup_insert_eq|].
  split; [reflexivity|]. split.
  { destruct Hfalsy as [-> | ->]; reflexivity. }
  eapply FileCache_get_bookkept.
  - cbn [files]. apply lookup_insert_eq.
  - reflexivity.
  - reflexivity.
  - intros t Ht Ht0. destruct Hfalsy as [-> | ->]; [discriminate|].
    injection Ht as <-. contradiction.
Qed.

(** X8. An entry written with a time to live and read after it has passed
    is answered absent and its file is deleted, without a log record; the
    key then stays absent for every later read. *)
Theorem FileCache_get_after_expiry self now now' now'' key data t w w1 :
  FileCache_set self now key data (Some t) w = (Ok tt, w1) ->
  t <> 0%Z ->
  isoformat (now + timedelta_hours t) <> ""%string ->
  fromisoformat (isoformat (now + timedelta_hours t))
    = Some (now + timedelta_hours t)%Z ->
  (now + timedelta_hours t < now')%Z ->
  let w2 := {| files := delete (_get_cache_file_path key) (files w1);
               log := log w1 |} in
  FileCache_get self now' key w1 = (Ok PNone, w2) /\
  FileCache_get self now'' key w2 = (Ok PNone, w2).
Proof.
  intros Hset Ht0 Hiso Hparse Hdead w2. subst w2.
  rewrite FileCache_set_result in Hset. cbv zeta in Hset.
  set (file_path := _get_cache_file_path key) in *.
  destruct (from_option f_writable true _); [|discriminate].
  injection Hset as <-. cbn [files log]. split.
  - apply handle_errors_reraise_ok. run. fold file_path.
    rewrite lookup_insert_eq. cbn. rewrite lookup_insert_eq. cbn.
    destruct (Z.eqb_spec t 0) as [|_]; [contradiction|]. cbn.
    destruct (String.eqb_spec (isoformat (now + timedelta_hours t)) "");
      [contradiction|]. cbn.
    rewrite Hparse. run.
    destruct (Z.ltb_spec (now + timedelta_hours t) now'); [|lia].
    cbn [files log with_files]. rewrite lookup_insert_eq. reflexivity.
  - apply handle_errors_reraise_ok. run. fold file_path.
    rewrite lookup_delete_eq. reflexivity.
Qed.

(** X9. [FileCache.delete] answers whether the key had a file, removes
    that file and no other, raises nothing and logs nothing; a [get] of the
    key afterwards answers absent and leaves the directory as it is. *)
Theorem FileCache_delete_then_get self now key w :
  let file_path := _get_cache_file_path key in
  let w' := {| files := delete file_path (files w); log := log w |} in
  FileCache_delete self key w =
    (Ok (bool_decide (is_Some (files w !! file_path))), w') /\
  FileCache_get self now key w' = (Ok PNone, w').
Proof.
  intros file_path w'. split.
  - unfold FileCache_delete. run. fold file_path.
    destruct (files w !! file_path) as [f|] eqn:Hf.
    + cbn. rewrite Hf. cbn. reflexivity.
    + cbn. subst w'. rewrite delete_id by exact Hf. now destruct w.
  - apply handle_errors_reraise_ok. run. fold file_path.
    subst w'. cbn [files]. rewrite lookup_delete_eq. reflexivity.
Qed.

Lemma remove_all_listing (fs : gmap string file) :
  remove_all ((map_to_list fs).*1) fs = ∅.
Proof.
  apply map_eq. intros p. rewrite remove_all_lookup, lookup_empty.
  case_decide as Hin; [reflexivity|].
  destruct (fs !! p) as [f|] eqn:Hf; [|reflexivity].
  exfalso. apply Hin. apply list_elem_of_fmap.
  exists (p, f). split; [reflexivity|]. now apply elem_of_map_to_list.
Qed.

(** X10. [FileCache.clear] removes every file of the directory, raises
    nothing and logs nothing; afterwards every key is answered absent. *)
Theorem FileCache_clear_empties self now key w :
  let w' := {| files := ∅; log := log w |} in
  FileCache_clear self w = (Ok tt, w') /\
  FileCache_get self now key w' = (Ok PNone, w').
Proof.
  intros w'. split.
  - unfold FileCache_clear, try_except, mbind, M_bind, glob.
    rewrite for_each_unlink.
    + unfold with_files. rewrite remove_all_listing. reflexivity.
    + apply NoDup_fst_map_to_list.
    + intros [p f] Hin. apply elem_of_map_to_list in Hin.
      cbn. rewrite Hin. eauto.
  - apply handle_errors_reraise_ok. run. reflexivity.
Qed.

Lemma usage_over_100 (total cap : Z) :
  (0 < cap)%Z ->
  (100 < inject_Z total / inject_Z cap * 100)%Q <-> (cap < total)%Z.
Proof.
  intros Hcap.
  assert (Hc : (0 < inject_Z cap)%Q) by (change (inject_Z 0 < inject_Z cap)%Q; rewrite <- Zlt_Qlt; exact Hcap).
  assert (Hu : (inject_Z total / inject_Z cap * inject_Z cap == inject_Z total)%Q).
  { field. intros H0. rewrite H0 in Hc. now apply Qlt_irrefl in Hc. }
  rewrite (Zlt_Qlt cap total).
  set (u := (inject_Z total / inject_Z cap)%Q) in *.
  set (c := inject_Z cap) in *. set (x := inject_Z total) in *.
  split; intros H; nra.
Qed.

(** X11. [FileCache.get_stats] never raises and changes nothing. With
    [max_size_mb = 0] the division by zero is swallowed and the answer is
    the error dictionary; otherwise it is the four figures, and for a
    positive limit [usage_percentage] exceeds 100 exactly when the next
    [set] would run its clean-up (and when it does not, that clean-up
    deletes nothing). *)
Theorem FileCache_get_stats_spec self w :
  let listing := map_to_list (files w) in
  let cap := (max_size_mb self * 1024 * 1024)%Z in
  let usage := (inject_Z (total_size listing) / inject_Z cap * 100)%Q in
  FileCache_get_stats self w =
    (Ok (if (max_size_mb self =? 0)%Z
         then StatsError "Could not get file cache stats"
         else Stats (Z.of_nat (length listing))
                (inject_Z (total_size listing) / inject_Z (1024 * 1024))%Q
                (max_size_mb self) usage), w) /\
  ((0 < max_size_mb self)%Z ->
     ((100 < usage)%Q <-> (cap < total_size listing)%Z) /\
     (~ (100 < usage)%Q -> cleanup_files self (files w) = files w)).
Proof.
  intros listing cap usage. split.
  - unfold FileCache_get_stats, truediv. run. fold listing.
    destruct (Z.eqb_spec (max_size_mb self) 0) as [H0|H0].
    + rewrite H0. reflexivity.
    + destruct (Z.eqb_spec (max_size_mb self * 1024 * 1024) 0) as [H1|H1];
        [lia|]. reflexivity.
  - intros Hpos.
    assert (Hiff := usage_over_100 (total_size listing) cap ltac:(lia)).
    split; [exact Hiff|].
    intros Hle. unfold cleanup_files. fold listing. fold cap.
    destruct (Z.ltb_spec cap (total_size listing)) as [Hlt|_];
      [|reflexivity].
    exfalso. apply Hle, Hiff, Hlt.
Qed.

End reads.

Lemma FileCache_reads_are_counted_witness :
  exists wn f,
    read_each (rt := Sample.runtime) sample_cache "pokemon_1" [200; 300]%Z
      (disk_with "pokemon_1")
      = ([Ok species; Ok species], wn) /\
    files wn !! "pokemon_1.json" = Some f /\
    f_text f =
      Doc (bookkept_document (rt := Sample.runtime) 100 "pokemon_1" species
             (Some 24%Z) 2 (PStr "300")).
Proof.
  destruct (FileCache_reads_are_counted (rt := Sample.runtime) sample_cache
              100 "pokemon_1" species (Some 24%Z) [200; 300]%Z
              Sample.empty_world (disk_with "pokemon_1"))
    as (wn & f & Hrun & Hf & Ht & _).
  - vm_compute. reflexivity.
  - constructor; [|constructor; [|constructor]]; intros t [= <-] _;
      (split; [vm_compute; reflexivity|vm_compute; discriminate]).
  - exists wn, f. split; [exact Hrun|]. split; [exact Hf|exact Ht].
Defined.

Lemma FileCache_no_ttl_never_expires_witness :
  exists f w2,
    files (snd (FileCache_set (rt := Sample.runtime) sample_cache 100
                  "pokemon_1" species None Sample.empty_world))
      !! "pokemon_1.json" = Some f /\
    FileCache_get (rt := Sample.runtime) sample_cache 999999999999999
      "pokemon_1"
      (snd (FileCache_set (rt := Sample.runtime) sample_cache 100
              "pokemon_1" species None Sample.empty_world))
      = (Ok species, w2).
Proof.
  destruct (FileCache_no_ttl_never_expires (rt := Sample.runtime) sample_cache
              100 999999999999999 "pokemon_1" species None Sample.empty_world
              (snd (FileCache_set (rt := Sample.runtime) sample_cache 100
                      "pokemon_1" species None Sample.empty_world)))
    as (f & w2 & Hf & _ & _ & Hget).
  - vm_compute. reflexivity.
  - left. reflexivity.
  - exists f, w2. split; [exact Hf|exact Hget].
Defined.

Lemma FileCache_get_after_expiry_witness :
  FileCache_get (rt := Sample.runtime) sample_cache 4000000000 "pokemon_1"
    stale_disk =
  (Ok PNone,
   {| files := delete "pokemon_1.json" (files stale_disk);
      log := log stale_disk |}).
Proof.
  refine (proj1 (FileCache_get_after_expiry (rt := Sample.runtime) sample_cache
                   100 4000000000 4000000001 "pokemon_1" bulbasaur 1
                   Sample.empty_world stale_disk _ _ _ _ _)).
  - vm_compute. reflexivity.
  - discriminate.
  - vm_compute. discriminate.
  - vm_compute. reflexivity.
  - reflexivity.
Defined.

End DiskMore.

(** ** Further facts about the cache manager *)

Module ManagerMore.
Import Cache CacheRest Sample MemoryFacts DiskFacts.

Section writes.
Context {rt : Runtime}.

Lemma document_expired_pure now d w : snd (document_expired now d w) = w.
Proof.
  unfold document_expired.
  destruct (dict_get "expires_at" d) as [x|]; [|reflexivity].
  destruct (truthy x); [|reflexivity].
  destruct x; try reflexivity.
  destruct (fromisoformat _); reflexivity.
Qed.

Lemma add_one_pure v w : snd (add_one v w) = w.
Proof. destruct v; reflexivity. Qed.

(** [get] never serves a key whose file cannot be written: what it reads
    it cannot write back, and the failure is answered absent. *)
Lemma FileCache_get_unwritable self now key w f :
  files w !! _get_cache_file_path key = Some f ->
  f_writable f = false ->
  fst (FileCache_get self now key w) = Ok PNone.
Proof.
  intros Hf Hw. unfold FileCache_get, handle_errors_reraise.
  run. rewrite Hf. cbn. rewrite Hf.
  destruct (f_text f) as [| |v]; cbn; try reflexivity.
  destruct v; cbn; try reflexivity.
  pose proof (document_expired_pure now d w) as Hpure.
  destruct (document_expired now d w) as [[[|]|e] w1]; cbn in Hpure; subst w1;
    [cbn; now rewrite Hf| |reflexivity].
  match goal with |- context [add_one ?v w] =>
    pose proof (add_one_pure v w) as Hpure;
    destruct (add_one v w) as [[count|e] w1]
  end; cbn in Hpure; subst w1; [|reflexivity].
  unfold write_json. rewrite Hf. cbn. rewrite Hw. reflexivity.
Qed.

(** X12. After [set_pokemon_data], whatever became of the write to disk,
    [get_pokemon_data] made before the expiry answers the validated value
    from memory and does not touch the disk. The outcome and the directory
    of [set_pokemon_data] itself are those of [FileCache.set]. *)
Theorem set_pokemon_data_then_get self now now' pokemon_id data data'
    ttl_hours w :
  validate_data data = Some data' ->
  is_none data' = false ->
  (now' <= now + timedelta_hours
                   (ttl_or_default (Some ttl_hours)
                      (default_ttl_hours (memory_cache self))))%Z ->
  let '(r, self1, w1) := set_pokemon_data self now pokemon_id data ttl_hours w in
  (r, w1) = FileCache_set (file_cache self) now (pokemon_key pokemon_id) data
              (Some ttl_hours) w /\
  exists self2,
    get_pokemon_data self1 now' pokemon_id w1 = (Ok data', self2, w1) /\
    file_cache self2 = file_cache self.
Proof.
  intros Hv Hnone Hlive. unfold set_pokemon_data, set_both.
  rewrite (MemoryCache_set_valid _ _ _ _ _ _ Hv).
  destruct (FileCache_set _ _ _ _ _ _) as [r w1]. split; [reflexivity|].
  unfold get_pokemon_data. cbn [memory_cache with_memory].
  unfold MemoryCache_get. cbn [_cache with_cache].
  rewrite dict_get_set_eq.
  assert (is_expired now' (new_entry now (pokemon_key pokemon_id) data'
                             (Some ttl_hours) (memory_cache self)) = false)
    as ->.
  { unfold is_expired, new_entry. cbn. apply Z.ltb_ge. exact Hlive. }
  cbn [Cache.data mark_accessed new_entry]. rewrite Hnone. cbn [negb].
  eexists. split; reflexivity.
Qed.

(** X13. The two writes of [set_pokemon_data], [set_species_data] and
    [set_generation_data] are not atomic. When the data fails validation the
    call raises before the disk is touched, though the memory tier may
    already have evicted an entry. When the data is valid the memory tier
    holds the new entry even if the write to disk then raises; what it
    raises is a [CacheError('set', key, ...)], logged once, and a read of
    the key from the disk tier then answers absent. *)
Theorem set_both_failures self now key data ttl_hours w :
  let '(r, self1, w1) := set_both self now key data ttl_hours w in
  file_cache self1 = file_cache self /\
  (validate_data data = None ->
     r = Raise PydanticValidationError /\ w1 = w /\
     memory_cache self1 = after_eviction (memory_cache self)) /\
  (forall data', validate_data data = Some data' ->
     dict_get key (_cache (memory_cache self1)) =
       Some (new_entry now key data' (Some ttl_hours) (memory_cache self)) /\
     (r, w1) = FileCache_set (file_cache self) now key data (Some ttl_hours) w /\
     (forall e, r = Raise e ->
        (exists reason, e = CacheError "set" key reason) /\
        log w1 = log w ++ [e] /\
        forall now', fst (FileCache_get (file_cache self) now' key w1) = Ok PNone)).
Proof.
  unfold set_both.
  destruct (validate_data data) as [data'|] eqn:Hv.
  - rewrite (MemoryCache_set_valid _ _ _ _ _ _ Hv).
    destruct (FileCache_set _ _ _ _ _ _) as [r w1] eqn:Hset.
    split; [reflexivity|]. split; [discriminate|].
    intros ? [= <-]. cbn [memory_cache with_memory _cache with_cache].
    split; [apply dict_get_set_eq|]. split; [reflexivity|].
    intros e ->. rewrite FileCache_set_result in Hset. cbv zeta in Hset.
    set (file_path := _get_cache_file_path key) in *.
    destruct (cleanup_files (file_cache self) (files w) !! file_path)
      as [f|] eqn:Hf; cbn [from_option] in Hset; [|discriminate].
    destruct (f_writable f) eqn:Hw; [discriminate|].
    injection Hset as <- <-. cbn [files log].
    split; [eexists; reflexivity|]. split; [reflexivity|].
    intros now'. now apply (FileCache_get_unwritable _ _ _ _ f).
  - rewrite (MemoryCache_set_invalid _ _ _ _ _ Hv).
    split; [reflexivity|]. split; [|discriminate].
    intros _. repeat split.
Qed.

(** X14. [get_species_data] (and [get_generation_data], which has the
    same body) serves a value written by [set_species_data] from memory only
    when the value is truthy. A falsy value ([0], an empty string, list or
    dictionary) is passed over by the [or]: the disk is read as well, the
    answer is the one of the disk, and the file records the access. *)
Theorem set_species_data_then_get self now now' pokemon_id data data'
    ttl_hours w self1 w1 :
  validate_data data = Some data' ->
  set_species_data self now pokemon_id data ttl_hours w = (Ok tt, self1, w1) ->
  (now' <= now + timedelta_hours
                   (ttl_or_default (Some ttl_hours)
                      (default_ttl_hours (memory_cache self))))%Z ->
  still_valid now now' (Some ttl_hours) ->
  let key := species_key pokemon_id in
  exists self2 w2,
    get_species_data self1 now' pokemon_id w1 =
      (Ok (if truthy data' then data' else json_default_str data), self2, w2) /\
    (truthy data' = true -> w2 = w1) /\
    (truthy data' = false ->
       files w2 !! _get_cache_file_path key =
         Some (written_file now'
                 (bookkept_document now key data (Some ttl_hours) 1
                    (PStr (isoformat now'))))).
Proof.
  intros Hv Hset Hlive Hvalid key.
  unfold set_species_data, set_both in Hset. fold key in Hset.
  rewrite (MemoryCache_set_valid _ _ _ _ _ _ Hv) in Hset.
  destruct (FileCache_set _ _ _ _ _ _) as [r w1'] eqn:Hdisk.
  injection Hset as -> <- ->.
  unfold get_species_data, memory_or_file. fold key.
  cbn [memory_cache with_memory].
  unfold MemoryCache_get. cbn [_cache with_cache].
  rewrite dict_get_set_eq.
  assert (is_expired now' (new_entry now key data' (Some ttl_hours)
                             (memory_cache self)) = false) as ->.
  { unfold is_expired, new_entry. cbn. apply Z.ltb_ge. exact Hlive. }
  cbn [Cache.data mark_accessed new_entry].
  destruct (truthy data') eqn:Ht.
  - eexists _, _. split; [reflexivity|]. split; [reflexivity|discriminate].
  - rewrite FileCache_set_result in Hdisk. cbv zeta in Hdisk.
    destruct (from_option f_writable true _); [|discriminate].
    injection Hdisk as <-. cbn [file_cache with_memory].
    erewrite (DiskMore.FileCache_get_bookkept (file_cache self) now now' key
                data (Some ttl_hours) 0 PNone);
      [|cbn [files]; apply lookup_insert_eq|reflexivity|reflexivity|exact Hvalid].
    eexists _, _. split; [reflexivity|]. split; [discriminate|].
    intros _. cbn [files]. now rewrite lookup_insert_eq.
Qed.

(** X15. A value [get_pokemon_data] promotes from disk is then served from
    memory for [default_ttl_hours] after the promoting read, whatever the
    disk holds by then: the expiry the value was written with plays no part,
    and the disk is not read. *)
Theorem get_pokemon_data_promoted_lifetime self now now' pokemon_id w w'
    m1 v v' :
  let key := pokemon_key pokemon_id in
  MemoryCache_get now key (memory_cache self) = (PNone, m1) ->
  FileCache_get (file_cache self) now key w = (Ok v, w') ->
  v <> PNone -> validate_data v = Some v' -> is_none v' = false ->
  (now' <= now + timedelta_hours (default_ttl_hours (memory_cache self)))%Z ->
  exists self1,
    get_pokemon_data self now pokemon_id w = (Ok v, self1, w') /\
    forall later : world, exists self2,
      get_pokemon_data self1 now' pokemon_id later = (Ok v', self2, later).
Proof.
  intros key Hmem Hdisk Hv Hvalid Hnone Hlive.
  destruct (ManagerFacts.get_pokemon_data_promotes self now pokemon_id w m1
              v v' w' Hmem Hdisk Hv Hvalid)
    as (m2 & entry & Hset & Hget & Hentry & Hdata & Hexp).
  fold key in Hset, Hentry.
  exists (with_memory self m2). split; [exact Hget|].
  intros later. unfold get_pokemon_data. fold key.
  cbn [memory_cache with_memory]. unfold MemoryCache_get. rewrite Hentry.
  assert (is_expired now' entry = false) as ->.
  { unfold is_expired. rewrite Hexp. apply Z.ltb_ge. exact Hlive. }
  rewrite Hdata, Hnone. cbn [negb]. eexists. reflexivity.
Qed.

(** *** [clear_expired] *)

(** One turn of the loop on a file that is there. *)
Lemma clear_expired_file_spec now p f w :
  files w !! p = Some f ->
  clear_expired_file now p w =
  (Ok (swept now f),
   if swept now f then with_files w (delete p (files w)) else w).
Proof.
  intros Hf. unfold clear_expired_file, swept, contains_expires_at,
    get_expires_at.
  run. rewrite Hf.
  destruct (f_text f) as [| |v]; cbn; rewrite ?Hf; try reflexivity.
  destruct v; cbn; rewrite ?Hf; try reflexivity.
  - destruct (occurs_in "expires_at" s); cbn; rewrite ?Hf; reflexivity.
  - destruct (existsb _ l); cbn; rewrite ?Hf; reflexivity.
  - destruct (dict_get "expires_at" d) as [x|]; cbn; [|reflexivity].
    destruct (truthy x) eqn:Hx; cbn; [|reflexivity].
    destruct x; cbn; rewrite ?Hf; try reflexivity.
    destruct (fromisoformat s) as [expires_at|]; cbn; rewrite ?Hf;
      [|reflexivity].
    destruct (expires_at <? now)%Z; cbn; rewrite ?Hf; reflexivity.
  - destruct (existsb _ l); cbn; rewrite ?Hf; reflexivity.
Qed.

Lemma filter_swept_path_delete now p (fs : gmap string file) paths :
  p ∉ paths ->
  List.filter (swept_path now (delete p fs)) paths =
  List.filter (swept_path now fs) paths.
Proof.
  intros Hp. apply List.filter_ext_in. intros q Hq.
  unfold swept_path. rewrite lookup_delete_ne; [reflexivity|].
  intros <-. apply Hp. now apply list_elem_of_In.
Qed.

(** The loop removes the swept files of the listing and counts them. *)
Lemma clear_expired_loop_spec now paths : forall n w,
  NoDup paths ->
  (forall p, p ∈ paths -> is_Some (files w !! p)) ->
  clear_expired_loop now paths n w =
  (Ok tt,
   (n + Z.of_nat (length (List.filter (swept_path now (files w)) paths)))%Z,
   with_files w
     (remove_all (List.filter (swept_path now (files w)) paths) (files w))).
Proof.
  induction paths as [|p paths IH]; intros n w Hnd Hex.
  - cbn. rewrite Z.add_0_r. unfold with_files. now destruct w.
  - apply NoDup_cons in Hnd as [Hp Hnd].
    destruct (Hex p) as [f Hf]; [now left|].
    cbn [clear_expired_loop List.filter].
    rewrite (clear_expired_file_spec now p f w Hf).
    assert (Hsp : swept_path now (files w) p = swept now f)
      by (unfold swept_path; now rewrite Hf).
    rewrite Hsp. destruct (swept now f).
    + rewrite IH; [|exact Hnd|].
      * cbn [files with_files log].
        rewrite filter_swept_path_delete by exact Hp.
        cbn [length]. unfold with_files, remove_all. cbn [fold_left].
        do 2 f_equal. lia.
      * intros q Hq. cbn [files with_files].
        rewrite lookup_delete_ne; [apply Hex; now right|].
        intros <-. contradiction.
    + rewrite IH; [reflexivity|exact Hnd|].
      intros q Hq. apply Hex. now right.
Qed.

Lemma length_filter_swept now (fs : gmap string file)
    (l : list (string * file)) :
  (forall p f, (p, f) ∈ l -> fs !! p = Some f) ->
  length (List.filter (swept_path now fs) (l.*1)) =
  length (List.filter (fun kv => swept now (snd kv)) l).
Proof.
  induction l as [|[p f] l IH]; intros Hl; [reflexivity|].
  cbn [fmap list_fmap List.filter fst snd].
  unfold swept_path at 1. rewrite (Hl p f) by now left.
  specialize (IH (fun q g Hq => Hl q g (list_elem_of_further _ _ _ Hq))).
  destruct (swept now f); cbn [length]; now rewrite IH.
Qed.

(** What [clear_expired] returns and leaves. *)
Lemma clear_expired_result self now w :
  clear_expired self now w =
  ({| memory_cleared := 0;
      files_cleared :=
        Z.of_nat (length (List.filter (fun kv => swept now (snd kv))
                            (map_to_list (files w)))) |},
   with_files w
     (remove_all
        (List.filter (swept_path now (files w)) (map_to_list (files w)).*1)
        (files w))).
Proof.
  unfold clear_expired.
  rewrite clear_expired_loop_spec.
  - rewrite length_filter_swept; [reflexivity|].
    intros p f Hin. now apply elem_of_map_to_list.
  - apply NoDup_fst_map_to_list.
  - intros p Hp. apply list_elem_of_fmap in Hp as ([q f] & -> & Hin).
    apply elem_of_map_to_list in Hin. cbn. rewrite Hin. eauto.
Qed.

Lemma clear_expired_lookup self now w p :
  files (snd (clear_expired self now w)) !! p =
  match files w !! p with
  | Some f => if swept now f then None else Some f
  | None => None
  end.
Proof.
  rewrite clear_expired_result. cbn [snd with_files files].
  rewrite remove_all_lookup.
  destruct (files w !! p) as [f|] eqn:Hf.
  - case_decide as Hin.
    + apply list_elem_of_In, List.filter_In in Hin as [_ Hs].
      unfold swept_path in Hs. rewrite Hf in Hs. now rewrite Hs.
    + destruct (swept now f) eqn:Hs; [|reflexivity].
      exfalso. apply Hin. apply list_elem_of_In, List.filter_In. split.
      * apply list_elem_of_In, list_elem_of_fmap. exists (p, f).
        split; [reflexivity|]. now apply elem_of_map_to_list.
      * unfold swept_path. now rewrite Hf.
  - now case_decide.
Qed.

(** X16. [clear_expired] never raises and logs nothing. It removes exactly
    the files the sweep condemns at [now] (unreadable or unparsable files,
    documents the expiry test fails on, and dictionaries whose [expires_at]
    is past) and leaves every other file as it was, without the
    bookkeeping a [get] would do; [files_cleared] is the number of files
    removed and [memory_cleared] is 0. *)
Theorem clear_expired_spec self now w :
  let '(stats, w') := clear_expired self now w in
  memory_cleared stats = 0%Z /\
  files_cleared stats =
    Z.of_nat (length (List.filter (fun kv => swept now (snd kv))
                        (map_to_list (files w)))) /\
  log w' = log w /\
  forall p,
    files w' !! p =
    match files w !! p with
    | Some f => if swept now f then None else Some f
    | None => None
    end.
Proof.
  pose proof (clear_expired_lookup self now w) as Hlookup.
  rewrite clear_expired_result in *. cbn [snd] in Hlookup.
  cbn [memory_cleared files_cleared with_files log].
  repeat split. exact Hlookup.
Qed.

(** X17. [clear_expired] removes what [FileCache.set] wrote once its time
    to live has passed: after a sweep at such a [now'] the key's file is
    gone, the sweep has counted at least one file, and [FileCache.get]
    answers absent for the key and changes nothing. *)
Theorem clear_expired_after_set self fc now now' key data ttl_hours w w1 :
  FileCache_set fc now key data ttl_hours w = (Ok tt, w1) ->
  expiry_round_trips now ttl_hours ->
  expired_at now now' ttl_hours = true ->
  let '(stats, w2) := clear_expired self now' w1 in
  files w2 !! _get_cache_file_path key = None /\
  (1 <= files_cleared stats)%Z /\
  forall now'', FileCache_get fc now'' key w2 = (Ok PNone, w2).
Proof.
  intros Hset Hrt Hexp.
  rewrite FileCache_set_result in Hset. cbv zeta in Hset.
  destruct (from_option f_writable true _); [|discriminate].
  injection Hset as <-.
  set (file_path := _get_cache_file_path key).
  set (doc := written_file now (cache_document now key data ttl_hours)).
  match goal with |- context [clear_expired _ _ ?w0] => set (w1 := w0) end.
  assert (Hfile : files w1 !! file_path = Some doc)
    by (unfold w1; cbn [files]; apply lookup_insert_eq).
  assert (Hswept : swept now' doc = true).
  { unfold swept, doc, written_file, cache_document, expired_at in *. cbn.
    destruct ttl_hours as [t|]; [|discriminate].
    destruct (Z.eqb_spec t 0) as [->|Ht]; [discriminate|]. cbn in Hexp |- *.
    destruct (Hrt t eq_refl Ht) as [Hparse Hne].
    destruct (String.eqb_spec (isoformat (now + timedelta_hours t)) "");
      [contradiction|]. cbn.
    now rewrite Hparse. }
  pose proof (clear_expired_lookup self now' w1 file_path) as Hlookup.
  rewrite Hfile, Hswept in Hlookup.
  rewrite clear_expired_result in *. cbn [snd] in Hlookup.
  cbn [files_cleared].
  match type of Hlookup with files ?w0 !! _ = _ => set (w2 := w0) in * end.
  clearbody w2.
  split; [exact Hlookup|]. split.
  - assert (Hin : In (file_path, doc)
                    (List.filter (fun kv => swept now' (snd kv))
                       (map_to_list (files w1)))).
    { apply List.filter_In. split; [|exact Hswept].
      apply list_elem_of_In. now apply elem_of_map_to_list. }
    match type of Hin with In _ ?swept_files =>
      destruct swept_files as [|x rest]
    end; [destruct Hin|].
    cbn [length]. lia.
  - intros now''. apply handle_errors_reraise_ok. run.
    fold file_path. now rewrite Hlookup.
Qed.

End writes.

Lemma set_pokemon_data_then_get_witness :
  let '(r, self1, w1) :=
    set_pokemon_data (rt := Sample.runtime) manager 100 1 species 24
      Sample.empty_world in
  (r, w1) = FileCache_set (rt := Sample.runtime) (file_cache manager) 100
              (pokemon_key 1) species (Some 24%Z) Sample.empty_world /\
  exists self2,
    get_pokemon_data (rt := Sample.runtime) self1 200 1 w1
      = (Ok species, self2, w1) /\
    file_cache self2 = file_cache manager.
Proof.
  apply (set_pokemon_data_then_get (rt := Sample.runtime) manager 100 200 1
           species species 24 Sample.empty_world).
  - reflexivity.
  - reflexivity.
  - vm_compute. discriminate.
Defined.

Lemma set_species_data_then_get_witness :
  exists self1 w1 self2 w2,
    set_species_data (rt := Sample.runtime) manager 100 1 (PInt 0) 24
      Sample.empty_world = (Ok tt, self1, w1) /\
    get_species_data (rt := Sample.runtime) self1 200 1 w1
      = (Ok (PInt 0), self2, w2) /\
    files w2 !! "species_1.json" =
      Some (written_file (rt := Sample.runtime) 200
              (bookkept_document (rt := Sample.runtime) 100 "species_1"
                 (PInt 0) (Some 24%Z) 1 (PStr "200"))).
Proof.
  eexists _, _.
  assert (Hset : set_species_data (rt := Sample.runtime) manager 100 1
                   (PInt 0) 24 Sample.empty_world
                 = (Ok tt,
                    snd (fst (set_species_data (rt := Sample.runtime) manager
                                100 1 (PInt 0) 24 Sample.empty_world)),
                    snd (set_species_data (rt := Sample.runtime) manager
                           100 1 (PInt 0) 24 Sample.empty_world)))
    by (vm_compute; reflexivity).
  destruct (set_species_data_then_get (rt := Sample.runtime) manager 100 200 1
              (PInt 0) (PInt 0) 24 Sample.empty_world _ _ eq_refl Hset)
    as (self2 & w2 & Hget & _ & Hfile).
  - vm_compute. discriminate.
  - intros t [= <-] _.
    split; [vm_compute; reflexivity|vm_compute; discriminate].
  - exists self2, w2. split; [exact Hset|]. split; [exact Hget|].
    exact (Hfile eq_refl).
Defined.

Lemma get_pokemon_data_promoted_lifetime_witness :
  exists self1 w' self2,
    get_pokemon_data (rt := Sample.runtime) manager 200 1 stale_disk
      = (Ok bulbasaur_read_back, self1, w') /\
    get_pokemon_data (rt := Sample.runtime) self1 3600000200 1 w'
      = (Ok bulbasaur_read_back, self2, w').
Proof.
  assert (Hdisk : FileCache_get (rt := Sample.runtime) (file_cache manager)
                    200 (pokemon_key 1) stale_disk
                  = (Ok bulbasaur_read_back,
                     snd (FileCache_get (rt := Sample.runtime)
                            (file_cache manager) 200 (pokemon_key 1)
                            stale_disk)))
    by (vm_compute; reflexivity).
  assert (Hv : bulbasaur_read_back <> PNone) by discriminate.
  assert (Hlive : (3600000200 <= 200 + timedelta_hours
                     (default_ttl_hours (memory_cache manager)))%Z)
    by (vm_compute; discriminate).
  destruct (get_pokemon_data_promoted_lifetime (rt := Sample.runtime) manager
              200 3600000200 1 stale_disk _ (memory_cache manager)
              bulbasaur_read_back bulbasaur_read_back
              eq_refl Hdisk Hv eq_refl eq_refl Hlive)
    as (self1 & Hget & Hlater).
  destruct (Hlater (snd (FileCache_get (rt := Sample.runtime)
                           (file_cache manager) 200 (pokemon_key 1)
                           stale_disk))) as (self2 & Hget2).
  eexists _, _, _. split; [exact Hget|exact Hget2].
Defined.

Lemma clear_expired_after_set_witness :
  let '(stats, w2) :=
    clear_expired (rt := Sample.runtime) manager 4000000000 stale_disk in
  files w2 !! "pokemon_1.json" = None /\
  (1 <= files_cleared stats)%Z /\
  forall now'',
    FileCache_get (rt := Sample.runtime) sample_cache now'' "pokemon_1" w2
      = (Ok PNone, w2).
Proof.
  assert (Hset : FileCache_set (rt := Sample.runtime) sample_cache 100
                   "pokemon_1" bulbasaur (Some 1%Z) Sample.empty_world
                 = (Ok tt, stale_disk)) by (vm_compute; reflexivity).
  assert (Hrt : expiry_round_trips (rt := Sample.runtime) 100 (Some 1%Z)).
  { intros t [= <-] _.
    split; [vm_compute; reflexivity|vm_compute; discriminate]. }
  exact (clear_expired_after_set (rt := Sample.runtime) manager sample_cache
           100 4000000000 "pokemon_1" bulbasaur (Some 1%Z)
           Sample.empty_world stale_disk Hset Hrt eq_refl).
Defined.

End ManagerMore.

(** ** Further facts about the page layout engine *)

Module LayoutMore.
Import PageLayout PageLayoutRest PageLayoutFacts.
Local Open Scope Q_scope.

Lemma layout_grid_formula self total_cards layout :
  calculate_optimal_layout self total_cards = Ok layout ->
  ~ degenerate self ->
  cols layout =
    Z.max 1 (Qfloor ((a4_width_mm self - 2 * margin_mm self
                      + card_spacing_mm self) /
                     (card_width_mm self + card_spacing_mm self))) /\
  rows layout =
    Z.max 1 (Qfloor ((a4_height_mm self - 2 * margin_mm self
                      + card_spacing_mm self) /
                     (card_height_mm self + card_spacing_mm self))).
Proof.
  intros Hl Hnd. unfold calculate_optimal_layout in Hl. cbv zeta in Hl.
  rewrite cards_per_row_ok in Hl by (intros E; apply Hnd; now left).
  rewrite cards_per_column_ok in Hl by (intros E; apply Hnd; now right).
  injection Hl as <-. cbn. split; reflexivity.
Qed.

(** [calculate_optimal_layout] raises exactly on a degenerate card, and
    then it is a [ZeroDivisionError], whatever the page, the margin and the
    number of cards. *)
Lemma calculate_optimal_layout_raises self total_cards :
  (degenerate self ->
   calculate_optimal_layout self total_cards = Raise ZeroDivisionError) /\
  (~ degenerate self ->
   exists layout, calculate_optimal_layout self total_cards = Ok layout).
Proof.
  unfold degenerate, calculate_optimal_layout, _calculate_cards_per_row,
    _calculate_cards_per_column, floordiv. cbv zeta.
  destruct (Qeq_bool (card_width_mm self + card_spacing_mm self) 0) eqn:Ew.
  { apply Qeq_bool_iff in Ew.
    split; [reflexivity|]. intros H. exfalso. apply H. now left. }
  apply Qeq_bool_neq in Ew.
  destruct (Qeq_bool (card_height_mm self + card_spacing_mm self) 0) eqn:Eh.
  { apply Qeq_bool_iff in Eh.
    split; [reflexivity|]. intros H. exfalso. apply H. now right. }
  apply Qeq_bool_neq in Eh.
  split; [intros [E|E]; contradiction|]. intros _. eexists. reflexivity.
Qed.

(** X19. [validate_layout] accepts exactly a positive number of cards on a
    card that is not degenerate. It does not look at whether a card fits
    the page: every page size and margin validates. *)
Theorem validate_layout_iff self total_cards :
  validate_layout self total_cards = true <->
  (1 <= total_cards)%Z /\ ~ degenerate self.
Proof.
  unfold validate_layout.
  destruct (calculate_optimal_layout_raises self total_cards) as [Hr Hok].
  destruct (calculate_optimal_layout self total_cards) as [layout|e] eqn:Hl.
  - destruct (layout_grid_positive _ _ _ Hl) as (Hrow & Hcol & Hcpp & Htp).
    assert (Hnd : ~ degenerate self).
    { intros Hd. specialize (Hr Hd). discriminate. }
    assert (Hc : (1 <= cards_per_page layout)%Z) by nia.
    rewrite andb_true_iff, !Z.ltb_lt. rewrite Htp.
    split.
    + intros [_ Hpages]. split; [|exact Hnd].
      destruct (Z_lt_le_dec total_cards 1) as [Hlt|]; [|assumption].
      exfalso.
      assert ((total_cards + cards_per_page layout - 1)
                / cards_per_page layout <= 0)%Z; [|lia].
      apply Z.lt_succ_r. apply Z.div_lt_upper_bound; lia.
    + intros [Hn _]. split; [lia|].
      apply Z.div_str_pos. lia.
  - split; [discriminate|]. intros [_ Hnd].
    destruct (Hok Hnd) as [layout Hl']. discriminate.
Qed.

(** The count along an axis does not grow when the room shrinks and the
    pitch grows. *)
Lemma grid_count_le (N1 D1 N2 D2 : Q) :
  0 < D1 -> 0 < D2 -> N2 <= N1 -> D1 <= D2 ->
  (Z.max 1 (Qfloor (N2 / D2)) <= Z.max 1 (Qfloor (N1 / D1)))%Z.
Proof.
  intros HD1 HD2 HN HD.
  destruct (Qlt_le_dec N2 0) as [Hneg|Hpos].
  - assert (N2 / D2 < 0).
    { apply Qlt_shift_div_r; [exact HD2|lra]. }
    pose proof (Qfloor_le (N2 / D2)) as Hfl.
    assert (inject_Z (Qfloor (N2 / D2)) < inject_Z 0) as Hlt
      by (change (inject_Z 0) with 0; lra).
    rewrite <- Zlt_Qlt in Hlt. lia.
  - assert (N2 / D2 <= N1 / D1).
    { apply Qle_shift_div_r; [exact HD2|].
      assert (N1 / D1 * D1 == N1) as Hq by (field; lra).
      assert (0 <= N1 / D1).
      { apply Qle_shift_div_l; [exact HD1|lra]. }
      nra. }
    pose proof (Qfloor_resp_le _ _ H). lia.
Qed.

Lemma total_pages_antitone (n c1 c2 : Z) :
  (0 <= n)%Z -> (1 <= c1 <= c2)%Z ->
  ((n + c2 - 1) / c2 <= (n + c1 - 1) / c1)%Z.
Proof.
  intros Hn Hc.
  assert (0 <= (n + c1 - 1) / c1)%Z as Hq by (apply Z.div_pos; lia).
  pose proof (Z.mul_div_le (n + c1 - 1) c1 ltac:(lia)).
  pose proof (Z.mod_pos_bound (n + c1 - 1) c1 ltac:(lia)).
  pose proof (Z.div_mod (n + c1 - 1) c1 ltac:(lia)).
  apply Z.lt_succ_r. apply Z.div_lt_upper_bound; [lia|]. nia.
Qed.

(** Reading the attributes of a changed manager. *)
Ltac fields :=
  cbn [a4_width_mm a4_height_mm card_width_mm card_height_mm margin_mm
       card_spacing_mm with_page with_margin with_spacing].

Ltac fields_in H :=
  cbn [a4_width_mm a4_height_mm card_width_mm card_height_mm margin_mm
       card_spacing_mm with_page with_margin with_spacing] in H.

Lemma calculate_cutting_layout_cases self total_cards :
  let enlarged := with_spacing (with_margin self (margin_mm self + 5))
                    (card_spacing_mm self + 3) in
  calculate_cutting_layout self total_cards =
  match calculate_optimal_layout enlarged total_cards with
  | Raise e => (Raise e, enlarged)
  | Ok layout =>
      (Ok {| cutting_layout := layout; has_cutting_guides := true |}, self)
  end.
Proof.
  unfold calculate_cutting_layout. cbv zeta.
  cbn [card_spacing_mm margin_mm with_margin with_spacing].
  destruct (calculate_optimal_layout _ _); [|reflexivity].
  now destruct self.
Qed.

Lemma calculate_optimal_layout_raise_kind self total_cards e :
  calculate_optimal_layout self total_cards = Raise e ->
  e = ZeroDivisionError /\ degenerate self.
Proof.
  intros Hl.
  destruct (calculate_optimal_layout_raises self total_cards) as [Hr Hok].
  unfold degenerate in *.
  destruct (Qeq_bool (card_width_mm self + card_spacing_mm self) 0) eqn:Ew.
  { apply Qeq_bool_iff in Ew. rewrite Hr in Hl by now left.
    injection Hl as <-. split; [reflexivity|now left]. }
  destruct (Qeq_bool (card_height_mm self + card_spacing_mm self) 0) eqn:Eh.
  { apply Qeq_bool_iff in Eh. rewrite Hr in Hl by now right.
    injection Hl as <-. split; [reflexivity|now right]. }
  apply Qeq_bool_neq in Ew, Eh.
  destruct Hok as [layout Hok]; [intros [E|E]; contradiction|]. congruence.
Qed.

(** X21. With positive dimensions [calculate_cutting_layout] returns the
    layout [calculate_optimal_layout] computes for the manager with 5 mm
    added to its margin and 3 mm added to its spacing, flagged
    [has_cutting_guides], and leaves the manager as it found it. The
    cutting layout never has more columns, rows or cards per page than the
    optimal one, and never fewer pages. *)
Theorem calculate_cutting_layout_spec self total_cards :
  positive_dimensions self ->
  (0 <= total_cards)%Z ->
  exists cutting optimal,
    calculate_cutting_layout self total_cards =
      (Ok {| cutting_layout := cutting; has_cutting_guides := true |}, self) /\
    calculate_optimal_layout
      (with_spacing (with_margin self (margin_mm self + 5))
         (card_spacing_mm self + 3)) total_cards = Ok cutting /\
    calculate_optimal_layout self total_cards = Ok optimal /\
    (cols cutting <= cols optimal)%Z /\
    (rows cutting <= rows optimal)%Z /\
    (cards_per_page cutting <= cards_per_page optimal)%Z /\
    (total_pages optimal <= total_pages cutting)%Z.
Proof.
  intros Hpos Hn.
  set (self2 := with_spacing (with_margin self (margin_mm self + 5))
                  (card_spacing_mm self + 3)).
  assert (Hpos2 : positive_dimensions self2).
  { destruct Hpos as (H1 & H2 & H3 & H4 & H5 & H6).
    unfold positive_dimensions, self2. cbn. repeat split; lra. }
  destruct (positive_dimensions_divisors self Hpos) as [Hw Hh].
  destruct (positive_dimensions_divisors self2 Hpos2) as [Hw2 Hh2].
  assert (Hnd : ~ degenerate self) by (intros [E|E]; contradiction).
  assert (Hnd2 : ~ degenerate self2) by (intros [E|E]; contradiction).
  destruct (proj2 (calculate_optimal_layout_raises self total_cards) Hnd)
    as [optimal Hopt].
  destruct (proj2 (calculate_optimal_layout_raises self2 total_cards) Hnd2)
    as [cutting Hcut].
  exists cutting, optimal.
  split.
  { rewrite calculate_cutting_layout_cases. cbv zeta. fold self2.
    now rewrite Hcut. }
  split; [exact Hcut|].
  split; [exact Hopt|].
  destruct (layout_grid_formula _ _ _ Hopt Hnd) as [Hc1 Hr1].
  destruct (layout_grid_formula _ _ _ Hcut Hnd2) as [Hc2 Hr2].
  destruct (layout_grid_positive _ _ _ Hopt) as (Hr1p & Hc1p & Hcpp1 & Htp1).
  destruct (layout_grid_positive _ _ _ Hcut) as (Hr2p & Hc2p & Hcpp2 & Htp2).
  destruct Hpos as (H1 & H2 & H3 & H4 & H5 & H6).
  assert (Hcols : (cols cutting <= cols optimal)%Z).
  { rewrite Hc1, Hc2. unfold self2. fields.
    apply grid_count_le; lra. }
  assert (Hrows : (rows cutting <= rows optimal)%Z).
  { rewrite Hr1, Hr2. unfold self2. fields.
    apply grid_count_le; lra. }
  assert (Hcpp : (cards_per_page cutting <= cards_per_page optimal)%Z)
    by (rewrite Hcpp1, Hcpp2; nia).
  split; [exact Hcols|]. split; [exact Hrows|]. split; [exact Hcpp|].
  rewrite Htp1, Htp2. apply total_pages_antitone; [exact Hn|]. nia.
Qed.

(** X22. Of the three methods that change the manager for one calculation,
    [suggest_alternative_layouts] always leaves it as it found it, also
    when it raises (it can only raise at its first calculation, before any
    change). [optimize_for_paper_size] and [calculate_cutting_layout]
    restore the manager exactly when they return: a [ZeroDivisionError]
    leaves it with the Letter page, respectively with the enlarged margin
    and spacing. *)
Theorem layout_variants_restore self total_cards paper_size :
  snd (suggest_alternative_layouts self total_cards) = self /\
  match optimize_for_paper_size self total_cards paper_size with
  | (Ok _, self') => self' = self
  | (Raise e, self') =>
      e = ZeroDivisionError /\
      self' = if String.eqb paper_size "Letter"
              then with_page self (2159 # 10) (2794 # 10) else self
  end /\
  match calculate_cutting_layout self total_cards with
  | (Ok _, self') => self' = self
  | (Raise e, self') =>
      e = ZeroDivisionError /\
      margin_mm self' = margin_mm self + 5 /\
      card_spacing_mm self' = card_spacing_mm self + 3
  end.
Proof.
  split; [|split].
  - unfold suggest_alternative_layouts.
    destruct (calculate_optimal_layout_raises self total_cards) as [Hr Hok].
    destruct (calculate_optimal_layout self total_cards) as [current|e] eqn:Hl;
      [|reflexivity].
    assert (Hnd : ~ degenerate self).
    { intros Hd. specialize (Hr Hd). discriminate. }
    cbv zeta.
    destruct (proj2 (calculate_optimal_layout_raises
                (with_page self (a4_height_mm self) (a4_width_mm self))
                total_cards) Hnd) as [landscape ->].
    match goal with |- context [calculate_optimal_layout ?m total_cards] =>
      destruct (proj2 (calculate_optimal_layout_raises m total_cards) Hnd)
        as [compact ->]
    end.
    cbn. now destruct self.
  - unfold optimize_for_paper_size.
    destruct (String.eqb paper_size "Letter").
    + cbv zeta.
      destruct (calculate_optimal_layout _ _) as [layout|e] eqn:Hl.
      * now destruct self.
      * split; [|reflexivity].
        now apply calculate_optimal_layout_raise_kind in Hl.
    + destruct (calculate_optimal_layout self total_cards) as [layout|e] eqn:Hl;
        [reflexivity|].
      split; [|reflexivity].
      now apply calculate_optimal_layout_raise_kind in Hl.
  - rewrite calculate_cutting_layout_cases. cbv zeta.
    destruct (calculate_optimal_layout _ _) as [layout|e] eqn:Hl;
      [reflexivity|].
    split; [|split; reflexivity].
    now apply calculate_optimal_layout_raise_kind in Hl.
Qed.

(** X23. On a card that is not degenerate [suggest_alternative_layouts]
    returns three entries, in this order: the optimal layout, the layout of
    the page turned by a quarter, and the layout with the margin set to
    5 mm. With positive card sizes the entry named Compact has at least as
    many cards per page as the optimal one only when the configured margin
    is 5 mm or more; with a smaller margin it has at most as many. *)
Theorem suggest_alternative_layouts_spec self total_cards :
  0 < card_width_mm self -> 0 < card_height_mm self ->
  0 <= card_spacing_mm self ->
  exists optimal landscape compact,
    calculate_optimal_layout self total_cards = Ok optimal /\
    calculate_optimal_layout
      (with_page self (a4_height_mm self) (a4_width_mm self)) total_cards
      = Ok landscape /\
    calculate_optimal_layout (with_margin self 5) total_cards = Ok compact /\
    fst (suggest_alternative_layouts self total_cards) =
      Ok [ {| alt_name := "Optimal (Portrait)";
              alt_layout := optimal;
              alt_description := "Best fit for A4 portrait" |};
           {| alt_name := "Landscape";
              alt_layout := landscape;
              alt_description := "A4 landscape orientation" |};
           {| alt_name := "Compact";
              alt_layout := compact;
              alt_description := "Smaller margins, more cards per page" |} ] /\
    (5 <= margin_mm self ->
       (cards_per_page optimal <= cards_per_page compact)%Z) /\
    (margin_mm self <= 5 ->
       (cards_per_page compact <= cards_per_page optimal)%Z).
Proof.
  intros Hcw Hch Hsp.
  assert (Hnd : ~ degenerate self) by (intros [E|E]; lra).
  set (turned := with_page self (a4_height_mm self) (a4_width_mm self)).
  set (narrow := with_margin self 5).
  destruct (proj2 (calculate_optimal_layout_raises self total_cards) Hnd)
    as [optimal Hopt].
  destruct (proj2 (calculate_optimal_layout_raises turned total_cards) Hnd)
    as [landscape Hland].
  destruct (proj2 (calculate_optimal_layout_raises narrow total_cards) Hnd)
    as [compact Hcomp].
  exists optimal, landscape, compact.
  split; [exact Hopt|]. split; [exact Hland|]. split; [exact Hcomp|].
  split.
  { unfold suggest_alternative_layouts. rewrite Hopt. cbv zeta.
    fold turned. rewrite Hland.
    replace (with_margin (with_page turned (a4_width_mm self)
                            (a4_height_mm self)) 5)
      with narrow by (unfold narrow, turned; now destruct self).
    now rewrite Hcomp. }
  destruct (layout_grid_formula _ _ _ Hopt Hnd) as [Hc1 Hr1].
  destruct (layout_grid_formula _ _ _ Hcomp Hnd) as [Hc2 Hr2].
  destruct (layout_grid_positive _ _ _ Hopt) as (Hr1p & Hc1p & Hcpp1 & _).
  destruct (layout_grid_positive _ _ _ Hcomp) as (Hr2p & Hc2p & Hcpp2 & _).
  unfold narrow in Hc2, Hr2. fields_in Hc2. fields_in Hr2.
  rewrite Hcpp1, Hcpp2. split; intros Hm.
  - assert (cols optimal <= cols compact)%Z
      by (rewrite Hc1, Hc2; apply grid_count_le; lra).
    assert (rows optimal <= rows compact)%Z
      by (rewrite Hr1, Hr2; apply grid_count_le; lra).
    nia.
  - assert (cols compact <= cols optimal)%Z
      by (rewrite Hc1, Hc2; apply grid_count_le; lra).
    assert (rows compact <= rows optimal)%Z
      by (rewrite Hr1, Hr2; apply grid_count_le; lra).
    nia.
Qed.

Lemma Qfloor_half (pages : Z) :
  Qfloor (inject_Z pages * (1 # 2)) = (pages / 2)%Z.
Proof. unfold Qfloor, Qmult, inject_Z. cbn. f_equal. lia. Qed.

Lemma Qfloor_half_hours (pages : Z) :
  Qfloor (inject_Z pages * (1 # 2) / 60) = (pages / 120)%Z.
Proof. unfold Qfloor, Qdiv, Qmult, Qinv, inject_Z. cbn. f_equal. lia. Qed.

Lemma py_int_nonneg (x : Q) : 0 <= x -> py_int x = Qfloor x.
Proof.
  intros Hx. unfold py_int. destruct (Qlt_le_dec x 0); [lra|reflexivity].
Qed.

(** X24. [_estimate_print_time] in whole numbers, for a page count of at
    most [2^53]: below two pages it answers [< 1 minute]; below 120 pages
    the minutes are half the pages, rounded down; from 120 pages on it
    answers hours and minutes, the hours being [pages // 120] and the
    minutes what is left of [pages // 2], below 60. *)
Theorem _estimate_print_time_spec pages :
  (Z.abs pages <= 2 ^ 53)%Z ->
  _estimate_print_time pages =
    Some (if (pages <? 2)%Z then "< 1 minute"
          else if (pages <? 120)%Z then pretty (pages / 2)%Z +:+ " minutes"
          else pretty (pages / 120)%Z +:+ "h "
               +:+ pretty ((pages / 2) mod 60)%Z +:+ "m")%string /\
  (0 <= (pages / 2) mod 60 < 60)%Z /\
  (pages / 120 * 60 + (pages / 2) mod 60 = pages / 2)%Z.
Proof.
  intros Hrange. split; [|split].
  2: { apply Z.mod_pos_bound. lia. }
  2: { pose proof (Z.div_mod (pages / 2) 60 ltac:(lia)) as Hdm.
       rewrite Z.div_div in Hdm by lia. change (2 * 60)%Z with 120%Z in Hdm. lia. }
  unfold _estimate_print_time.
  destruct (Z.leb_spec (Z.abs pages) (2 ^ 53)) as [_|Hbig]; [|lia].
  cbv zeta.
  assert (Hhalf : inject_Z pages * (1 # 2) == inject_Z pages / 2) by field.
  destruct (Qlt_le_dec (inject_Z pages * (1 # 2)) 1) as [H1|H1].
  - assert (inject_Z pages < inject_Z 2) as Hp
      by (change (inject_Z 2) with 2; lra).
    rewrite <- Zlt_Qlt in Hp. destruct (Z.ltb_spec pages 2); [reflexivity|lia].
  - assert (inject_Z 2 <= inject_Z pages) as Hp
      by (change (inject_Z 2) with 2; lra).
    rewrite <- Zle_Qle in Hp. destruct (Z.ltb_spec pages 2); [lia|].
    destruct (Qlt_le_dec (inject_Z pages * (1 # 2)) 60) as [H60|H60].
    + assert (inject_Z pages < inject_Z 120) as Hp'
        by (change (inject_Z 120) with 120; lra).
      rewrite <- Zlt_Qlt in Hp'.
      destruct (Z.ltb_spec pages 120); [|lia].
      rewrite py_int_nonneg by lra. now rewrite Qfloor_half.
    + assert (inject_Z 120 <= inject_Z pages) as Hp'
        by (change (inject_Z 120) with 120; lra).
      rewrite <- Zle_Qle in Hp'.
      destruct (Z.ltb_spec pages 120); [lia|].
      rewrite Qfloor_half_hours.
      assert (Hh : (1 <= pages / 120)%Z)
        by (apply Z.div_le_lower_bound; lia).
      rewrite py_int_nonneg
        by (change 0 with (inject_Z 0); rewrite <- Zle_Qle; lia).
      rewrite Qfloor_Z.
      assert (Hm : inject_Z pages * (1 # 2) - 60 * inject_Z (pages / 120)
                   == inject_Z (pages + (- (pages / 120)) * 120) * (1 # 2)).
      { rewrite inject_Z_plus, inject_Z_mult, inject_Z_opp.
        change (inject_Z 120) with 120. ring. }
      assert (Hmod : ((pages + (- (pages / 120)) * 120) / 2
                      = (pages / 2) mod 60)%Z).
      { rewrite Z.mod_eq by lia. rewrite Z.div_div by lia.
        replace ((- (pages / 120)) * 120)%Z
          with ((- (pages / 120) * 60) * 2)%Z by lia.
        rewrite Z.div_add by lia. change (2 * 60)%Z with 120%Z. lia. }
      assert (Hpos : (0 <= (pages / 2) mod 60)%Z)
        by (apply Z.mod_pos_bound; lia).
      rewrite py_int_nonneg.
      * rewrite (Qfloor_comp _ _ Hm), Qfloor_half, Hmod. reflexivity.
      * rewrite Hm. rewrite <- Hmod in Hpos.
        pose proof (Qfloor_le (inject_Z (pages + - (pages / 120) * 120)
                               * (1 # 2))) as Hfl.
        rewrite Qfloor_half in Hfl.
        assert (inject_Z 0 <= inject_Z ((pages + - (pages / 120) * 120) / 2))
          by (rewrite <- Zle_Qle; exact Hpos).
        change (inject_Z 0) with 0 in *. lra.
Qed.

Lemma calculate_cutting_layout_spec_witness :
  exists cutting optimal,
    calculate_cutting_layout default_manager 20 =
      (Ok {| cutting_layout := cutting; has_cutting_guides := true |},
       default_manager) /\
    calculate_optimal_layout
      (with_spacing (with_margin default_manager
                       (margin_mm default_manager + 5))
         (card_spacing_mm default_manager + 3)) 20 = Ok cutting /\
    calculate_optimal_layout default_manager 20 = Ok optimal /\
    (cols cutting <= cols optimal)%Z /\
    (rows cutting <= rows optimal)%Z /\
    (cards_per_page cutting <= cards_per_page optimal)%Z /\
    (total_pages optimal <= total_pages cutting)%Z.
Proof.
  apply (calculate_cutting_layout_spec default_manager 20).
  - exact default_manager_positive.
  - discriminate.
Defined.

Lemma suggest_alternative_layouts_spec_witness :
  exists optimal compact,
    calculate_optimal_layout default_manager 20 = Ok optimal /\
    calculate_optimal_layout (with_margin default_manager 5) 20 = Ok compact /\
    cards_per_page optimal = cards_per_page compact.
Proof.
  destruct (suggest_alternative_layouts_spec default_manager 20)
    as (optimal & landscape & compact & Hopt & _ & Hcomp & _ & Hge & Hle).
  - reflexivity.
  - reflexivity.
  - discriminate.
  - exists optimal, compact. split; [exact Hopt|]. split; [exact Hcomp|].
    assert (5 <= margin_mm default_manager) as H1 by (vm_compute; discriminate).
    assert (margin_mm default_manager <= 5) as H2 by (vm_compute; discriminate).
    specialize (Hge H1). specialize (Hle H2). lia.
Defined.

Lemma _estimate_print_time_spec_witness :
  _estimate_print_time 250 = Some "2h 5m"%string.
Proof.
  exact (proj1 (_estimate_print_time_spec 250 ltac:(vm_compute; discriminate))).
Defined.

End LayoutMore.

(** ** Facts about the page assembly of the PDF generator *)

Module PdfFacts.
Import PageLayout PageLayoutRest PdfGenerator PageLayoutFacts LayoutMore.

(** Enumerating a grid row after row is enumerating its cells in order. *)
Lemma row_major {B} (g : Z -> B) (c : Z) (r : nat) :
  (0 <= c)%Z ->
  concat (List.map (fun row =>
            List.map (fun col => g (row * c + col)%Z) (seqZ 0 c))
            (seqZ 0 (Z.of_nat r))) =
  List.map g (seqZ 0 (Z.of_nat r * c)).
Proof.
  intros Hc. induction r as [|r IH].
  - reflexivity.
  - replace (Z.of_nat (S r)) with (Z.of_nat r + 1)%Z by lia.
    rewrite seqZ_app by lia. rewrite List.map_app, concat_app, IH.
    replace ((Z.of_nat r + 1) * c)%Z with (Z.of_nat r * c + c)%Z by lia.
    rewrite (seqZ_app 0 (Z.of_nat r * c) c) by nia.
    rewrite List.map_app. f_equal.
    rewrite !Z.add_0_l.
    replace (seqZ (Z.of_nat r) 1) with [Z.of_nat r]
      by (unfold seqZ; cbn; f_equal; lia).
    cbn [List.map concat]. rewrite app_nil_r.
    replace (seqZ (Z.of_nat r * c) c) with (seqZ (Z.of_nat r * c + 0) c)
      by (now rewrite Z.add_0_r).
    rewrite <- (fmap_add_seqZ (Z.of_nat r * c) 0 c).
    change (List.map g ((Z.add (Z.of_nat r * c)) <$> seqZ 0 c))
      with (List.map g (List.map (Z.add (Z.of_nat r * c)) (seqZ 0 c))).
    rewrite List.map_map. reflexivity.
Qed.

Section story_facts.
Context {Image : Type}.
Variable optimize : Image -> Image.
Variable width_mm height_mm : Q.

(** The cells up to the number of cards show the cards, in order. *)
Lemma cells_of_cards (cards : list Image) :
  flat_map cell_cards
    (List.map (cell_at optimize width_mm height_mm cards)
       (seqZ 0 (Z.of_nat (length cards)))) =
  List.map optimize cards.
Proof.
  induction cards as [|x cards IH] using rev_ind; [reflexivity|].
  rewrite length_app. cbn [length].
  replace (Z.of_nat (length cards + 1)) with (Z.of_nat (length cards) + 1)%Z
    by lia.
  rewrite seqZ_app by lia. rewrite !List.map_app, flat_map_app.
  f_equal.
  - rewrite <- IH. f_equal. apply List.map_ext_in. intros i Hi.
    apply list_elem_of_In, elem_of_seqZ in Hi. unfold cell_at.
    rewrite length_app. cbn [length].
    destruct (Z.ltb_spec i (Z.of_nat (length cards))); [|lia].
    destruct (Z.ltb_spec i (Z.of_nat (length cards + 1))); [|lia].
    rewrite lookup_app_l by lia. reflexivity.
  - rewrite Z.add_0_l.
    replace (seqZ (Z.of_nat (length cards)) 1) with [Z.of_nat (length cards)]
      by (unfold seqZ; cbn; f_equal; lia).
    cbn [List.map flat_map]. rewrite app_nil_r.
    unfold cell_at. rewrite length_app. cbn [length].
    destruct (Z.ltb_spec (Z.of_nat (length cards))
                (Z.of_nat (length cards + 1))); [|lia].
    rewrite Nat2Z.id, list_lookup_middle by reflexivity.
    reflexivity.
Qed.

(** The cells past the number of cards are empty. *)
Lemma cells_past_cards (cards : list Image) (n : Z) :
  flat_map cell_cards
    (List.map (cell_at optimize width_mm height_mm cards)
       (seqZ (Z.of_nat (length cards)) n)) = [].
Proof.
  rewrite flat_map_concat_map, List.map_map.
  apply concat_nil_Forall, List.Forall_map, List.Forall_forall.
  intros i Hi. apply list_elem_of_In, elem_of_seqZ in Hi.
  unfold cell_at.
  destruct (Z.ltb_spec i (Z.of_nat (length cards))); [lia|reflexivity].
Qed.

(** One page: its table shows the cards it was given, in order, provided
    they are no more than the grid has cells. *)
Lemma page_content_cards (cards : list Image) layout_info :
  (0 <= rows layout_info)%Z -> (0 <= cols layout_info)%Z ->
  (Z.of_nat (length cards) <= rows layout_info * cols layout_info)%Z ->
  story_cards (_create_page_content optimize width_mm height_mm cards layout_info)
  = List.map optimize cards.
Proof.
  intros Hr Hc Hlen. unfold story_cards, _create_page_content. cbv zeta.
  cbn [flat_map flowable_cards]. rewrite app_nil_r. unfold range.
  rewrite <- (Z2Nat.id (rows layout_info)) at 1 by exact Hr.
  transitivity
    (flat_map cell_cards
       (List.map (cell_at optimize width_mm height_mm cards)
          (seqZ 0 (Z.of_nat (Z.to_nat (rows layout_info))
                   * cols layout_info)))).
  { f_equal.
    exact (row_major (cell_at optimize width_mm height_mm cards)
             (cols layout_info) (Z.to_nat (rows layout_info)) Hc). }
  rewrite Z2Nat.id by exact Hr.
  replace (rows layout_info * cols layout_info)%Z
    with (Z.of_nat (length cards)
          + (rows layout_info * cols layout_info - Z.of_nat (length cards)))%Z
    by lia.
  rewrite seqZ_app by lia. rewrite List.map_app, flat_map_app.
  rewrite cells_of_cards, Z.add_0_l, cells_past_cards. apply app_nil_r.
Qed.

Lemma page_content_grid (cards : list Image) layout_info :
  (0 <= rows layout_info)%Z -> (0 <= cols layout_info)%Z ->
  (Z.of_nat (length cards) <= rows layout_info * cols layout_info)%Z ->
  cards <> [] ->
  Forall (full_grid (rows layout_info) (cols layout_info))
    (_create_page_content optimize width_mm height_mm cards layout_info).
Proof.
  intros Hr Hc Hlen Hne.
  pose proof (page_content_cards cards layout_info Hr Hc Hlen) as Hcards.
  unfold _create_page_content in *. cbv zeta in *.
  apply Forall_cons. split; [|now apply Forall_nil].
  unfold full_grid. split; [|split; [|split; [|split]]].
  - unfold range. now rewrite length_map, length_seqZ.
  - apply List.Forall_map, List.Forall_forall. intros row _.
    unfold range. now rewrite length_map, length_seqZ.
  - apply length_replicate.
  - apply length_replicate.
  - unfold story_cards in Hcards. cbn [flat_map] in Hcards.
    rewrite app_nil_r in Hcards. rewrite Hcards.
    destruct cards; [contradiction|discriminate].
Qed.

End story_facts.

(** The slice of a page that starts inside the list. *)
Lemma page_cards_inside {A} (cards : list A) (cards_per_page page_num : Z) :
  (1 <= cards_per_page)%Z -> (0 <= page_num)%Z ->
  (page_num * cards_per_page < Z.of_nat (length cards))%Z ->
  page_cards cards cards_per_page page_num =
  take (Z.to_nat (Z.min cards_per_page
                    (Z.of_nat (length cards) - page_num * cards_per_page)))
    (drop (Z.to_nat (page_num * cards_per_page)) cards).
Proof.
  intros Hc Hp Hin. unfold page_cards, py_slice, slice_index. cbv zeta.
  destruct (Z.ltb_spec (page_num * cards_per_page) 0); [nia|].
  destruct (Z.ltb_spec (Z.min (page_num * cards_per_page + cards_per_page)
                          (Z.of_nat (length cards))) 0); [lia|].
  f_equal; [|f_equal]; lia.
Qed.

Lemma length_page_cards {A} (cards : list A) (cards_per_page page_num : Z) :
  (1 <= cards_per_page)%Z -> (0 <= page_num)%Z ->
  (page_num * cards_per_page < Z.of_nat (length cards))%Z ->
  (1 <= Z.of_nat (length (page_cards cards cards_per_page page_num))
     <= cards_per_page)%Z.
Proof.
  intros Hc Hp Hin. rewrite page_cards_inside by assumption.
  rewrite length_take, length_drop. lia.
Qed.

(** The first [k] pages are the first [k * cards_per_page] cards. *)
Lemma pages_concat {A} (cards : list A) (cards_per_page : Z) (k : nat) :
  (1 <= cards_per_page)%Z ->
  ((Z.of_nat k - 1) * cards_per_page < Z.of_nat (length cards))%Z ->
  concat (List.map (page_cards cards cards_per_page) (seqZ 0 (Z.of_nat k))) =
  take (Z.to_nat (Z.min (Z.of_nat k * cards_per_page)
                    (Z.of_nat (length cards)))) cards.
Proof.
  intros Hc. induction k as [|k IH]; intros Hin.
  { cbn. now rewrite Z.min_l by lia. }
  replace (Z.of_nat (S k)) with (Z.of_nat k + 1)%Z in * by lia.
  rewrite seqZ_app by lia. rewrite List.map_app, concat_app, IH by nia.
  rewrite Z.add_0_l.
  replace (seqZ (Z.of_nat k) 1) with [Z.of_nat k]
    by (unfold seqZ; cbn; f_equal; lia).
  cbn [List.map concat]. rewrite app_nil_r.
  rewrite page_cards_inside by nia.
  replace (Z.min (Z.of_nat k * cards_per_page) (Z.of_nat (length cards)))
    with (Z.of_nat k * cards_per_page)%Z by nia.
  rewrite take_take_drop. f_equal. nia.
Qed.

Lemma ceil_pages_bounds (n c : Z) :
  (1 <= n)%Z -> (1 <= c)%Z ->
  let pages := ((n + c - 1) / c)%Z in
  (1 <= pages)%Z /\ ((pages - 1) * c < n)%Z /\ (n <= pages * c)%Z.
Proof.
  intros Hn Hc pages.
  pose proof (Z.div_mod (n + c - 1) c ltac:(lia)) as Hdm.
  pose proof (Z.mod_pos_bound (n + c - 1) c ltac:(lia)) as Hb.
  fold pages in Hdm. split; [|split]; nia.
Qed.

Section assembly.
Context {Image : Type}.
Variable optimize : Image -> Image.
Variable width_mm height_mm : Q.

(** The flowables of the pages of a list of page numbers that all start
    inside the cards. *)
Lemma story_of_pages (cards : list Image) layout_info cards_per_page
    total_pages (l : list Z) :
  let body := fun page_num : Z =>
    _create_page_content optimize width_mm height_mm
      (page_cards cards cards_per_page page_num) layout_info
    ++ (if (page_num <? total_pages - 1)%Z then [Spacer 1 0] else []) in
  (1 <= cards_per_page)%Z ->
  (0 <= rows layout_info)%Z -> (0 <= cols layout_info)%Z ->
  cards_per_page = (rows layout_info * cols layout_info)%Z ->
  (forall p, In p l ->
     (0 <= p)%Z /\ (p * cards_per_page < Z.of_nat (length cards))%Z) ->
  story_cards (flat_map body l) =
    List.map optimize (concat (List.map (page_cards cards cards_per_page) l)) /\
  length (List.filter is_table (flat_map body l)) = length l /\
  Forall (full_grid (rows layout_info) (cols layout_info)) (flat_map body l).
Proof.
  intros body Hc Hr Hco Hcpp. induction l as [|p l IH]; intros Hl.
  - cbn. repeat split. apply Forall_nil. exact I.
  - destruct IH as (IH1 & IH2 & IH3).
    { intros q Hq. apply Hl. now right. }
    destruct (Hl p) as [Hp0 Hp]; [now left|].
    pose proof (length_page_cards cards cards_per_page p Hc Hp0 Hp) as Hlen.
    assert (Hfit : (Z.of_nat (length (page_cards cards cards_per_page p))
                    <= rows layout_info * cols layout_info)%Z) by lia.
    assert (Hne : page_cards cards cards_per_page p <> []).
    { intros E. rewrite E in Hlen. cbn in Hlen. lia. }
    pose proof (page_content_cards optimize width_mm height_mm _ _ Hr Hco Hfit)
      as Hcards.
    pose proof (page_content_grid optimize width_mm height_mm _ _ Hr Hco Hfit
                  Hne) as Hgrid.
    cbn [flat_map List.map concat]. split; [|split].
    + unfold story_cards in *. rewrite flat_map_app, IH1, List.map_app.
      f_equal. unfold body. rewrite flat_map_app, Hcards.
      destruct (_ <? _)%Z; cbn; apply app_nil_r.
    + rewrite List.filter_app, length_app, IH2. unfold body.
      rewrite List.filter_app, length_app.
      unfold _create_page_content. cbv zeta. cbn [List.filter is_table length].
      destruct (_ <? _)%Z; reflexivity.
    + apply Forall_app. split; [|exact IH3]. unfold body.
      apply Forall_app. split; [exact Hgrid|].
      destruct (_ <? _)%Z; [|now apply Forall_nil].
      apply Forall_cons. split; [exact I|now apply Forall_nil].
Qed.

(** All pages but the last are followed by a page break. *)
Lemma story_length (cards : list Image) layout_info cards_per_page
    total_pages :
  let body := fun page_num : Z =>
    _create_page_content optimize width_mm height_mm
      (page_cards cards cards_per_page page_num) layout_info
    ++ (if (page_num <? total_pages - 1)%Z then [Spacer 1 0] else []) in
  (1 <= total_pages)%Z ->
  Z.of_nat (length (flat_map body (seqZ 0 total_pages))) =
  (2 * total_pages - 1)%Z.
Proof.
  intros body Hp.
  assert (Hk : forall k : nat, (Z.of_nat k <= total_pages - 1)%Z ->
            length (flat_map body (seqZ 0 (Z.of_nat k))) = (2 * k)%nat).
  { induction k as [|k IH]; intros Hk; [reflexivity|].
    replace (Z.of_nat (S k)) with (Z.of_nat k + 1)%Z in * by lia.
    rewrite seqZ_app by lia. rewrite flat_map_app, length_app, IH by lia.
    rewrite Z.add_0_l.
    replace (seqZ (Z.of_nat k) 1) with [Z.of_nat k]
      by (unfold seqZ; cbn; f_equal; lia).
    cbn [flat_map]. rewrite app_nil_r. unfold body.
    destruct (Z.ltb_spec (Z.of_nat k) (total_pages - 1)); [|lia].
    unfold _create_page_content. cbn [length app]. lia. }
  replace total_pages with (Z.of_nat (Z.to_nat (total_pages - 1)) + 1)%Z at 1
    by lia.
  rewrite seqZ_app by lia. rewrite flat_map_app, length_app, Hk by lia.
  rewrite Z.add_0_l.
  replace (seqZ (Z.of_nat (Z.to_nat (total_pages - 1))) 1)
    with [Z.of_nat (Z.to_nat (total_pages - 1))]
    by (unfold seqZ; cbn; f_equal; lia).
  cbn [flat_map]. rewrite app_nil_r. unfold body.
  destruct (Z.ltb_spec (Z.of_nat (Z.to_nat (total_pages - 1)))
              (total_pages - 1)); [lia|].
  unfold _create_page_content. cbn [length app]. lia.
Qed.

(** X26. On a card that is not degenerate [generate_cards_pdf] lays out
    every card it is given exactly once and in the order given: reading
    the tables of the story page after page and row after row gives the
    cards, each passed through [_optimize_card_for_print]. The story has
    one table per page of the layout, each a full grid of [rows] by [cols]
    cells with at least one card, and one page break between two pages. *)
Theorem generate_cards_pdf_places_every_card page_layout (cards : list Image) :
  ~ degenerate page_layout ->
  cards <> [] ->
  exists plan layout_info,
    calculate_optimal_layout page_layout (Z.of_nat (length cards))
      = Ok layout_info /\
    generate_cards_pdf optimize width_mm height_mm page_layout cards
      = Done plan /\
    story_cards (story plan) = List.map optimize cards /\
    result_total_pages plan = total_pages layout_info /\
    result_cards_per_page plan = cards_per_page layout_info /\
    Z.of_nat (length (List.filter is_table (story plan)))
      = total_pages layout_info /\
    Z.of_nat (length (story plan)) = (2 * total_pages layout_info - 1)%Z /\
    Forall (full_grid (rows layout_info) (cols layout_info)) (story plan).
Proof.
  intros Hnd Hne.
  destruct (proj2 (calculate_optimal_layout_raises page_layout
                     (Z.of_nat (length cards))) Hnd) as [layout_info Hl].
  destruct (layout_grid_positive _ _ _ Hl) as (Hr & Hc & Hcpp & Htp).
  assert (Hcpp1 : (1 <= cards_per_page layout_info)%Z) by nia.
  assert (Hn : (1 <= Z.of_nat (length cards))%Z).
  { destruct cards; [contradiction|]. cbn [length]. lia. }
  destruct (ceil_pages_bounds _ _ Hn Hcpp1) as (Hp1 & Hp2 & Hp3).
  rewrite <- Htp in Hp1, Hp2, Hp3.
  eexists _, layout_info. split; [exact Hl|]. split.
  { unfold generate_cards_pdf. destruct cards as [|x cards']; [contradiction|].
    rewrite Hl. cbv zeta.
    destruct (Z.eqb_spec (cards_per_page layout_info) 0); [lia|].
    reflexivity. }
  cbn [story result_total_pages result_cards_per_page].
  rewrite <- Htp.
  destruct (story_of_pages cards layout_info (cards_per_page layout_info)
              (total_pages layout_info) (range (total_pages layout_info))
              Hcpp1 ltac:(lia) ltac:(lia) Hcpp) as (Hcards & Htables & Hgrid).
  { intros p Hp. apply list_elem_of_In, elem_of_seqZ in Hp. nia. }
  split.
  { rewrite Hcards. f_equal. unfold range.
    rewrite <- (Z2Nat.id (total_pages layout_info)) at 1 by lia.
    rewrite pages_concat by (try rewrite Z2Nat.id by lia; lia).
    rewrite Z2Nat.id by lia.
    rewrite Z.min_r by lia. rewrite Nat2Z.id. apply firstn_all. }
  split; [reflexivity|]. split; [reflexivity|]. split.
  { rewrite Htables. unfold range. rewrite length_seqZ. lia. }
  split; [|exact Hgrid].
  apply story_length. exact Hp1.
Qed.

(** X27. [estimate_pdf_size] predicts the page count of
    [generate_cards_pdf]: whenever the generator gets as far as building
    the file for some cards, the estimate for that number of cards has the
    generator's [total_pages] and [cards_per_page], and half a megabyte per
    page. *)
Theorem estimate_pdf_size_agrees page_layout (cards : list Image) plan :
  generate_cards_pdf optimize width_mm height_mm page_layout cards
    = Done plan ->
  result_total_cards plan = Z.of_nat (length cards) /\
  estimate_pdf_size page_layout (Z.of_nat (length cards)) =
    Ok (result_total_pages plan,
        (inject_Z (result_total_pages plan) * (1 # 2))%Q,
        result_cards_per_page plan).
Proof.
  unfold generate_cards_pdf, estimate_pdf_size.
  destruct cards as [|x cards']; [discriminate|].
  destruct (calculate_optimal_layout _ _) as [layout_info|e] eqn:Hl;
    [|discriminate].
  cbv zeta. destruct (_ =? _)%Z; [discriminate|].
  intros [= <-]. cbn [result_total_cards result_total_pages
                      result_cards_per_page].
  destruct (layout_grid_positive _ _ _ Hl) as (_ & _ & _ & Htp).
  split; [reflexivity|]. now rewrite Htp.
Qed.

End assembly.

Lemma generate_cards_pdf_places_every_card_witness :
  exists plan layout_info,
    calculate_optimal_layout default_manager 10 = Ok layout_info /\
    generate_cards_pdf S 63 88 default_manager
      [1; 2; 3; 4; 5; 6; 7; 8; 9; 10]%nat = Done plan /\
    story_cards (story plan) = [2; 3; 4; 5; 6; 7; 8; 9; 10; 11]%nat /\
    result_total_pages plan = total_pages layout_info /\
    result_cards_per_page plan = cards_per_page layout_info /\
    Z.of_nat (length (List.filter is_table (story plan)))
      = total_pages layout_info /\
    Z.of_nat (length (story plan)) = (2 * total_pages layout_info - 1)%Z /\
    Forall (full_grid (rows layout_info) (cols layout_info)) (story plan).
Proof.
  apply (generate_cards_pdf_places_every_card S 63 88 default_manager
           [1; 2; 3; 4; 5; 6; 7; 8; 9; 10]%nat).
  - intros [E|E]; vm_compute in E; discriminate.
  - discriminate.
Defined.

Lemma estimate_pdf_size_agrees_witness :
  exists plan,
    generate_cards_pdf S 63 88 default_manager
      [1; 2; 3; 4; 5; 6; 7; 8; 9; 10]%nat = Done plan /\
    estimate_pdf_size default_manager 10 =
      Ok (result_total_pages plan,
          (inject_Z (result_total_pages plan) * (1 # 2))%Q,
          result_cards_per_page plan).
Proof.
  eexists. split; [vm_compute; reflexivity|].
  match goal with |- estimate_pdf_size _ _ = Ok (result_total_pages ?p, _, _) =>
    exact (proj2 (estimate_pdf_size_agrees S 63 88 default_manager
                    [1; 2; 3; 4; 5; 6; 7; 8; 9; 10]%nat p eq_refl))
  end.
Defined.

End PdfFacts.
